(** * Few_Shot annotator: the annotation session engine

    A shallow embedding of the engine part of [Few_Shot/draw_boxes_.py]
    (module [Draw_boxes_]) and of the older variant [Few_Shot/draw_boxes.py]
    (module [Draw_boxes]), followed by the properties of the engine.

    Conventions of the embedding.
    - Python [dict]s are [gmap]s; the per-image box lists are Python list
      objects that the program shares between the working mapping and the
      in-memory annotation store, so they live in an explicit heap and the
      dictionaries hold their addresses.
    - Pointer coordinates are integer pixels ([canvasx]/[canvasy] of an
      event coordinate is an integer-valued float), so they are [Z] and
      [int(...)] is the identity on them.
    - Strings are UTF-8 byte strings.  [str.lower], [str.strip] and
      [str.title] are defined here for ASCII strings; for a string with
      other characters their results are taken from the environment
      (Python's Unicode tables are not part of the program).
    - The window layout, the canvas items and the status-bar text are not
      part of the engine; what the buttons, the count labels and the wheel
      handler are given is a function of the state; the modal dialogs
      ([messagebox]) are recorded in a log, their answers are arguments of
      the operations. *)

From stdpp Require Import base option list sorting gmap strings.
From Stdlib Require Import ZArith Ascii Lia.

Local Open Scope string_scope.
Local Open Scope list_scope.

(** ** Python strings *)

Module PyStr.

(** Every character is in the ASCII range. *)
Fixpoint is_ascii (s : string) : bool :=
  match s with
  | EmptyString => true
  | String c s' => (nat_of_ascii c <? 128)%nat && is_ascii s'
  end.

(** [str.isspace] on one ASCII character. *)
Definition isspace (c : ascii) : bool :=
  let n := nat_of_ascii c in
  ((9 <=? n)%nat && (n <=? 13)%nat) || ((28 <=? n)%nat && (n <=? 32)%nat).

Definition lower_char (c : ascii) : ascii :=
  let n := nat_of_ascii c in
  if ((65 <=? n)%nat && (n <=? 90)%nat)%bool then ascii_of_nat (n + 32) else c.

(** [s.lower()] *)
Fixpoint lower (s : string) : string :=
  match s with
  | EmptyString => EmptyString
  | String c s' => String (lower_char c) (lower s')
  end.

Definition islower (c : ascii) : bool :=
  let n := nat_of_ascii c in (97 <=? n)%nat && (n <=? 122)%nat.

Definition isupper (c : ascii) : bool :=
  let n := nat_of_ascii c in (65 <=? n)%nat && (n <=? 90)%nat.

Definition upper_char (c : ascii) : ascii :=
  if islower c then ascii_of_nat (nat_of_ascii c - 32) else c.

(** [s.title()]: a cased character is upper-cased when it follows an
    uncased one (or starts the string) and lower-cased otherwise. *)
Fixpoint title_from (previous_is_cased : bool) (s : string) : string :=
  match s with
  | EmptyString => EmptyString
  | String c s' =>
      if islower c then
        String (if previous_is_cased then c else upper_char c) (title_from true s')
      else if isupper c then
        String (if previous_is_cased then lower_char c else c) (title_from true s')
      else String c (title_from false s')
  end.

Definition title (s : string) : string := title_from false s.

(** [s.lstrip()] *)
Fixpoint lstrip (s : string) : string :=
  match s with
  | EmptyString => EmptyString
  | String c s' => if isspace c then lstrip s' else s
  end.

(** [s.rstrip()] *)
Fixpoint rstrip (s : string) : string :=
  match s with
  | EmptyString => EmptyString
  | String c s' =>
      match rstrip s' with
      | EmptyString => if isspace c then EmptyString else String c EmptyString
      | r => String c r
      end
  end.

(** [s.strip()] *)
Definition strip (s : string) : string := rstrip (lstrip s).

(** Truth value of a string: [bool(s)]. *)
Definition truthy (s : string) : bool :=
  match s with EmptyString => false | _ => true end.

(** [sorted(names)] on strings: ascending in the lexicographic order of
    the characters. *)
Definition sorted (l : list string) : list string := merge_sort String.le l.

End PyStr.

(** ** Boxes and the display surface *)

(** A box is the Python list [[x1, y1, x2, y2]]. *)
Definition bbox : Type := list Z.

(** [IMAGE_DISPLAY_SIZE = (500, 500)] *)
Definition IMAGE_DISPLAY_SIZE : Z * Z := (500%Z, 500%Z).

Definition ANNOTATIONS_FILE : string := "annotations.json".
Definition PROGRESS_FILE : string := "progress.json".
Definition ANNOTATION_TYPES_FILE : string := "annotation_types.json".

Example lower_Tables : PyStr.strip (PyStr.lower "  Tables ") = "tables".
Proof. reflexivity. Qed.

Example sorted_CAB : PyStr.sorted ["C"; "A"; "B"] = ["A"; "B"; "C"].
Proof. vm_compute. reflexivity. Qed.

(** ** Shared by the two variants *)

(** *** Python list objects

    The per-image box lists are mutable objects: [list.append] and
    [list.pop] change them in place, and [dict.copy] copies the
    references, not the lists.  [cells] maps the address of a list
    object to its current content, [next_loc] is the next free address. *)

Record Heap := mkHeap { cells : gmap nat (list bbox); next_loc : nat }.

(** A new list object holding [v] ([[]], or [lst.copy()]). *)
Definition alloc (v : list bbox) (h : Heap) : nat * Heap :=
  (next_loc h, mkHeap (<[next_loc h := v]> (cells h)) (S (next_loc h))).

(** The content of the list object at [l]. *)
Definition deref (h : Heap) (l : nat) : list bbox := default [] (cells h !! l).

(** In-place update of the list object at [l]. *)
Definition mutate (l : nat) (f : list bbox → list bbox) (h : Heap) : Heap :=
  mkHeap (<[l := f (deref h l)]> (cells h)) (next_loc h).

(** [canvas_drawing_state[canvas]] *)
Record DrawState := mkDrawState {
  image_name : option string;
  start_x : Z;
  start_y : Z;
  active_rect_id : option nat
}.

(** [{}] *)
Definition empty_draw_state : DrawState := mkDrawState None 0 0 None.

(** The modal dialogs shown to the user, with the answer where there is
    one. *)
Inductive Dialog :=
| ShowInfo (title message : string)
| ShowError (title message : string)
| AskYesNo (title message : string) (answer : bool)
| AskString (title : string) (answer : option string).

(** ** The newer variant: [Few_Shot/draw_boxes_.py] *)

Module Draw_boxes_.

(** *** Data *)

(** A value of [annotations_data]: the dict
    [{"type_of_annotation": ..., "annotations": {image: list}}]; either
    key may be missing in a record read from disk, a missing
    ["annotations"] reads as the empty dict. *)
Record SubfolderData := mkSubfolderData {
  type_of_annotation : option string;
  annotations : gmap string nat
}.

(** The same record as a JSON value (box lists by content). *)
Record SubfolderJson := mkSubfolderJson {
  json_type : option string;
  json_annotations : gmap string (list bbox)
}.

(** The documents the program keeps on disk.  [DocProgress c] is the
    object whose ["completed_subfolders"] entry is [c] (if any);
    [DocCorrupt] is a file that [json.load] rejects. *)
Inductive JsonDoc :=
| DocAnnotations (j : gmap string SubfolderJson)
| DocProgress (completed : option (list string))
| DocTypes (types : list string)
| DocCorrupt.

(** The world outside the process. *)
Record Env := mkEnv {
  (** answer of [filedialog.askdirectory] *)
  askdirectory : string;
  (** the directories inside the main folder, in [os.listdir]'s order;
      [None] when listing raises *)
  listdir_dirs : option (list string);
  (** the text of the exception when it does *)
  listdir_error : string;
  (** the file names inside a subfolder, in [os.listdir]'s order *)
  listdir_files : string → list string;
  (** whether [Image.open(...).resize(...)] and [PhotoImage] succeed for
      a file of a subfolder *)
  image_loads : string → string → bool;
  (** whether [open(path, 'w')] and [json.dump] succeed *)
  can_write : string → bool;
  (** when they do not: the text of the [IOError], and what the file
      holds afterwards ([None]: what it held before, [open] itself
      failed; otherwise [open(path, 'w')] truncated the file and this is
      what was written before the error) *)
  write_failure : string → string * option JsonDoc;
  (** [str.lower], [str.strip] and [str.title] of a string that has
      characters outside ASCII *)
  unicode_lower : string → string;
  unicode_strip : string → string;
  unicode_title : string → string
}.

(** The attributes of [AnnotationApp] the engine uses.  [canvas]es are
    numbered 0 to 3; the Tk variable and the combobox values are kept by
    value. *)
Record App := mkApp {
  subfolders : list string;
  current_subfolder_index : Z;
  current_subfolder_name : string;
  annotations_data : gmap string SubfolderData;
  (** [progress_data.get("completed_subfolders")] *)
  progress_data : option (list string);
  current_image_names : list (option string);
  annotation_type_var : string;
  annotation_types : list string;
  (** [annotation_type_combo['values']] *)
  combo_values : list string;
  drawn_bbox_ids_on_canvas : gmap string (list nat);
  current_subfolder_active_annotations : gmap string nat;
  canvas_drawing_state : list DrawState;
  (** top of the stack at the end of the list, as in Python *)
  undo_stack : list (nat * string);
  unsaved_changes : bool;
  heap : Heap;
  (** next canvas item id; ids are positive *)
  next_item : nat;
  disk : gmap string JsonDoc;
  dialogs : list Dialog;
  (** [root.destroy()] was called *)
  destroyed : bool
}.

Definition with_subfolders v (s : App) : App :=
  mkApp v (current_subfolder_index s) (current_subfolder_name s) (annotations_data s)
    (progress_data s) (current_image_names s) (annotation_type_var s) (annotation_types s)
    (combo_values s) (drawn_bbox_ids_on_canvas s) (current_subfolder_active_annotations s)
    (canvas_drawing_state s) (undo_stack s) (unsaved_changes s) (heap s) (next_item s)
    (disk s) (dialogs s) (destroyed s).
Definition with_current_subfolder v n (s : App) : App :=
  mkApp (subfolders s) v n (annotations_data s)
    (progress_data s) (current_image_names s) (annotation_type_var s) (annotation_types s)
    (combo_values s) (drawn_bbox_ids_on_canvas s) (current_subfolder_active_annotations s)
    (canvas_drawing_state s) (undo_stack s) (unsaved_changes s) (heap s) (next_item s)
    (disk s) (dialogs s) (destroyed s).
Definition with_annotations_data v (s : App) : App :=
  mkApp (subfolders s) (current_subfolder_index s) (current_subfolder_name s) v
    (progress_data s) (current_image_names s) (annotation_type_var s) (annotation_types s)
    (combo_values s) (drawn_bbox_ids_on_canvas s) (current_subfolder_active_annotations s)
    (canvas_drawing_state s) (undo_stack s) (unsaved_changes s) (heap s) (next_item s)
    (disk s) (dialogs s) (destroyed s).
Definition with_progress_data v (s : App) : App :=
  mkApp (subfolders s) (current_subfolder_index s) (current_subfolder_name s) (annotations_data s)
    v (current_image_names s) (annotation_type_var s) (annotation_types s)
    (combo_values s) (drawn_bbox_ids_on_canvas s) (current_subfolder_active_annotations s)
    (canvas_drawing_state s) (undo_stack s) (unsaved_changes s) (heap s) (next_item s)
    (disk s) (dialogs s) (destroyed s).
Definition with_current_image_names v (s : App) : App :=
  mkApp (subfolders s) (current_subfolder_index s) (current_subfolder_name s) (annotations_data s)
    (progress_data s) v (annotation_type_var s) (annotation_types s)
    (combo_values s) (drawn_bbox_ids_on_canvas s) (current_subfolder_active_annotations s)
    (canvas_drawing_state s) (undo_stack s) (unsaved_changes s) (heap s) (next_item s)
    (disk s) (dialogs s) (destroyed s).
Definition with_annotation_type_var v (s : App) : App :=
  mkApp (subfolders s) (current_subfolder_index s) (current_subfolder_name s) (annotations_data s)
    (progress_data s) (current_image_names s) v (annotation_types s)
    (combo_values s) (drawn_bbox_ids_on_canvas s) (current_subfolder_active_annotations s)
    (canvas_drawing_state s) (undo_stack s) (unsaved_changes s) (heap s) (next_item s)
    (disk s) (dialogs s) (destroyed s).
Definition with_annotation_types v (s : App) : App :=
  mkApp (subfolders s) (current_subfolder_index s) (current_subfolder_name s) (annotations_data s)
    (progress_data s) (current_image_names s) (annotation_type_var s) v
    (combo_values s) (drawn_bbox_ids_on_canvas s) (current_subfolder_active_annotations s)
    (canvas_drawing_state s) (undo_stack s) (unsaved_changes s) (heap s) (next_item s)
    (disk s) (dialogs s) (destroyed s).
Definition with_combo_values v (s : App) : App :=
  mkApp (subfolders s) (current_subfolder_index s) (current_subfolder_name s) (annotations_data s)
    (progress_data s) (current_image_names s) (annotation_type_var s) (annotation_types s)
    v (drawn_bbox_ids_on_canvas s) (current_subfolder_active_annotations s)
    (canvas_drawing_state s) (undo_stack s) (unsaved_changes s) (heap s) (next_item s)
    (disk s) (dialogs s) (destroyed s).
Definition with_drawn_bbox_ids_on_canvas v (s : App) : App :=
  mkApp (subfolders s) (current_subfolder_index s) (current_subfolder_name s) (annotations_data s)
    (progress_data s) (current_image_names s) (annotation_type_var s) (annotation_types s)
    (combo_values s) v (current_subfolder_active_annotations s)
    (canvas_drawing_state s) (undo_stack s) (unsaved_changes s) (heap s) (next_item s)
    (disk s) (dialogs s) (destroyed s).
Definition with_active_annotations v (s : App) : App :=
  mkApp (subfolders s) (current_subfolder_index s) (current_subfolder_name s) (annotations_data s)
    (progress_data s) (current_image_names s) (annotation_type_var s) (annotation_types s)
    (combo_values s) (drawn_bbox_ids_on_canvas s) v
    (canvas_drawing_state s) (undo_stack s) (unsaved_changes s) (heap s) (next_item s)
    (disk s) (dialogs s) (destroyed s).
Definition with_canvas_drawing_state v (s : App) : App :=
  mkApp (subfolders s) (current_subfolder_index s) (current_subfolder_name s) (annotations_data s)
    (progress_data s) (current_image_names s) (annotation_type_var s) (annotation_types s)
    (combo_values s) (drawn_bbox_ids_on_canvas s) (current_subfolder_active_annotations s)
    v (undo_stack s) (unsaved_changes s) (heap s) (next_item s)
    (disk s) (dialogs s) (destroyed s).
Definition with_undo_stack v (s : App) : App :=
  mkApp (subfolders s) (current_subfolder_index s) (current_subfolder_name s) (annotations_data s)
    (progress_data s) (current_image_names s) (annotation_type_var s) (annotation_types s)
    (combo_values s) (drawn_bbox_ids_on_canvas s) (current_subfolder_active_annotations s)
    (canvas_drawing_state s) v (unsaved_changes s) (heap s) (next_item s)
    (disk s) (dialogs s) (destroyed s).
Definition with_unsaved_changes v (s : App) : App :=
  mkApp (subfolders s) (current_subfolder_index s) (current_subfolder_name s) (annotations_data s)
    (progress_data s) (current_image_names s) (annotation_type_var s) (annotation_types s)
    (combo_values s) (drawn_bbox_ids_on_canvas s) (current_subfolder_active_annotations s)
    (canvas_drawing_state s) (undo_stack s) v (heap s) (next_item s)
    (disk s) (dialogs s) (destroyed s).
Definition with_heap v (s : App) : App :=
  mkApp (subfolders s) (current_subfolder_index s) (current_subfolder_name s) (annotations_data s)
    (progress_data s) (current_image_names s) (annotation_type_var s) (annotation_types s)
    (combo_values s) (drawn_bbox_ids_on_canvas s) (current_subfolder_active_annotations s)
    (canvas_drawing_state s) (undo_stack s) (unsaved_changes s) v (next_item s)
    (disk s) (dialogs s) (destroyed s).
Definition with_next_item v (s : App) : App :=
  mkApp (subfolders s) (current_subfolder_index s) (current_subfolder_name s) (annotations_data s)
    (progress_data s) (current_image_names s) (annotation_type_var s) (annotation_types s)
    (combo_values s) (drawn_bbox_ids_on_canvas s) (current_subfolder_active_annotations s)
    (canvas_drawing_state s) (undo_stack s) (unsaved_changes s) (heap s) v
    (disk s) (dialogs s) (destroyed s).
Definition with_disk v (s : App) : App :=
  mkApp (subfolders s) (current_subfolder_index s) (current_subfolder_name s) (annotations_data s)
    (progress_data s) (current_image_names s) (annotation_type_var s) (annotation_types s)
    (combo_values s) (drawn_bbox_ids_on_canvas s) (current_subfolder_active_annotations s)
    (canvas_drawing_state s) (undo_stack s) (unsaved_changes s) (heap s) (next_item s)
    v (dialogs s) (destroyed s).
Definition with_dialogs v (s : App) : App :=
  mkApp (subfolders s) (current_subfolder_index s) (current_subfolder_name s) (annotations_data s)
    (progress_data s) (current_image_names s) (annotation_type_var s) (annotation_types s)
    (combo_values s) (drawn_bbox_ids_on_canvas s) (current_subfolder_active_annotations s)
    (canvas_drawing_state s) (undo_stack s) (unsaved_changes s) (heap s) (next_item s)
    (disk s) v (destroyed s).
Definition with_destroyed v (s : App) : App :=
  mkApp (subfolders s) (current_subfolder_index s) (current_subfolder_name s) (annotations_data s)
    (progress_data s) (current_image_names s) (annotation_type_var s) (annotation_types s)
    (combo_values s) (drawn_bbox_ids_on_canvas s) (current_subfolder_active_annotations s)
    (canvas_drawing_state s) (undo_stack s) (unsaved_changes s) (heap s) (next_item s)
    (disk s) (dialogs s) v.

(** [messagebox.showinfo] / [messagebox.showerror] *)
Definition showinfo (title message : string) (s : App) : App :=
  with_dialogs (dialogs s ++ [ShowInfo title message]) s.
Definition showerror (title message : string) (s : App) : App :=
  with_dialogs (dialogs s ++ [ShowError title message]) s.

(** [messagebox.askyesno] / [simpledialog.askstring]: the answer is
    given, the dialog is recorded. *)
Definition askyesno (title message : string) (answer : bool) (s : App) : App :=
  with_dialogs (dialogs s ++ [AskYesNo title message answer]) s.
Definition askstring (title : string) (answer : option string) (s : App) : App :=
  with_dialogs (dialogs s ++ [AskString title answer]) s.

(** *** Small Python helpers *)

(** [s.endswith(suffix)] *)
Definition endswith (s suffix : string) : bool :=
  Stdlib.Strings.String.prefix (String.rev suffix) (String.rev s).

(** [l.index(x)], [None] for [ValueError]. *)
Fixpoint list_index (x : string) (l : list string) : option nat :=
  match l with
  | [] => None
  | y :: l' => if decide (y = x) then Some 0%nat else S <$> list_index x l'
  end.

(** [l.insert(i, x)] for [i] within the list. *)
Definition list_insert_at {A} (i : nat) (x : A) (l : list A) : list A :=
  take i l ++ x :: drop i l.

(** The [for ... else] of [_load_initial_state]: the index of the first
    folder that is not completed, counted from [i]. *)
Fixpoint first_not_completed (completed folders : list string) (i : nat) : option nat :=
  match folders with
  | [] => None
  | folder :: rest =>
      if decide (folder ∈ completed) then first_not_completed completed rest (S i)
      else Some i
  end.

Definition default_types : list string :=
  ["paragraphs"; "tables"; "images"; "headings"; "other"].

(** The box computed by [_on_canvas_release] from the press position
    [(x1, y1)] and the release position [(x2, y2)]. *)
Definition release_bbox (x1 y1 x2 y2 : Z) : bbox :=
  [Z.min x1 x2; Z.min y1 y2; Z.max x1 x2; Z.max y1 y2].

(** [bbox[2] - bbox[0] < 5 or bbox[3] - bbox[1] < 5] *)
Definition too_small (b : bbox) : bool :=
  (nth 2 b 0 - nth 0 b 0 <? 5)%Z || (nth 3 b 0 - nth 1 b 0 <? 5)%Z.

(** [json.load] of the annotation store: every JSON array becomes a new
    list object. *)
Definition load_lists (m : gmap string (list bbox)) (h : Heap) : gmap string nat * Heap :=
  map_fold (λ img v (acc : gmap string nat * Heap),
              let '(l, h') := alloc v acc.2 in (<[img := l]> acc.1, h'))
           (∅, h) m.

Definition json_load_annotations (j : gmap string SubfolderJson) (h : Heap)
  : gmap string SubfolderData * Heap :=
  map_fold (λ name r (acc : gmap string SubfolderData * Heap),
              let '(d, h') := load_lists (json_annotations r) acc.2 in
              (<[name := mkSubfolderData (json_type r) d]> acc.1, h'))
           (∅, h) j.

(** [json.dump] of [annotations_data]: the lists are written by content. *)
Definition dump_annotations (s : App) : JsonDoc :=
  DocAnnotations
    ((λ r, mkSubfolderJson (type_of_annotation r) (deref (heap s) <$> annotations r))
       <$> annotations_data s).

(** *** Observations *)

(** The box list of an image in the working mapping (no entry reads as
    the empty list, as [.get(img_name, [])] does). *)
Definition boxes (s : App) (img : string) : list bbox :=
  match current_subfolder_active_annotations s !! img with
  | Some l => deref (heap s) l
  | None => []
  end.

(** The box list recorded for an image of a group in the in-memory
    annotation store. *)
Definition saved_boxes (s : App) (group img : string) : list bbox :=
  match annotations_data s !! group with
  | Some r => match annotations r !! img with
              | Some l => deref (heap s) l
              | None => []
              end
  | None => []
  end.

(** The box list recorded for an image of a group in the annotation
    file. *)
Definition disk_boxes (s : App) (group img : string) : list bbox :=
  match disk s !! ANNOTATIONS_FILE with
  | Some (DocAnnotations j) =>
      match j !! group with
      | Some r => default [] (json_annotations r !! img)
      | None => []
      end
  | _ => []
  end.

(** The box list of a slot (canvas) of the active group. *)
Definition slot_boxes (s : App) (i : nat) : list bbox :=
  match current_image_names s !! i with
  | Some (Some img) => boxes s img
  | _ => []
  end.

(** The attributes as [__init__] sets them before it loads anything. *)
Definition blank (files : gmap string JsonDoc) : App :=
  mkApp [] (-1) "" ∅ None (replicate 4 None) "" [] [] ∅ ∅ [] [] false
        (mkHeap ∅ 0) 1 files [] false.

(** The completed set that start-up reads from the progress file (the
    default when the file is missing or unreadable). *)
Definition completed_on_disk (files : gmap string JsonDoc) : list string :=
  match files !! PROGRESS_FILE with
  | Some (DocProgress c) => default [] c
  | _ => []
  end.

(** *** Invariants of the reachable states *)

(** The heap discipline of the states the program reaches: the lists of
    the working mapping and of the store were allocated before
    [next_loc], two images of the working mapping never share a list,
    and a loaded group is the one at the current index. *)
Record Inv (s : App) : Prop := mkInv {
  inv_active_lt : ∀ img l,
    current_subfolder_active_annotations s !! img = Some l →
    (l < next_loc (heap s))%nat;
  inv_active_inj : ∀ img1 img2 l,
    current_subfolder_active_annotations s !! img1 = Some l →
    current_subfolder_active_annotations s !! img2 = Some l →
    img1 = img2;
  inv_store_lt : ∀ g r img l,
    annotations_data s !! g = Some r → annotations r !! img = Some l →
    (l < next_loc (heap s))%nat;
  inv_current :
    PyStr.truthy (current_subfolder_name s) = true →
    (0 ≤ current_subfolder_index s)%Z ∧
    subfolders s !! Z.to_nat (current_subfolder_index s)
      = Some (current_subfolder_name s)
}.

(** No list object of the working mapping is also in the store. *)
Definition Separated (s : App) : Prop :=
  ∀ img l g r img',
    current_subfolder_active_annotations s !! img = Some l →
    annotations_data s !! g = Some r →
    annotations r !! img' ≠ Some l.

(** No press is waiting for its release. *)
Definition no_pending (s : App) : Prop :=
  ∀ canvas state, canvas_drawing_state s !! canvas = Some state →
                  active_rect_id state = None.

(** The image and the box that a press at [(x1, y1)] followed by a release
    at [(x2, y2)] on [canvas] adds, if any. *)
Definition drawn_box (s : App) (canvas : nat) (x1 y1 x2 y2 : Z) : option (string * bbox) :=
  match canvas_drawing_state s !! canvas with
  | Some state =>
      match image_name state with
      | Some img_name =>
          if PyStr.truthy img_name && negb (too_small (release_bbox x1 y1 x2 y2))
          then Some (img_name, release_bbox x1 y1 x2 y2)
          else None
      | None => None
      end
  | None => None
  end.

(** The image names of the canvases, which drawing never changes. *)
Definition canvas_images (s : App) : list (option string) :=
  image_name <$> canvas_drawing_state s.

(** The boxes of [img] among the boxes added, oldest first. *)
Definition boxes_for (img : string) (adds : list (nat * string * bbox)) : list bbox :=
  omap (λ a : nat * string * bbox, if decide (a.1.2 = img) then Some a.2 else None) adds.

(** [0 <= idx < len(self.subfolders)] *)
Definition valid_index (s : App) (idx : Z) : Prop :=
  (0 ≤ idx < Z.of_nat (length (subfolders s)))%Z.

(** The content of an image's list in a store record. *)
Definition stored_in (data : SubfolderData) (h : Heap) (img : string) : list bbox :=
  match annotations data !! img with Some l => deref h l | None => [] end.

(** The category [_load_subfolder_by_index] selects for a group. *)
Definition loaded_type (s : App) (name : string) : string :=
  let t := default (annotation_type_var s)
             (annotations_data s !! name ≫= type_of_annotation) in
  if decide (t ∈ combo_values s) then t else default "" (head (combo_values s)).

Section Engine.

Variable E : Env.

(** [sorted([f for f in os.listdir(full_path)
             if f.lower().endswith(('.png', '.jpg', '.jpeg'))])] *)
Definition image_files (name : string) : list string :=
  PyStr.sorted
    (List.filter (λ f, endswith (PyStr.lower f) ".png"
                       || endswith (PyStr.lower f) ".jpg"
                       || endswith (PyStr.lower f) ".jpeg")
                 (listdir_files E name)).

(** [s.lower()], [s.strip()] and [s.title()] *)
Definition str_lower (s : string) : string :=
  if PyStr.is_ascii s then PyStr.lower s else unicode_lower E s.

Definition str_strip (s : string) : string :=
  if PyStr.is_ascii s then PyStr.strip s else unicode_strip E s.

Definition str_title (s : string) : string :=
  if PyStr.is_ascii s then PyStr.title s else unicode_title E s.

(** The [IOError] is caught here and shown; nothing is returned.  A
    failure after [open(file_path, 'w')] leaves the file truncated. *)
Definition _write_json_file (file_path : string) (data : JsonDoc) (s : App) : App :=
  if can_write E file_path then with_disk (<[file_path := data]> (disk s)) s
  else
    let s := match (write_failure E file_path).2 with
             | Some partial => with_disk (<[file_path := partial]> (disk s)) s
             | None => s
             end in
    showerror "Error"
      ("Could not save to " +:+ file_path +:+ ": " +:+ (write_failure E file_path).1) s.

Definition _save_annotation_types (s : App) : App :=
  _write_json_file ANNOTATION_TYPES_FILE (DocTypes (annotation_types s)) s.

Definition _load_annotation_types (s : App) : App :=
  match disk s !! ANNOTATION_TYPES_FILE with
  | Some (DocTypes types) => with_annotation_types types s
  | Some DocCorrupt => with_annotation_types default_types s
  | _ => _save_annotation_types (with_annotation_types default_types s)
  end.

(** A document of another shape in the two store files is outside the
    model (the program fails on it later); it reads as the default. *)
Definition _load_annotations_from_file (s : App) : App :=
  match disk s !! ANNOTATIONS_FILE with
  | Some (DocAnnotations j) =>
      let '(d, h) := json_load_annotations j (heap s) in
      with_heap h (with_annotations_data d s)
  | _ => with_annotations_data ∅ s
  end.

Definition _load_progress_from_file (s : App) : App :=
  match disk s !! PROGRESS_FILE with
  | Some (DocProgress c) => with_progress_data c s
  | _ => with_progress_data (Some []) s
  end.

Definition _rebuild_annotation_widgets (s : App) : App :=
  let display_types := filter (λ t, t ≠ "other") (annotation_types s) in
  let s := with_combo_values display_types s in
  match display_types with
  | first :: _ =>
      if negb (PyStr.truthy (annotation_type_var s))
      then with_annotation_type_var first s else s
  | [] => s
  end.

Definition _on_annotation_type_select (s : App) : App :=
  with_unsaved_changes true s.

(** The user picks an entry of the read-only combobox. *)
Definition select_annotation_type (t : string) (s : App) : App :=
  if decide (t ∈ combo_values s)
  then _on_annotation_type_select (with_annotation_type_var t s)
  else s.

Definition _add_new_annotation_type (answer : option string) (s : App) : App :=
  let s := askstring "New Annotation Type" answer s in
  match answer with
  | None => s
  | Some new_type =>
      if negb (PyStr.truthy new_type) || negb (PyStr.truthy (str_strip new_type))
      then s
      else
        let new_type := str_strip (str_lower new_type) in
        if decide (new_type ∈ annotation_types s) then
          showinfo "Already Exists"
            ("The type '" +:+ str_title new_type
             +:+ "' already exists. It has been selected for you.")
            (with_annotation_type_var new_type s)
        else
          let types :=
            match list_index "other" (annotation_types s) with
            | Some other_index => list_insert_at other_index new_type (annotation_types s)
            | None => annotation_types s ++ [new_type]
            end in
          let s := with_annotation_types types s in
          let s := _save_annotation_types s in
          let s := _rebuild_annotation_widgets s in
          let s := with_annotation_type_var new_type s in
          with_unsaved_changes true s
  end.

Definition _clear_display_and_current_data (s : App) : App :=
  let s := with_current_image_names (replicate 4 None) s in
  let s := with_drawn_bbox_ids_on_canvas ∅ s in
  let s := with_active_annotations ∅ s in
  let s := with_undo_stack [] s in
  with_unsaved_changes false s.

(** The body of [for i in range(4)] in [_load_subfolder_by_index]. *)
Definition load_image (name : string) (subfolder_data : SubfolderData)
    (files : list string) (s : App) (i : nat) : App :=
  match files !! i with
  | Some img_name =>
      if image_loads E name img_name then
        let s := with_current_image_names (<[i := Some img_name]> (current_image_names s)) s in
        let s := with_next_item (S (next_item s)) s in
        let s := with_canvas_drawing_state
                   (<[i := mkDrawState (Some img_name) 0 0 None]> (canvas_drawing_state s)) s in
        let stored := match annotations subfolder_data !! img_name with
                      | Some l => deref (heap s) l
                      | None => []
                      end in
        let '(l, h) := alloc stored (heap s) in
        let s := with_heap h s in
        let s := with_active_annotations
                   (<[img_name := l]> (current_subfolder_active_annotations s)) s in
        let s := with_drawn_bbox_ids_on_canvas
                   (<[img_name := seq (next_item s) (length stored)]>
                      (drawn_bbox_ids_on_canvas s)) s in
        with_next_item (next_item s + length stored) s
      else with_next_item (S (next_item s)) s
  | None => with_next_item (S (next_item s)) s
  end.

Definition _load_subfolder_by_index (idx : Z) (s : App) : App :=
  if negb ((0 <=? idx)%Z && (idx <? Z.of_nat (length (subfolders s)))%Z) then
    showinfo "Info" "You have reached the beginning or end of the subfolders." s
  else
    let s := _clear_display_and_current_data s in
    let name := default "" (subfolders s !! Z.to_nat idx) in
    let s := with_current_subfolder idx name s in
    let files := image_files name in
    let subfolder_data := default (mkSubfolderData None ∅) (annotations_data s !! name) in
    let annotation_type :=
      default (annotation_type_var s) (type_of_annotation subfolder_data) in
    let annotation_type :=
      if decide (annotation_type ∈ combo_values s) then annotation_type
      else default "" (head (combo_values s)) in
    let s := with_annotation_type_var annotation_type s in
    let s := foldl (load_image name subfolder_data files) s (seq 0 4) in
    with_unsaved_changes false s.

Definition _discover_subfolders (s : App) : App :=
  match listdir_dirs E with
  | Some dirs => with_subfolders (PyStr.sorted dirs) s
  | None => showerror "Error" ("Could not read subfolders: " +:+ listdir_error E) s
  end.

Definition _load_initial_state (s : App) : App :=
  if negb (PyStr.truthy (askdirectory E)) then with_destroyed true s
  else
    let s := _discover_subfolders s in
    match subfolders s with
    | [] => showinfo "Info" "No subfolders found." s
    | _ :: _ =>
        let s := _load_annotations_from_file s in
        let s := _load_progress_from_file s in
        let completed := default [] (progress_data s) in
        let start_index :=
          match first_not_completed completed (subfolders s) 0 with
          | Some i => Z.of_nat i
          | None => Z.max 0 (Z.of_nat (length (subfolders s)) - 1)
          end in
        _load_subfolder_by_index start_index s
    end.

Definition _setup_ui (s : App) : App :=
  _rebuild_annotation_widgets
    (with_canvas_drawing_state (replicate 4 empty_draw_state) s).

(** [AnnotationApp.__init__] on the files found on disk. *)
Definition __init__ (files : gmap string JsonDoc) : App :=
  let s := blank files in
  let s := _load_annotation_types s in
  let s := _setup_ui s in
  _load_initial_state s.

Definition _on_canvas_press (canvas : nat) (x y : Z) (s : App) : App :=
  match canvas_drawing_state s !! canvas with
  | Some state =>
      match image_name state with
      | Some img_name =>
          if PyStr.truthy img_name then
            let rect_id := next_item s in
            let s := with_next_item (S (next_item s)) s in
            with_canvas_drawing_state
              (<[canvas := mkDrawState (image_name state) x y (Some rect_id)]>
                 (canvas_drawing_state s)) s
          else s
      | None => s
      end
  | None => s
  end.

(** [d.setdefault(img_name, [])] on the working mapping: the list
    object of [img_name], a new empty one when there is none. *)
Definition setdefault_list (img_name : string) (s : App) : nat * App :=
  match current_subfolder_active_annotations s !! img_name with
  | Some l => (l, s)
  | None =>
      let '(l, h) := alloc [] (heap s) in
      (l, with_active_annotations
            (<[img_name := l]> (current_subfolder_active_annotations s))
            (with_heap h s))
  end.

Definition _on_canvas_release (canvas : nat) (x y : Z) (s : App) : App :=
  match canvas_drawing_state s !! canvas with
  | Some state =>
      match active_rect_id state with
      | Some _ =>
          let s := with_canvas_drawing_state
                     (<[canvas := mkDrawState (image_name state) (start_x state)
                                    (start_y state) None]>
                        (canvas_drawing_state s)) s in
          let bbox := release_bbox (start_x state) (start_y state) x y in
          if too_small bbox then s
          else
            match image_name state with
            | Some img_name =>
                let '(l, s) := setdefault_list img_name s in
                let s := with_heap (mutate l (λ bs, bs ++ [bbox]) (heap s)) s in
                let rect_id := next_item s in
                let s := with_next_item (S (next_item s)) s in
                let s := with_drawn_bbox_ids_on_canvas
                           (<[img_name :=
                                default [] (drawn_bbox_ids_on_canvas s !! img_name)
                                ++ [rect_id]]>
                              (drawn_bbox_ids_on_canvas s)) s in
                let s := with_undo_stack (undo_stack s ++ [(canvas, img_name)]) s in
                with_unsaved_changes true s
            | None => s
            end
      | None => s
      end
  | None => s
  end.

Definition _action_undo_last_bbox (s : App) : App :=
  match last (undo_stack s) with
  | None => s
  | Some (canvas, img_name) =>
      let s := with_undo_stack (removelast (undo_stack s)) s in
      let s :=
        match drawn_bbox_ids_on_canvas s !! img_name with
        | Some ((_ :: _) as ids) =>
            with_drawn_bbox_ids_on_canvas
              (<[img_name := removelast ids]> (drawn_bbox_ids_on_canvas s)) s
        | _ => s
        end in
      let s :=
        match current_subfolder_active_annotations s !! img_name with
        | Some l =>
            match deref (heap s) l with
            | _ :: _ => with_heap (mutate l (λ bs, removelast bs) (heap s)) s
            | [] => s
            end
        | None => s
        end in
      with_unsaved_changes true s
  end.

Definition _action_save_annotations (called_from_next : bool) (s : App) : bool * App :=
  if negb (PyStr.truthy (current_subfolder_name s)) then (false, s)
  else
    let s := with_annotations_data
               (<[current_subfolder_name s :=
                    mkSubfolderData (Some (annotation_type_var s))
                                    (current_subfolder_active_annotations s)]>
                  (annotations_data s)) s in
    let s := _write_json_file ANNOTATIONS_FILE (dump_annotations s) s in
    let completed := default [] (progress_data s) in
    let completed :=
      if decide (current_subfolder_name s ∈ completed) then completed
      else completed ++ [current_subfolder_name s] in
    let s := with_progress_data (Some completed) s in
    let s := _write_json_file PROGRESS_FILE (DocProgress (progress_data s)) s in
    let s := with_unsaved_changes false s in
    let s := if called_from_next then s
             else _load_subfolder_by_index (current_subfolder_index s) s in
    (true, s).

Definition _action_save_and_next (s : App) : App :=
  let '(saved, s) := _action_save_annotations true s in
  if saved then _load_subfolder_by_index (current_subfolder_index s + 1) s else s.

Definition _action_clear_current_annotations (yes : bool) (s : App) : App :=
  let s := askyesno "Confirm Clear" "Clear all boxes for this subfolder?" yes s in
  if yes then
    let img_names_to_clear := (map_to_list (current_subfolder_active_annotations s)).*1 in
    let s := foldl (λ s img_name,
                      let '(l, h) := alloc [] (heap s) in
                      with_active_annotations
                        (<[img_name := l]> (current_subfolder_active_annotations s))
                        (with_heap h s))
                   s img_names_to_clear in
    let s := _load_subfolder_by_index (current_subfolder_index s) s in
    with_unsaved_changes true s
  else s.

Definition _action_previous_subfolder (yes : bool) (s : App) : App :=
  if unsaved_changes s then
    let s := askyesno "Unsaved Changes" "Go to previous without saving?" yes s in
    if negb yes then s
    else _load_subfolder_by_index (current_subfolder_index s - 1) s
  else _load_subfolder_by_index (current_subfolder_index s - 1) s.

(** The result of [ExitDialog(...).get_choice()]. *)
Inductive ExitChoice := ChoiceSaveExit | ChoiceExitNoSave | ChoiceCancel.

(** The handler of the window's close button; [choice] is what the
    user answers in the exit dialog, which is only shown when there are
    unsaved changes. *)
Definition _on_app_close (choice : ExitChoice) (s : App) : App :=
  if unsaved_changes s then
    match choice with
    | ChoiceSaveExit =>
        let '(saved, s) := _action_save_annotations false s in
        if saved then with_destroyed true s else s
    | ChoiceExitNoSave => with_destroyed true s
    | ChoiceCancel => s
    end
  else with_destroyed true s.

(** *** What the widgets show *)

(** The states [_update_button_states] gives to the five buttons
    ([true] for [tk.NORMAL]). *)
Record Buttons := mkButtons {
  btn_save : bool;
  btn_clear : bool;
  btn_save_next : bool;
  btn_prev : bool;
  btn_undo : bool
}.

Definition _update_button_states (s : App) : Buttons :=
  let has_subfolders := bool_decide (subfolders s ≠ []) in
  let can_go_next :=
    (current_subfolder_index s <? Z.of_nat (length (subfolders s)) - 1)%Z in
  let can_go_prev := (0 <? current_subfolder_index s)%Z in
  mkButtons has_subfolders has_subfolders can_go_next can_go_prev
            (bool_decide (undo_stack s ≠ [])).

(** The elements the [Counter] of [_update_annotation_counts] is built
    from: the category of every record of the store that has a truthy
    one. *)
Definition counted_types (s : App) : list string :=
  omap (λ kv : string * SubfolderData,
          match type_of_annotation kv.2 with
          | Some t => if PyStr.truthy t then Some t else None
          | None => None
          end)
       (map_to_list (annotations_data s)).

(** [counts.get(type_name, 0)] *)
Definition counts_get (counts : list string) (type_name : string) : nat :=
  length (filter (λ t, t = type_name) counts).

(** The number [_update_annotation_counts] writes into the count label
    of [type_name]; there is one label for every entry of the
    combobox. *)
Definition _update_annotation_counts (s : App) (type_name : string) : option nat :=
  if decide (type_name ∈ combo_values s)
  then Some (counts_get (counted_types s) type_name)
  else None.

(** What [_on_mouse_wheel_scroll] asks of the overall canvas, for an
    event with modifier mask [state] and wheel movement [delta]:
    [xview_scroll] or [yview_scroll] by a number of units. *)
Inductive Scroll := XviewScroll (units : Z) | YviewScroll (units : Z).

Definition _on_mouse_wheel_scroll (state delta : Z) : Scroll :=
  if negb (Z.land state 1 =? 0)%Z
  then XviewScroll (-1 * (delta / 120))%Z
  else YviewScroll (-1 * (delta / 120))%Z.

(** *** The events the user interface sends to the engine *)

Inductive Action :=
| Press (canvas : nat) (x y : Z)
| Release (canvas : nat) (x y : Z)
| Undo
| Save
| SaveAndNext
| ClearCurrent (yes : bool)
| Previous (yes : bool)
| SelectType (t : string)
| AddNewType (answer : option string).

Definition step (s : App) (a : Action) : App :=
  match a with
  | Press canvas x y => _on_canvas_press canvas x y s
  | Release canvas x y => _on_canvas_release canvas x y s
  | Undo => _action_undo_last_bbox s
  | Save => (_action_save_annotations false s).2
  | SaveAndNext => _action_save_and_next s
  | ClearCurrent yes => _action_clear_current_annotations yes s
  | Previous yes => _action_previous_subfolder yes s
  | SelectType t => select_annotation_type t s
  | AddNewType answer => _add_new_annotation_type answer s
  end.

Definition run (s : App) (actions : list Action) : App := foldl step s actions.

(** Drawing one box: press at [(x1, y1)], release at [(x2, y2)] on the
    same canvas. *)
Definition draw (canvas : nat) (x1 y1 x2 y2 : Z) : list Action :=
  [Press canvas x1 y1; Release canvas x2 y2].

(** A press at the first position followed by a release at the second
    one, both on [canvas]. *)
Definition Gesture : Type := nat * (Z * Z) * (Z * Z).

Definition gesture_actions (g : Gesture) : list Action :=
  let '(canvas, (x1, y1), (x2, y2)) := g in draw canvas x1 y1 x2 y2.

(** The canvas, the image and the box a gesture adds, if any. *)
Definition added (s : App) (g : Gesture) : option (nat * string * bbox) :=
  let '(canvas, (x1, y1), (x2, y2)) := g in
  (λ p : string * bbox, (canvas, p.1, p.2)) <$> drawn_box s canvas x1 y1 x2 y2.

(** The entry of the undo stack for an added box. *)
Definition undo_entry (a : nat * string * bbox) : nat * string := (a.1.1, a.1.2).

(** [s] is [s0] with the boxes [adds] drawn, oldest first. *)
Record Drawn (s0 s : App) (adds : list (nat * string * bbox)) : Prop := {
  dr_inv : Inv s;
  dr_undo : undo_stack s = undo_stack s0 ++ (undo_entry <$> adds);
  dr_boxes : ∀ img, boxes s img = boxes s0 img ++ boxes_for img adds
}.

(** The actions that change box lists in place: drawing and undo. *)
Definition is_mutation (a : Action) : Prop :=
  match a with
  | Press _ _ _ | Release _ _ _ | Undo => True
  | _ => False
  end.

(** *** Intermediate states *)

(** The state in which the loop of [_load_subfolder_by_index] starts. *)
Definition load_start (idx : Z) (name : string) (s : App) : App :=
  with_annotation_type_var (loaded_type s name)
    (with_current_subfolder idx name (_clear_display_and_current_data s)).

(** The state of [_action_save_annotations] just before its reload. *)
Definition saved_state (s : App) : App :=
  let s := with_annotations_data
             (<[current_subfolder_name s :=
                  mkSubfolderData (Some (annotation_type_var s))
                                  (current_subfolder_active_annotations s)]>
                (annotations_data s)) s in
  let s := _write_json_file ANNOTATIONS_FILE (dump_annotations s) s in
  let completed := default [] (progress_data s) in
  let completed :=
    if decide (current_subfolder_name s ∈ completed) then completed
    else completed ++ [current_subfolder_name s] in
  let s := with_progress_data (Some completed) s in
  let s := _write_json_file PROGRESS_FILE (DocProgress (progress_data s)) s in
  with_unsaved_changes false s.

(** *** What a group load establishes *)

(** An image of a subfolder is loaded when it is among the first four
    image files and can be opened. *)
Definition loaded (name img : string) : Prop :=
  ∃ i, (i < 4)%nat ∧ image_files name !! i = Some img ∧ image_loads E name img = true.

(** The name shown in slot [i] after loading subfolder [name]. *)
Definition slot_name (name : string) (i : nat) : option string :=
  match image_files name !! i with
  | Some img => if image_loads E name img then Some img else None
  | None => None
  end.

(** What the loop of [_load_subfolder_by_index] maintains, relative to
    the heap [h0] at its start. *)
Record LoadInv (name : string) (data : SubfolderData) (h0 : Heap) (s : App) : Prop := {
  li_next : (next_loc h0 ≤ next_loc (heap s))%nat;
  li_old : ∀ l, (l < next_loc h0)%nat → deref (heap s) l = deref h0 l;
  li_active : ∀ img l,
    current_subfolder_active_annotations s !! img = Some l →
    (next_loc h0 ≤ l < next_loc (heap s))%nat ∧
    deref (heap s) l = stored_in data h0 img ∧
    loaded name img;
  li_inj : ∀ img1 img2 l,
    current_subfolder_active_annotations s !! img1 = Some l →
    current_subfolder_active_annotations s !! img2 = Some l → img1 = img2
}.

(** [s'] is [s] after loading the group at the valid index [idx]. *)
Record Loaded (idx : Z) (s s' : App) : Prop := {
  ld_subfolders : subfolders s' = subfolders s;
  ld_index : current_subfolder_index s' = idx;
  ld_name : subfolders s !! Z.to_nat idx = Some (current_subfolder_name s');
  ld_store : annotations_data s' = annotations_data s;
  ld_progress : progress_data s' = progress_data s;
  ld_types : annotation_types s' = annotation_types s;
  ld_combo : combo_values s' = combo_values s;
  ld_disk : disk s' = disk s;
  ld_dialogs : dialogs s' = dialogs s;
  ld_destroyed : destroyed s' = destroyed s;
  ld_undo : undo_stack s' = [];
  ld_unsaved : unsaved_changes s' = false;
  ld_var : annotation_type_var s' = loaded_type s (current_subfolder_name s');
  ld_next : (next_loc (heap s) ≤ next_loc (heap s'))%nat;
  ld_old : ∀ l, (l < next_loc (heap s))%nat → deref (heap s') l = deref (heap s) l;
  ld_active : ∀ img l,
    current_subfolder_active_annotations s' !! img = Some l →
    (next_loc (heap s) ≤ l < next_loc (heap s'))%nat ∧
    deref (heap s') l = saved_boxes s (current_subfolder_name s') img ∧
    loaded (current_subfolder_name s') img;
  ld_inj : ∀ img1 img2 l,
    current_subfolder_active_annotations s' !! img1 = Some l →
    current_subfolder_active_annotations s' !! img2 = Some l → img1 = img2;
  ld_present : ∀ img,
    loaded (current_subfolder_name s') img →
    is_Some (current_subfolder_active_annotations s' !! img);
  ld_names : ∀ i, (i < 4)%nat →
    current_image_names s' !! i = Some (slot_name (current_subfolder_name s') i)
}.

End Engine.

End Draw_boxes_.

(** ** The older variant: [Few_Shot/draw_boxes.py]

    The parts of the older program that the properties below refer to: the
    group load, the canvas handlers, the [previous], [clear] and [save]
    actions, the close handler and the start index. *)

Module Draw_boxes.

Record Env := mkEnv {
  (** the file names inside a subfolder, in [os.listdir]'s order; [None]
      when listing raises *)
  listdir_files : string → option (list string);
  (** the text of the exception when it does *)
  listdir_error : string → string;
  (** whether [Image.open], [resize] and [PhotoImage] succeed *)
  image_loads : string → string → bool
}.

Record App := mkApp {
  subfolders : list string;
  current_subfolder_index : Z;
  current_subfolder_name : string;
  (** group name to image name to box list *)
  annotations_data : gmap string (gmap string nat);
  current_image_names : list (option string);
  drawn_bbox_ids_on_canvas : gmap string (list nat);
  current_subfolder_active_annotations : gmap string nat;
  canvas_drawing_state : list DrawState;
  unsaved_changes : bool;
  heap : Heap;
  next_item : nat;
  dialogs : list Dialog
}.

Definition with_current_subfolder v n (s : App) : App :=
  mkApp (subfolders s) v n (annotations_data s) (current_image_names s)
    (drawn_bbox_ids_on_canvas s) (current_subfolder_active_annotations s)
    (canvas_drawing_state s) (unsaved_changes s) (heap s) (next_item s) (dialogs s).
Definition with_current_image_names v (s : App) : App :=
  mkApp (subfolders s) (current_subfolder_index s) (current_subfolder_name s)
    (annotations_data s) v
    (drawn_bbox_ids_on_canvas s) (current_subfolder_active_annotations s)
    (canvas_drawing_state s) (unsaved_changes s) (heap s) (next_item s) (dialogs s).
Definition with_drawn_bbox_ids_on_canvas v (s : App) : App :=
  mkApp (subfolders s) (current_subfolder_index s) (current_subfolder_name s)
    (annotations_data s) (current_image_names s)
    v (current_subfolder_active_annotations s)
    (canvas_drawing_state s) (unsaved_changes s) (heap s) (next_item s) (dialogs s).
Definition with_active_annotations v (s : App) : App :=
  mkApp (subfolders s) (current_subfolder_index s) (current_subfolder_name s)
    (annotations_data s) (current_image_names s)
    (drawn_bbox_ids_on_canvas s) v
    (canvas_drawing_state s) (unsaved_changes s) (heap s) (next_item s) (dialogs s).
Definition with_canvas_drawing_state v (s : App) : App :=
  mkApp (subfolders s) (current_subfolder_index s) (current_subfolder_name s)
    (annotations_data s) (current_image_names s)
    (drawn_bbox_ids_on_canvas s) (current_subfolder_active_annotations s)
    v (unsaved_changes s) (heap s) (next_item s) (dialogs s).
Definition with_unsaved_changes v (s : App) : App :=
  mkApp (subfolders s) (current_subfolder_index s) (current_subfolder_name s)
    (annotations_data s) (current_image_names s)
    (drawn_bbox_ids_on_canvas s) (current_subfolder_active_annotations s)
    (canvas_drawing_state s) v (heap s) (next_item s) (dialogs s).
Definition with_heap v (s : App) : App :=
  mkApp (subfolders s) (current_subfolder_index s) (current_subfolder_name s)
    (annotations_data s) (current_image_names s)
    (drawn_bbox_ids_on_canvas s) (current_subfolder_active_annotations s)
    (canvas_drawing_state s) (unsaved_changes s) v (next_item s) (dialogs s).
Definition with_next_item v (s : App) : App :=
  mkApp (subfolders s) (current_subfolder_index s) (current_subfolder_name s)
    (annotations_data s) (current_image_names s)
    (drawn_bbox_ids_on_canvas s) (current_subfolder_active_annotations s)
    (canvas_drawing_state s) (unsaved_changes s) (heap s) v (dialogs s).
Definition with_dialogs v (s : App) : App :=
  mkApp (subfolders s) (current_subfolder_index s) (current_subfolder_name s)
    (annotations_data s) (current_image_names s)
    (drawn_bbox_ids_on_canvas s) (current_subfolder_active_annotations s)
    (canvas_drawing_state s) (unsaved_changes s) (heap s) (next_item s) v.

Definition showinfo (title message : string) (s : App) : App :=
  with_dialogs (dialogs s ++ [ShowInfo title message]) s.
Definition showerror (title message : string) (s : App) : App :=
  with_dialogs (dialogs s ++ [ShowError title message]) s.
Definition askyesno (title message : string) (answer : bool) (s : App) : App :=
  with_dialogs (dialogs s ++ [AskYesNo title message answer]) s.

(** The box list of an image in the working mapping. *)
Definition boxes (s : App) (img : string) : list bbox :=
  match current_subfolder_active_annotations s !! img with
  | Some l => deref (heap s) l
  | None => []
  end.

(** [max(0, min(v, dim - 1))] *)
Definition clamp (dim v : Z) : Z := Z.max 0 (Z.min v (dim - 1)).

(** The box [_on_canvas_release] adds for a press at [(start_x, start_y)]
    and a release at [(end_x, end_y)]; [None] for the two early returns
    ("Box too small", "Box too small after clamping"). *)
Definition release_bbox (start_x start_y end_x end_y : Z) : option bbox :=
  let x1 := Z.min start_x end_x in
  let y1 := Z.min start_y end_y in
  let x2 := Z.max start_x end_x in
  let y2 := Z.max start_y end_y in
  if (Z.abs (x1 - x2) <? 5)%Z || (Z.abs (y1 - y2) <? 5)%Z then None
  else
    let '(img_w, img_h) := IMAGE_DISPLAY_SIZE in
    let x1 := clamp img_w x1 in
    let y1 := clamp img_h y1 in
    let x2 := clamp img_w x2 in
    let y2 := clamp img_h y2 in
    if (Z.abs (x1 - x2) <? 5)%Z || (Z.abs (y1 - y2) <? 5)%Z then None
    else Some [x1; y1; x2; y2].

Definition with_annotations_data v (s : App) : App :=
  mkApp (subfolders s) (current_subfolder_index s) (current_subfolder_name s)
    v (current_image_names s)
    (drawn_bbox_ids_on_canvas s) (current_subfolder_active_annotations s)
    (canvas_drawing_state s) (unsaved_changes s) (heap s) (next_item s) (dialogs s).

(** The box list recorded for an image of a group in the in-memory
    annotation store. *)
Definition saved_boxes (s : App) (group img : string) : list bbox :=
  match annotations_data s !! group with
  | Some m => match m !! img with
              | Some l => deref (heap s) l
              | None => []
              end
  | None => []
  end.

(** The two files of the older program: the annotation file maps group
    names to image names to box lists, the progress file holds
    ["last_completed_subfolder_name"] (if any). *)
Inductive JsonDoc :=
| DocAnnotations (j : gmap string (gmap string (list bbox)))
| DocProgress (last_completed : option string).

(** [progress_data.get("last_completed_subfolder_name")] and the files on
    disk; the engine state of the older program is a pair of an [App]
    and a [Files]. *)
Record Files := mkFiles {
  progress_data : option string;
  disk : gmap string JsonDoc
}.

(** [json.dump] of [annotations_data] *)
Definition dump_annotations (s : App) : JsonDoc :=
  DocAnnotations ((λ m : gmap string nat, deref (heap s) <$> m) <$> annotations_data s).

(** The box list recorded for an image of a group in the annotation
    file. *)
Definition disk_boxes (f : Files) (group img : string) : list bbox :=
  match disk f !! ANNOTATIONS_FILE with
  | Some (DocAnnotations j) =>
      match j !! group with
      | Some m => default [] (m !! img)
      | None => []
      end
  | _ => []
  end.

(** No canvas has a press pending, and a canvas names no image but the
    one displayed in its slot. *)
Definition canvases_fresh (s : App) : Prop :=
  ∀ i st, canvas_drawing_state s !! i = Some st →
    active_rect_id st = None ∧
    ∀ img, image_name st = Some img → current_image_names s !! i = Some (Some img).

Section Engine.

Variable E : Env.

Definition is_image_file (f : string) : bool :=
  let f := PyStr.lower f in
  Draw_boxes_.endswith f ".png" || Draw_boxes_.endswith f ".jpg"
  || Draw_boxes_.endswith f ".jpeg" || Draw_boxes_.endswith f ".bmp"
  || Draw_boxes_.endswith f ".gif".

Definition _clear_display_and_current_data (s : App) : App :=
  let s := with_current_image_names (replicate 4 None) s in
  let s := with_canvas_drawing_state
             ((λ _, mkDrawState None 0 0 None) <$> canvas_drawing_state s) s in
  let s := with_drawn_bbox_ids_on_canvas ∅ s in
  let s := with_active_annotations ∅ s in
  with_unsaved_changes false s.

(** The body of the first loop of [_load_subfolder_by_index]. *)
Definition load_image (name : string) (from_file : gmap string nat)
    (files : list string) (s : App) (i : nat) : App :=
  match files !! i with
  | Some img_name =>
      if image_loads E name img_name then
        let s := with_current_image_names (<[i := Some img_name]> (current_image_names s)) s in
        let s := with_next_item (S (next_item s)) s in
        let s := with_canvas_drawing_state
                   (alter (λ st, mkDrawState (Some img_name) (start_x st) (start_y st)
                                   (active_rect_id st)) i (canvas_drawing_state s)) s in
        let stored := match from_file !! img_name with
                      | Some l => deref (heap s) l
                      | None => []
                      end in
        let '(l, h) := alloc stored (heap s) in
        let s := with_heap h s in
        let s := with_active_annotations
                   (<[img_name := l]> (current_subfolder_active_annotations s)) s in
        let s := with_drawn_bbox_ids_on_canvas
                   (<[img_name := seq (next_item s) (length stored)]>
                      (drawn_bbox_ids_on_canvas s)) s in
        with_next_item (next_item s + length stored) s
      else with_next_item (S (next_item s)) s
  | None => s
  end.

(** The body of the second loop (slots without an image file). *)
Definition no_image (s : App) (i : nat) : App :=
  match current_image_names s !! i with
  | Some None =>
      let s := with_next_item (S (next_item s)) s in
      with_canvas_drawing_state
        (alter (λ st, mkDrawState None (start_x st) (start_y st) (active_rect_id st))
               i (canvas_drawing_state s)) s
  | _ => s
  end.

Definition _load_subfolder_by_index (subfolder_idx : Z) (s : App) : App :=
  match subfolders s with
  | [] => s
  | _ :: _ =>
      if negb ((0 <=? subfolder_idx)%Z
               && (subfolder_idx <? Z.of_nat (length (subfolders s)))%Z) then
        if (Z.of_nat (length (subfolders s)) <=? subfolder_idx)%Z
        then showinfo "Info" "You have reached the end of the subfolders." s
        else showinfo "Info" "You are at the beginning of the subfolders." s
      else
        let s := _clear_display_and_current_data s in
        let name := default "" (subfolders s !! Z.to_nat subfolder_idx) in
        let s := with_current_subfolder subfolder_idx name s in
        match listdir_files E name with
        | None =>
            showerror "Error"
              ("Could not read images from " +:+ name +:+ ": " +:+ listdir_error E name) s
        | Some files =>
            let image_files := PyStr.sorted (List.filter is_image_file files) in
            let from_file := default ∅ (annotations_data s !! name) in
            let s := foldl (load_image name from_file image_files) s
                           (seq 0 (Nat.min (length image_files) 4)) in
            let s := foldl no_image s
                           (seq (length image_files) (4 - length image_files)) in
            with_unsaved_changes false s
        end
  end.

Definition _on_canvas_press (canvas : nat) (x y : Z) (s : App) : App :=
  match canvas_drawing_state s !! canvas with
  | Some state =>
      match image_name state with
      | None => s
      | Some _ =>
          let rect_id := next_item s in
          let s := with_next_item (S (next_item s)) s in
          with_canvas_drawing_state
            (<[canvas := mkDrawState (image_name state) x y (Some rect_id)]>
               (canvas_drawing_state s)) s
      end
  | None => s
  end.

Definition _on_canvas_release (canvas : nat) (x y : Z) (s : App) : App :=
  match canvas_drawing_state s !! canvas with
  | Some state =>
      match image_name state, active_rect_id state with
      | Some current_image_name, Some _ =>
          let s := with_canvas_drawing_state
                     (<[canvas := mkDrawState (image_name state) (start_x state)
                                    (start_y state) None]>
                        (canvas_drawing_state s)) s in
          match release_bbox (start_x state) (start_y state) x y with
          | None => s
          | Some bbox_coords =>
              let final_rect_id := next_item s in
              let s := with_next_item (S (next_item s)) s in
              let '(l, s) :=
                match current_subfolder_active_annotations s !! current_image_name with
                | Some l => (l, s)
                | None =>
                    let '(l, h) := alloc [] (heap s) in
                    (l, with_active_annotations
                          (<[current_image_name := l]>
                             (current_subfolder_active_annotations s))
                          (with_heap h s))
                end in
              let s := with_heap (mutate l (λ bs, bs ++ [bbox_coords]) (heap s)) s in
              let s := with_drawn_bbox_ids_on_canvas
                         (<[current_image_name :=
                              default [] (drawn_bbox_ids_on_canvas s
                                          !! current_image_name)
                              ++ [final_rect_id]]>
                            (drawn_bbox_ids_on_canvas s)) s in
              with_unsaved_changes true s
          end
      | _, _ => s
      end
  | None => s
  end.

Definition _action_previous_subfolder (yes : bool) (s : App) : App :=
  let proceed (s : App) : App :=
    if (0 <? current_subfolder_index s)%Z
    then _load_subfolder_by_index (current_subfolder_index s - 1) s
    else showinfo "Info" "You are at the first subfolder." s in
  if unsaved_changes s then
    let s := askyesno "Unsaved Changes"
               "You have unsaved changes. Do you want to proceed to the previous subfolder without saving?"
               yes s in
    if negb yes then s else proceed s
  else proceed s.

(** The two searches of [_action_clear_current_annotations] for
    something to clear: a displayed image with a non-empty box list, or
    a displayed image with rectangles on its canvas. *)
Definition is_anything_to_clear (s : App) : bool :=
  existsb (λ kv : string * nat,
             bool_decide (Some kv.1 ∈ current_image_names s)
             && negb (bool_decide (deref (heap s) kv.2 = [])))
          (map_to_list (current_subfolder_active_annotations s))
  || existsb (λ img_name : option string,
                match img_name with
                | Some img_name =>
                    PyStr.truthy img_name
                    && match drawn_bbox_ids_on_canvas s !! img_name with
                       | Some (_ :: _) => true
                       | _ => false
                       end
                | None => false
                end)
             (take 4 (current_image_names s)).

(** The body of the loop over the canvases in
    [_action_clear_current_annotations]. *)
Definition clear_slot (s : App) (i : nat) : App :=
  match current_image_names s !! i with
  | Some (Some img_name) =>
      if PyStr.truthy img_name then
        let s :=
          match drawn_bbox_ids_on_canvas s !! img_name with
          | Some _ =>
              with_drawn_bbox_ids_on_canvas
                (<[img_name := []]> (drawn_bbox_ids_on_canvas s)) s
          | None => s
          end in
        match current_subfolder_active_annotations s !! img_name with
        | Some _ =>
            let '(l, h) := alloc [] (heap s) in
            with_active_annotations
              (<[img_name := l]> (current_subfolder_active_annotations s))
              (with_heap h s)
        | None => s
        end
      else s
  | _ => s
  end.

Definition _action_clear_current_annotations (yes : bool) (s : App) : App :=
  if negb (PyStr.truthy (current_subfolder_name s)) then s
  else if negb (is_anything_to_clear s) then s
  else
    let s := askyesno "Confirm Clear"
               ("Are you sure you want to clear all annotations for subfolder '"
                +:+ current_subfolder_name s
                +:+ "'? This action cannot be undone until next save.")
               yes s in
    if yes then with_unsaved_changes true (foldl clear_slot s (seq 0 4))
    else s.

(** The index [_load_initial_state] starts at; [last_completed] is
    [progress_data.get("last_completed_subfolder_name")], [None] when
    the key is missing. *)
Definition start_index (last_completed : option string) (subfolders : list string) : Z :=
  match last_completed with
  | Some last_completed =>
      match Draw_boxes_.list_index last_completed subfolders with
      | Some completed_idx =>
          let start_index := (Z.of_nat completed_idx + 1)%Z in
          if (Z.of_nat (length subfolders) <=? start_index)%Z then
            let start_index := (Z.of_nat (length subfolders) - 1)%Z in
            if (start_index <? 0)%Z then 0%Z else start_index
          else start_index
      | None => 0%Z
      end
  | None => 0%Z
  end.

(** *** Saving and closing *)

(** Whether [open(filepath, 'w')] and [json.dump] succeed; when they
    do not, the text of the exception and what the file holds
    afterwards ([None]: what it held before; otherwise
    [open(filepath, 'w')] truncated it and this is what was written
    before the error). *)
Variable can_write : string → bool.
Variable write_failure : string → string * option JsonDoc.

Definition _write_json_file (filepath : string) (data : JsonDoc)
    (s : App * Files) : App * Files :=
  if can_write filepath
  then (s.1, mkFiles (progress_data s.2) (<[filepath := data]> (disk s.2)))
  else
    (showerror "Error"
       ("Could not save to " +:+ filepath +:+ ": " +:+ (write_failure filepath).1) s.1,
     match (write_failure filepath).2 with
     | Some partial => mkFiles (progress_data s.2) (<[filepath := partial]> (disk s.2))
     | None => s.2
     end).

Definition _action_save_annotations (called_from_next : bool) (s : App * Files)
  : bool * (App * Files) :=
  if negb (PyStr.truthy (current_subfolder_name s.1)) then (false, s)
  else
    let app := with_annotations_data
                 (<[current_subfolder_name s.1 :=
                      current_subfolder_active_annotations s.1]>
                    (annotations_data s.1)) s.1 in
    let s := _write_json_file ANNOTATIONS_FILE (dump_annotations app) (app, s.2) in
    let s := (s.1, mkFiles (Some (current_subfolder_name s.1)) (disk s.2)) in
    let s := _write_json_file PROGRESS_FILE (DocProgress (progress_data s.2)) s in
    (true, (with_unsaved_changes false s.1, s.2)).

Definition _action_save_and_next (s : App * Files) : App * Files :=
  let '(saved, s) := _action_save_annotations true s in
  if saved then
    if (current_subfolder_index s.1 <? Z.of_nat (length (subfolders s.1)) - 1)%Z
    then (_load_subfolder_by_index (current_subfolder_index s.1 + 1) s.1, s.2)
    else (showinfo "Info" "You have reached the end of the subfolders." s.1, s.2)
  else s.

(** The handler of the window's close button: the session afterwards
    and whether [root.destroy()] was called. *)
Definition _on_app_close (choice : Draw_boxes_.ExitChoice) (s : App * Files)
  : App * Files * bool :=
  if unsaved_changes s.1 then
    match choice with
    | Draw_boxes_.ChoiceSaveExit => ((_action_save_annotations false s).2, true)
    | Draw_boxes_.ChoiceExitNoSave => (s, true)
    | Draw_boxes_.ChoiceCancel => (s, false)
    end
  else (s, true).

End Engine.

End Draw_boxes.

(** ** Concrete sessions *)

Module Examples.
Import Draw_boxes_.

(** A main folder with the groups A, B and C, two images in each, every
    file readable and every store writable.  No name of these sessions
    has a character outside ASCII. *)
Definition env_abc : Env :=
  mkEnv "/data" (Some ["C"; "A"; "B"]) ""
    (λ d, [d +:+ "2.png"; d +:+ "1.PNG"; "notes.txt"]) (λ _ _, true) (λ _, true)
    (λ _, ("", None)) (λ s, s) (λ s, s) (λ s, s).

(** The same folder on a disk that cannot be written. *)
Definition env_readonly : Env :=
  mkEnv "/data" (Some ["C"; "A"; "B"]) ""
    (λ d, [d +:+ "2.png"; d +:+ "1.PNG"; "notes.txt"]) (λ _ _, true) (λ _, false)
    (λ path, ("[Errno 13] Permission denied: '" +:+ path +:+ "'", None))
    (λ s, s) (λ s, s) (λ s, s).

(** A progress store that lists A as completed. *)
Definition files_A_done : gmap string JsonDoc :=
  {[ PROGRESS_FILE := DocProgress (Some ["A"]) ]}.

(** A progress store that lists A and B as completed. *)
Definition files_AB_done : gmap string JsonDoc :=
  {[ PROGRESS_FILE := DocProgress (Some ["A"; "B"]) ]}.

(** The first group A, one box drawn on its first image, not saved. *)
Definition dirty_A (E : Env) : App :=
  run E (__init__ E ∅) (draw 0 10 10 100 100).

(** Group B, one box drawn on its first image, not saved. *)
Definition dirty_B (E : Env) : App :=
  run E (__init__ E files_A_done) (draw 0 10 10 100 100).

(** The last group C, one box drawn on its first image, not saved. *)
Definition dirty_C (E : Env) : App :=
  run E (__init__ E files_AB_done) (draw 0 10 10 100 100).

(** Group B with the category set to "other" through "Add New...". *)
Definition other_B (E : Env) : App :=
  run E (__init__ E files_A_done) [AddNewType (Some "other")].


(** Three gestures on group B: a box on the first image, a box on the
    second one, and a pair too small to give a box. *)
Definition three_gestures : list Gesture :=
  [(0%nat, (10, 10), (100, 100)); (1%nat, (20, 20), (200, 200));
   (0%nat, (1, 1), (2, 2))]%Z.

(** A main folder whose group A has two images and whose group B has
    one. *)
Definition env_uneven : Env :=
  mkEnv "/data" (Some ["A"; "B"]) ""
    (λ d, if decide (d = "A") then ["A1.png"; "A2.png"] else [d +:+ "1.png"])
    (λ _ _, true) (λ _, true)
    (λ _, ("", None)) (λ s, s) (λ s, s) (λ s, s).

(** Group B of that folder, reached from group A by save-and-next. *)
Definition uneven_B : App :=
  run env_uneven (__init__ env_uneven ∅) [SaveAndNext].

(** Group B saved with one box, then two more boxes drawn. *)
Definition saved_B_then_drawn (E : Env) : App :=
  run E (dirty_B E) (Save :: draw 0 20 20 200 200 ++ draw 1 30 30 300 300).

(** The folder dialog is cancelled; the main folder has no subfolder;
    the main folder cannot be listed. *)
Definition env_cancelled : Env :=
  mkEnv "" (Some ["A"]) "" (λ _, []) (λ _ _, true) (λ _, true)
    (λ _, ("", None)) (λ s, s) (λ s, s) (λ s, s).

Definition env_no_groups : Env :=
  mkEnv "/data" (Some []) "" (λ _, []) (λ _ _, true) (λ _, true)
    (λ _, ("", None)) (λ s, s) (λ s, s) (λ s, s).

Definition env_unlisted : Env :=
  mkEnv "/data" None "[Errno 13] Permission denied: '/data'" (λ _, []) (λ _ _, true) (λ _, true)
    (λ _, ("", None)) (λ s, s) (λ s, s) (λ s, s).

(** A session without groups in which a category has been added. *)
Definition typed_no_groups : App :=
  run env_no_groups (__init__ env_no_groups ∅) [AddNewType (Some "figures")].

(** An annotation file with one record: group A, category "tables", one
    box on the first image and none on the second. *)
Definition files_A_annotated : gmap string JsonDoc :=
  {[ ANNOTATIONS_FILE :=
       DocAnnotations
         {[ "A" := mkSubfolderJson (Some "tables")
                     {[ "A1.PNG" := [[1; 2; 30; 40]%Z]; "A2.png" := [] ]} ]};
     PROGRESS_FILE := DocProgress (Some ["A"]) ]}.

(** The older program: the folder of [env_abc], and its first group A
    with one box drawn on the first image. *)
Definition older_env : Draw_boxes.Env :=
  Draw_boxes.mkEnv (λ d, Some [d +:+ "2.png"; d +:+ "1.PNG"; "notes.txt"]) (λ _, "")
    (λ _ _, true).

Definition older_start : Draw_boxes.App :=
  Draw_boxes.mkApp ["A"; "B"; "C"] (-1) "" ∅ (replicate 4 None) ∅ ∅
    (replicate 4 empty_draw_state) false (mkHeap ∅ 0) 1 [].

(** The older program on group A with a press waiting on the first
    canvas. *)
Definition older_pressed_A : Draw_boxes.App :=
  Draw_boxes._on_canvas_press 0 10 10
    (Draw_boxes._load_subfolder_by_index older_env 0 older_start).

Definition older_dirty_A : Draw_boxes.App :=
  Draw_boxes._on_canvas_release 0 100 100
    (Draw_boxes._on_canvas_press 0 10 10
       (Draw_boxes._load_subfolder_by_index older_env 0 older_start)).

(** The older program on group B: one box drawn and saved, a second box
    drawn and not saved. *)
Definition older_saved_B_then_drawn : Draw_boxes.App * Draw_boxes.Files :=
  let app := Draw_boxes._on_canvas_release 0 100 100
               (Draw_boxes._on_canvas_press 0 10 10
                  (Draw_boxes._load_subfolder_by_index older_env 1 older_start)) in
  let s := (Draw_boxes._action_save_annotations (λ _, true) (λ _, ("", None)) false
              (app, Draw_boxes.mkFiles None ∅)).2 in
  (Draw_boxes._on_canvas_release 0 200 200 (Draw_boxes._on_canvas_press 0 20 20 s.1), s.2).

End Examples.
(** * Properties *)

(** ** The heap of list objects *)

Section HeapFacts.

Implicit Types (h : Heap) (l : nat) (v : list bbox).

Lemma deref_alloc_new v h : deref (alloc v h).2 (next_loc h) = v.
Proof. unfold deref, alloc; simpl. by rewrite lookup_insert_eq. Qed.

Lemma deref_alloc_old v h l : l ≠ next_loc h → deref (alloc v h).2 l = deref h l.
Proof. intros Hl. unfold deref, alloc; simpl. by rewrite lookup_insert_ne. Qed.

Lemma deref_mutate_same l f h : deref (mutate l f h) l = f (deref h l).
Proof. unfold deref at 1, mutate; simpl. by rewrite lookup_insert_eq. Qed.

Lemma deref_mutate_other l l' f h : l ≠ l' → deref (mutate l f h) l' = deref h l'.
Proof. intros Hl. unfold deref at 1, mutate; simpl. by rewrite lookup_insert_ne. Qed.

Lemma next_loc_alloc v h : next_loc (alloc v h).2 = S (next_loc h).
Proof. reflexivity. Qed.

Lemma next_loc_mutate l f h : next_loc (mutate l f h) = next_loc h.
Proof. reflexivity. Qed.

End HeapFacts.



(** ** The engine of [draw_boxes_.py] *)

Module Engine_facts.
Import Draw_boxes_.

(** Reduce the record projections of an updated state, and nothing else. *)
Ltac app_simpl :=
  cbn [subfolders current_subfolder_index current_subfolder_name annotations_data
       progress_data current_image_names annotation_type_var annotation_types
       combo_values drawn_bbox_ids_on_canvas current_subfolder_active_annotations
       canvas_drawing_state undo_stack unsaved_changes heap next_item disk dialogs
       destroyed
       with_subfolders with_current_subfolder with_annotations_data with_progress_data
       with_current_image_names with_annotation_type_var with_annotation_types
       with_combo_values with_drawn_bbox_ids_on_canvas with_active_annotations
       with_canvas_drawing_state with_undo_stack with_unsaved_changes with_heap
       with_next_item with_disk with_dialogs with_destroyed
       showinfo showerror askyesno askstring
       _clear_display_and_current_data] in *.

Section WithEnv.
Context (E : Env).


Lemma Inv_press c x y s : Inv s → Inv (_on_canvas_press c x y s).
Proof.
  intros [H1 H2 H3 H4]. unfold _on_canvas_press.
  repeat case_match; try (by constructor); constructor; simpl; auto.
Qed.

Lemma Inv_release c x y s : Inv s → Inv (_on_canvas_release c x y s).
Proof.
  intros [H1 H2 H3 H4]. unfold _on_canvas_release.
  destruct (canvas_drawing_state s !! c) as [st|]; [|by constructor].
  destruct (active_rect_id st); [|by constructor].
  case_match; [by constructor|].
  destruct (image_name st) as [img|]; [|by constructor].
  unfold setdefault_list; simpl.
  destruct (current_subfolder_active_annotations s !! img) as [l|] eqn:Hl; simpl.
  - constructor; simpl; eauto.
  - constructor; simpl.
    + intros img' l' [[-> <-]|[? Hl']]%lookup_insert_Some; [lia|]. apply H1 in Hl'. lia.
    + intros i1 i2 l' [[<- <-]|[? Hl1]]%lookup_insert_Some [[<- ?]|[? Hl2]]%lookup_insert_Some;
        try done; subst.
      * apply H1 in Hl2. lia.
      * apply H1 in Hl1. lia.
      * eauto.
    + intros g r img' l' Hg Hr. specialize (H3 _ _ _ _ Hg Hr). lia.
    + done.
Qed.


Lemma foldl_frame {A} (f : App → A) (g : App → nat → App) (idxs : list nat) s :
  (∀ s i, f (g s i) = f s) → f (foldl g s idxs) = f s.
Proof.
  intros Hg. revert s. induction idxs as [|i idxs IH]; intros s; simpl; [done|].
  by rewrite IH, Hg.
Qed.

Ltac load_image_frame :=
  intros; unfold load_image; repeat case_match; reflexivity.

Lemma load_image_annotations_data name data files s i :
  annotations_data (load_image E name data files s i) = annotations_data s.
Proof. load_image_frame. Qed.
Lemma load_image_undo_stack name data files s i :
  undo_stack (load_image E name data files s i) = undo_stack s.
Proof. load_image_frame. Qed.
Lemma load_image_subfolders name data files s i :
  subfolders (load_image E name data files s i) = subfolders s.
Proof. load_image_frame. Qed.
Lemma load_image_index name data files s i :
  current_subfolder_index (load_image E name data files s i) = current_subfolder_index s.
Proof. load_image_frame. Qed.
Lemma load_image_name name data files s i :
  current_subfolder_name (load_image E name data files s i) = current_subfolder_name s.
Proof. load_image_frame. Qed.
Lemma load_image_var name data files s i :
  annotation_type_var (load_image E name data files s i) = annotation_type_var s.
Proof. load_image_frame. Qed.
Lemma load_image_types name data files s i :
  annotation_types (load_image E name data files s i) = annotation_types s.
Proof. load_image_frame. Qed.
Lemma load_image_combo name data files s i :
  combo_values (load_image E name data files s i) = combo_values s.
Proof. load_image_frame. Qed.
Lemma load_image_progress name data files s i :
  progress_data (load_image E name data files s i) = progress_data s.
Proof. load_image_frame. Qed.
Lemma load_image_disk name data files s i :
  disk (load_image E name data files s i) = disk s.
Proof. load_image_frame. Qed.
Lemma load_image_dialogs name data files s i :
  dialogs (load_image E name data files s i) = dialogs s.
Proof. load_image_frame. Qed.
Lemma load_image_unsaved name data files s i :
  unsaved_changes (load_image E name data files s i) = unsaved_changes s.
Proof. load_image_frame. Qed.
Lemma load_image_destroyed name data files s i :
  destroyed (load_image E name data files s i) = destroyed s.
Proof. load_image_frame. Qed.

Lemma load_image_LoadInv name data h0 s i :
  (∀ img l, annotations data !! img = Some l → (l < next_loc h0)%nat) →
  (i < 4)%nat →
  LoadInv E name data h0 s →
  LoadInv E name data h0 (load_image E name data (image_files E name) s i).
Proof.
  intros Hdata Hi [H1 H2 H3 H4]. unfold load_image.
  destruct (image_files E name !! i) as [img|] eqn:Hf; [|by constructor].
  destruct (image_loads E name img) eqn:Hok; [|by constructor].
  assert (Hst : match annotations data !! img with
                | Some l => deref (heap s) l | None => [] end = stored_in data h0 img).
  { unfold stored_in. destruct (annotations data !! img) as [l|] eqn:Hl; [|done].
    apply H2. eauto. }
  simpl. rewrite Hst. constructor; simpl.
  - lia.
  - intros l Hl. rewrite <- H2 by done. unfold deref; simpl. rewrite lookup_insert_ne by lia. done.
  - intros img' l' [[<- <-]|[Hne Hl']]%lookup_insert_Some.
    + split; [lia|]. split; [|by exists i].
      unfold deref; simpl. by rewrite lookup_insert_eq.
    + destruct (H3 _ _ Hl') as (? & ? & ?). split; [lia|]. split; [|done].
      unfold deref in *; simpl. rewrite lookup_insert_ne by lia. done.
  - intros i1 i2 l' [[<- <-]|[? Hl1]]%lookup_insert_Some [[<- ?]|[? Hl2]]%lookup_insert_Some;
      try done; subst.
    + apply H3 in Hl2. lia.
    + apply H3 in Hl1. lia.
    + eauto.
Qed.

Lemma foldl_load_image_LoadInv name data h0 idxs s :
  (∀ img l, annotations data !! img = Some l → (l < next_loc h0)%nat) →
  Forall (λ i, i < 4)%nat idxs →
  LoadInv E name data h0 s →
  LoadInv E name data h0 (foldl (load_image E name data (image_files E name)) s idxs).
Proof.
  intros Hdata Hidx. revert s. induction Hidx as [|i idxs Hi _ IH]; intros s Hs; simpl; [done|].
  apply IH. by apply load_image_LoadInv.
Qed.



Lemma load_image_keeps_key name data files s i img :
  is_Some (current_subfolder_active_annotations s !! img) →
  is_Some (current_subfolder_active_annotations (load_image E name data files s i) !! img).
Proof.
  intros Hs. unfold load_image.
  destruct (files !! i) as [img'|]; [|done].
  destruct (image_loads E name img'); [|done]. simpl.
  rewrite lookup_insert_is_Some'. by right.
Qed.

Lemma foldl_load_image_keeps_key name data files idxs s img :
  is_Some (current_subfolder_active_annotations s !! img) →
  is_Some (current_subfolder_active_annotations
             (foldl (load_image E name data files) s idxs) !! img).
Proof.
  revert s. induction idxs as [|i idxs IH]; intros s Hs; simpl; [done|].
  by apply IH, load_image_keeps_key.
Qed.

Lemma foldl_load_image_present name data files idxs s i img :
  i ∈ idxs → files !! i = Some img → image_loads E name img = true →
  is_Some (current_subfolder_active_annotations
             (foldl (load_image E name data files) s idxs) !! img).
Proof.
  intros Hi Hf Hok. revert s. induction idxs as [|j idxs IH]; intros s; simpl.
  { by apply elem_of_nil in Hi. }
  destruct (decide (i = j)) as [<-|Hne].
  - apply foldl_load_image_keeps_key. unfold load_image. rewrite Hf, Hok. simpl.
    rewrite lookup_insert_is_Some'. by left.
  - apply IH. apply elem_of_cons in Hi as [?|?]; done.
Qed.

Lemma load_image_names_other name data files s i j :
  i ≠ j →
  current_image_names (load_image E name data files s i) !! j = current_image_names s !! j.
Proof.
  intros Hne. unfold load_image.
  destruct (files !! i) as [img'|]; [|done].
  destruct (image_loads E name img'); [|done]. simpl.
  by rewrite list_lookup_insert_ne.
Qed.

Lemma foldl_load_image_names_other name data files idxs : ∀ s j,
  j ∉ idxs →
  current_image_names (foldl (load_image E name data files) s idxs) !! j
  = current_image_names s !! j.
Proof.
  induction idxs as [|i idxs IH]; intros s j Hj; simpl; [done|].
  apply not_elem_of_cons in Hj as [Hne Hj].
  rewrite IH by done. by apply load_image_names_other.
Qed.

Lemma load_image_names_length name data files s i :
  length (current_image_names (load_image E name data files s i))
  = length (current_image_names s).
Proof.
  unfold load_image.
  destruct (files !! i) as [img'|]; [|done].
  destruct (image_loads E name img'); [|done]. simpl.
  by rewrite length_insert.
Qed.

Lemma foldl_load_image_names name idxs : ∀ data s j,
  NoDup idxs → j ∈ idxs →
  (j < length (current_image_names s))%nat →
  current_image_names s !! j = Some None →
  current_image_names (foldl (load_image E name data (image_files E name)) s idxs) !! j
  = Some (slot_name E name j).
Proof.
  induction idxs as [|i idxs IH]; intros data s j Hnd Hj Hlen Hnone; simpl.
  { by apply elem_of_nil in Hj. }
  apply NoDup_cons in Hnd as [Hi Hnd].
  destruct (decide (j = i)) as [->|Hne].
  - rewrite foldl_load_image_names_other by done.
    unfold load_image, slot_name.
    destruct (image_files E name !! i) as [img|]; [|done].
    destruct (image_loads E name img); [|done]. simpl.
    by rewrite list_lookup_insert_eq.
  - apply IH; try done.
    + apply elem_of_cons in Hj as [?|?]; done.
    + by rewrite load_image_names_length.
    + by rewrite load_image_names_other.
Qed.


Lemma load_out_of_range idx s :
  ¬ valid_index s idx →
  _load_subfolder_by_index E idx s
  = showinfo "Info" "You have reached the beginning or end of the subfolders." s.
Proof.
  intros Hidx. unfold _load_subfolder_by_index, valid_index in *.
  destruct (0 <=? idx)%Z eqn:H1; destruct (idx <? _)%Z eqn:H2; simpl; try done.
  apply Z.leb_le in H1. apply Z.ltb_lt in H2. lia.
Qed.

Lemma load_valid_eq idx name s :
  valid_index s idx →
  subfolders s !! Z.to_nat idx = Some name →
  _load_subfolder_by_index E idx s
  = with_unsaved_changes false
      (foldl (load_image E name
                (default (mkSubfolderData None ∅) (annotations_data s !! name))
                (image_files E name))
             (load_start idx name s) (seq 0 4)).
Proof.
  intros Hidx Hname. unfold _load_subfolder_by_index, valid_index in *.
  destruct (0 <=? idx)%Z eqn:H1; [|apply Z.leb_gt in H1; lia].
  destruct (idx <? _)%Z eqn:H2; [|apply Z.ltb_ge in H2; lia].
  simpl negb. cbv iota. cbv zeta.
  change (subfolders (_clear_display_and_current_data s)) with (subfolders s).
  rewrite Hname.
  change (default "" (Some name)) with name.
  unfold load_start, loaded_type.
  change (annotations_data (with_current_subfolder idx name (_clear_display_and_current_data s)))
    with (annotations_data s).
  change (annotation_type_var (with_current_subfolder idx name (_clear_display_and_current_data s)))
    with (annotation_type_var s).
  change (combo_values (with_current_subfolder idx name (_clear_display_and_current_data s)))
    with (combo_values s).
  destruct (annotations_data s !! name) as [r|]; reflexivity.
Qed.

(** The fields a valid load leaves alone or resets, whatever the heap
    holds. *)
Lemma load_frame idx s :
  valid_index s idx →
  let s' := _load_subfolder_by_index E idx s in
  subfolders s' = subfolders s ∧
  current_subfolder_index s' = idx ∧
  subfolders s !! Z.to_nat idx = Some (current_subfolder_name s') ∧
  annotations_data s' = annotations_data s ∧
  progress_data s' = progress_data s ∧
  annotation_types s' = annotation_types s ∧
  combo_values s' = combo_values s ∧
  disk s' = disk s ∧
  dialogs s' = dialogs s ∧
  destroyed s' = destroyed s ∧
  undo_stack s' = [] ∧
  unsaved_changes s' = false ∧
  annotation_type_var s' = loaded_type s (current_subfolder_name s').
Proof.
  intros Hidx s'. subst s'.
  destruct (subfolders s !! Z.to_nat idx) as [name|] eqn:Hname.
  2:{ apply lookup_ge_None in Hname. unfold valid_index in Hidx. lia. }
  rewrite (load_valid_eq idx name s Hidx Hname).
  set (data := default (mkSubfolderData None ∅) (annotations_data s !! name)).
  set (g := load_image E name data (image_files E name)).
  set (s1 := load_start idx name s).
  pose proof (foldl_frame subfolders g (seq 0 4) s1
                (load_image_subfolders name data (image_files E name))) as F1.
  pose proof (foldl_frame current_subfolder_index g (seq 0 4) s1
                (load_image_index name data (image_files E name))) as F2.
  pose proof (foldl_frame current_subfolder_name g (seq 0 4) s1
                (load_image_name name data (image_files E name))) as F3.
  pose proof (foldl_frame annotations_data g (seq 0 4) s1
                (load_image_annotations_data name data (image_files E name))) as F4.
  pose proof (foldl_frame progress_data g (seq 0 4) s1
                (load_image_progress name data (image_files E name))) as F5.
  pose proof (foldl_frame annotation_types g (seq 0 4) s1
                (load_image_types name data (image_files E name))) as F6.
  pose proof (foldl_frame combo_values g (seq 0 4) s1
                (load_image_combo name data (image_files E name))) as F7.
  pose proof (foldl_frame disk g (seq 0 4) s1
                (load_image_disk name data (image_files E name))) as F8.
  pose proof (foldl_frame dialogs g (seq 0 4) s1
                (load_image_dialogs name data (image_files E name))) as F9.
  pose proof (foldl_frame destroyed g (seq 0 4) s1
                (load_image_destroyed name data (image_files E name))) as F10.
  pose proof (foldl_frame undo_stack g (seq 0 4) s1
                (load_image_undo_stack name data (image_files E name))) as F11.
  pose proof (foldl_frame annotation_type_var g (seq 0 4) s1
                (load_image_var name data (image_files E name))) as F12.
  generalize dependent (foldl g s1 (seq 0 4)).
  intros s2 F1 F2 F3 F4 F5 F6 F7 F8 F9 F10 F11 F12.
  cbn [subfolders current_subfolder_index current_subfolder_name annotations_data
       progress_data annotation_type_var annotation_types combo_values undo_stack
       unsaved_changes disk dialogs destroyed with_unsaved_changes].
  rewrite F1, F2, F3, F4, F5, F6, F7, F8, F9, F10, F11, F12.
  repeat split; try reflexivity; exact Hname.
Qed.

Lemma load_start_LoadInv idx name data s :
  LoadInv E name data (heap s) (load_start idx name s).
Proof. constructor; cbn; try done. Qed.

Lemma load_Loaded idx s :
  valid_index s idx →
  (∀ g r img l, annotations_data s !! g = Some r → annotations r !! img = Some l →
                (l < next_loc (heap s))%nat) →
  Loaded E idx s (_load_subfolder_by_index E idx s).
Proof.
  intros Hidx Hstore.
  destruct (subfolders s !! Z.to_nat idx) as [name|] eqn:Hname.
  2:{ apply lookup_ge_None in Hname. unfold valid_index in Hidx. lia. }
  rewrite (load_valid_eq idx name s Hidx Hname).
  set (data := default (mkSubfolderData None ∅) (annotations_data s !! name)).
  assert (Hdata : ∀ img l, annotations data !! img = Some l → (l < next_loc (heap s))%nat).
  { intros img l. unfold data. destruct (annotations_data s !! name) eqn:Hr; simpl; [eauto|].
    by rewrite lookup_empty. }
  assert (Hsaved : ∀ img, stored_in data (heap s) img = saved_boxes s name img).
  { intros img. unfold stored_in, saved_boxes, data.
    destruct (annotations_data s !! name); simpl; [done|]. by rewrite lookup_empty. }
  set (g := load_image E name data (image_files E name)).
  set (s1 := load_start idx name s).
  destruct (foldl_load_image_LoadInv name data (heap s) (seq 0 4) s1 Hdata)
    as [L1 L2 L3 L4].
  { repeat constructor. }
  { apply load_start_LoadInv. }
  fold g in L1, L2, L3, L4.
  pose proof (foldl_frame subfolders g (seq 0 4) s1
                (load_image_subfolders name data (image_files E name))) as F1.
  pose proof (foldl_frame current_subfolder_index g (seq 0 4) s1
                (load_image_index name data (image_files E name))) as F2.
  pose proof (foldl_frame current_subfolder_name g (seq 0 4) s1
                (load_image_name name data (image_files E name))) as F3.
  pose proof (foldl_frame annotations_data g (seq 0 4) s1
                (load_image_annotations_data name data (image_files E name))) as F4.
  pose proof (foldl_frame progress_data g (seq 0 4) s1
                (load_image_progress name data (image_files E name))) as F5.
  pose proof (foldl_frame annotation_types g (seq 0 4) s1
                (load_image_types name data (image_files E name))) as F6.
  pose proof (foldl_frame combo_values g (seq 0 4) s1
                (load_image_combo name data (image_files E name))) as F7.
  pose proof (foldl_frame disk g (seq 0 4) s1
                (load_image_disk name data (image_files E name))) as F8.
  pose proof (foldl_frame dialogs g (seq 0 4) s1
                (load_image_dialogs name data (image_files E name))) as F9.
  pose proof (foldl_frame destroyed g (seq 0 4) s1
                (load_image_destroyed name data (image_files E name))) as F10.
  pose proof (foldl_frame undo_stack g (seq 0 4) s1
                (load_image_undo_stack name data (image_files E name))) as F11.
  pose proof (foldl_frame annotation_type_var g (seq 0 4) s1
                (load_image_var name data (image_files E name))) as F12.
  assert (Hpresent : ∀ img, loaded E name img →
            is_Some (current_subfolder_active_annotations (foldl g s1 (seq 0 4)) !! img)).
  { intros img (i & Hi & Hf & Hok).
    eapply foldl_load_image_present; [|done..]. apply elem_of_seq. lia. }
  assert (Hnames : ∀ i, (i < 4)%nat →
            current_image_names (foldl g s1 (seq 0 4)) !! i = Some (slot_name E name i)).
  { intros i Hi. apply foldl_load_image_names.
    - apply NoDup_seq.
    - apply elem_of_seq. lia.
    - cbn. lia.
    - cbn. do 4 (destruct i as [|i]; [done|]). lia. }
  generalize dependent (foldl g s1 (seq 0 4)). intros s2 L1 L2 L3 L4 F1 F2 F3 F4 F5 F6 F7 F8 F9 F10 F11 F12 Hpresent Hnames.
  constructor;
    cbn [subfolders current_subfolder_index current_subfolder_name annotations_data
         progress_data current_image_names annotation_type_var annotation_types
         combo_values current_subfolder_active_annotations undo_stack unsaved_changes
         heap disk dialogs destroyed with_unsaved_changes];
    rewrite ?F3.
  - rewrite F1. reflexivity.
  - rewrite F2. reflexivity.
  - exact Hname.
  - rewrite F4. reflexivity.
  - rewrite F5. reflexivity.
  - rewrite F6. reflexivity.
  - rewrite F7. reflexivity.
  - rewrite F8. reflexivity.
  - rewrite F9. reflexivity.
  - rewrite F10. reflexivity.
  - rewrite F11. reflexivity.
  - reflexivity.
  - rewrite F12. reflexivity.
  - exact L1.
  - exact L2.
  - intros img l Hl. destruct (L3 _ _ Hl) as (? & ? & ?). rewrite <- Hsaved. done.
  - exact L4.
  - exact Hpresent.
  - exact Hnames.
Qed.

Lemma Loaded_Inv idx s s' :
  valid_index s idx → Inv s → Loaded E idx s s' → Inv s'.
Proof.
  intros Hidx [H1 H2 H3 H4] L. constructor.
  - intros img l Hl. apply (ld_active _ _ _ _ L) in Hl. lia.
  - apply (ld_inj _ _ _ _ L).
  - rewrite (ld_store _ _ _ _ L). intros g r img l Hg Hr.
    pose proof (ld_next _ _ _ _ L). specialize (H3 _ _ _ _ Hg Hr). lia.
  - intros _. rewrite (ld_index _ _ _ _ L), (ld_subfolders _ _ _ _ L).
    split; [apply Hidx | apply (ld_name _ _ _ _ L)].
Qed.

Lemma Loaded_Separated idx s s' : Inv s → Loaded E idx s s' → Separated s'.
Proof.
  intros [H1 H2 H3 H4] L img l g r img' Hl Hg Hr.
  rewrite (ld_store _ _ _ _ L) in Hg.
  apply (ld_active _ _ _ _ L) in Hl. specialize (H3 _ _ _ _ Hg Hr). lia.
Qed.

Lemma Inv_showinfo t m s : Inv s → Inv (showinfo t m s).
Proof. by intros []. Qed.

Lemma Inv_load idx s : Inv s → Inv (_load_subfolder_by_index E idx s).
Proof.
  intros HI. destruct (decide (valid_index s idx)) as [Hidx|Hidx].
  - eapply Loaded_Inv; [done..|]. apply load_Loaded; [done|]. apply HI.
  - rewrite load_out_of_range by done. by apply Inv_showinfo.
Qed.

Lemma Inv_undo s : Inv s → Inv (_action_undo_last_bbox s).
Proof.
  intros [H1 H2 H3 H4]. unfold _action_undo_last_bbox.
  destruct (last (undo_stack s)) as [[c img]|]; [|by constructor].
  app_simpl.
  destruct (drawn_bbox_ids_on_canvas s !! img) as [[|]|];
    app_simpl;
    (destruct (current_subfolder_active_annotations s !! img) as [l0|];
     [destruct (deref (heap s) l0)|]); constructor; app_simpl; done.
Qed.

Lemma Inv_write path doc s : Inv s → Inv (_write_json_file E path doc s).
Proof.
  intros []. unfold _write_json_file.
  destruct (can_write E path); [done|]. by destruct (write_failure E path).2.
Qed.

Lemma Inv_save b s : Inv s → Inv (_action_save_annotations E b s).2.
Proof.
  intros HI. unfold _action_save_annotations.
  destruct (PyStr.truthy (current_subfolder_name s)) eqn:Hname; [|done].
  cbn [negb snd].
  match goal with |- Inv (if b then ?s1 else _) => assert (Inv s1) as HI1 end.
  { destruct HI as [H1 H2 H3 H4].
    unfold _write_json_file.
    destruct (can_write E ANNOTATIONS_FILE); [|destruct (write_failure E ANNOTATIONS_FILE).2];
      app_simpl;
      (destruct (can_write E PROGRESS_FILE); [|destruct (write_failure E PROGRESS_FILE).2]);
      app_simpl;
      (constructor; app_simpl; [done|done| |done]);
      (intros g r img l [[<- <-]|[? Hg]]%lookup_insert_Some Hr; simpl in *; eauto). }
  destruct b; [done|]. by apply Inv_load.
Qed.

Lemma Inv_save_and_next s : Inv s → Inv (_action_save_and_next E s).
Proof.
  intros HI. unfold _action_save_and_next.
  pose proof (Inv_save true s HI) as HI1.
  destruct (_action_save_annotations E true s) as [[] s1]; [|done].
  by apply Inv_load.
Qed.

Lemma Inv_previous yes s : Inv s → Inv (_action_previous_subfolder E yes s).
Proof.
  intros HI. unfold _action_previous_subfolder.
  destruct (unsaved_changes s); [|by apply Inv_load].
  assert (Inv (askyesno "Unsaved Changes" "Go to previous without saving?" yes s)) as HI1
    by (by destruct HI).
  destruct yes; [|done]. by apply Inv_load.
Qed.

Lemma Inv_select t s : Inv s → Inv (select_annotation_type t s).
Proof. intros []. unfold select_annotation_type. by case_decide. Qed.

Lemma Inv_rebuild s : Inv s → Inv (_rebuild_annotation_widgets s).
Proof.
  intros []. unfold _rebuild_annotation_widgets. app_simpl.
  destruct (filter _ _); [done|]. by destruct (negb _).
Qed.

Lemma Inv_add_type answer s : Inv s → Inv (_add_new_annotation_type E answer s).
Proof.
  intros HI. unfold _add_new_annotation_type.
  assert (Inv (askstring "New Annotation Type" answer s)) as HI1 by (by destruct HI).
  destruct answer as [new_type|]; [|done].
  destruct (negb _ || negb _); [done|].
  case_decide.
  - by destruct HI1.
  - match goal with |- Inv (with_unsaved_changes true (with_annotation_type_var _ ?s1)) =>
      assert (Inv s1) as HI2 end.
    { apply Inv_rebuild, Inv_write. by destruct HI1. }
    by destruct HI2.
Qed.

Lemma Inv_clear_allocs (imgs : list string) s :
  Inv s →
  Inv (foldl (λ s img_name,
                let '(l, h) := alloc [] (heap s) in
                with_active_annotations
                  (<[img_name := l]> (current_subfolder_active_annotations s))
                  (with_heap h s))
             s imgs).
Proof.
  revert s. induction imgs as [|img imgs IH]; intros s HI; [done|].
  simpl. apply IH. destruct HI as [H1 H2 H3 H4]. constructor; app_simpl; simpl.
  - intros img' l' [[-> <-]|[? Hl']]%lookup_insert_Some; [lia|]. apply H1 in Hl'. lia.
  - intros i1 i2 l' [[<- <-]|[? Hl1]]%lookup_insert_Some [[<- ?]|[? Hl2]]%lookup_insert_Some;
      try done; subst.
    + apply H1 in Hl2. lia.
    + apply H1 in Hl1. lia.
    + eauto.
  - intros g r img' l' Hg Hr. specialize (H3 _ _ _ _ Hg Hr). lia.
  - done.
Qed.

Lemma Inv_clear yes s : Inv s → Inv (_action_clear_current_annotations E yes s).
Proof.
  intros HI. unfold _action_clear_current_annotations.
  assert (Inv (askyesno "Confirm Clear" "Clear all boxes for this subfolder?" yes s)) as HI1
    by (by destruct HI).
  destruct yes; [|done].
  match goal with |- Inv (with_unsaved_changes true ?s1) => assert (Inv s1) as HI2 end.
  { apply Inv_load. by apply Inv_clear_allocs. }
  by destruct HI2.
Qed.

Lemma Inv_step s a : Inv s → Inv (step E s a).
Proof.
  intros HI. destruct a; simpl.
  - by apply Inv_press.
  - by apply Inv_release.
  - by apply Inv_undo.
  - by apply Inv_save.
  - by apply Inv_save_and_next.
  - by apply Inv_clear.
  - by apply Inv_previous.
  - by apply Inv_select.
  - by apply Inv_add_type.
Qed.

Lemma Inv_run actions : ∀ s, Inv s → Inv (run E s actions).
Proof.
  induction actions as [|a actions IH]; intros s HI; [done|].
  simpl. apply IH. by apply Inv_step.
Qed.

End WithEnv.
End Engine_facts.

(** ** Saving *)

Module Save_facts.
Import Draw_boxes_ Engine_facts.

Section WithEnv.
Context (E : Env).

Lemma valid_index_lookup s idx :
  valid_index s idx → ∃ name, subfolders s !! Z.to_nat idx = Some name.
Proof.
  intros Hidx. unfold valid_index in Hidx.
  destruct (subfolders s !! Z.to_nat idx) as [name|] eqn:Hname; [by eexists|].
  apply lookup_ge_None in Hname. lia.
Qed.

(** A field that neither the reset nor the loop touches is kept by a
    load, up to the boundary dialog. *)
Lemma load_disk idx s : disk (_load_subfolder_by_index E idx s) = disk s.
Proof.
  destruct (decide (valid_index s idx)) as [Hidx|Hidx].
  - apply (load_frame E idx s Hidx).
  - by rewrite load_out_of_range.
Qed.

Lemma load_unsaved idx s :
  unsaved_changes s = false → unsaved_changes (_load_subfolder_by_index E idx s) = false.
Proof.
  intros Hs. destruct (decide (valid_index s idx)) as [Hidx|Hidx].
  - apply (load_frame E idx s Hidx).
  - by rewrite load_out_of_range.
Qed.

Lemma load_dialogs idx s d :
  d ∈ dialogs s → d ∈ dialogs (_load_subfolder_by_index E idx s).
Proof.
  intros Hd. destruct (decide (valid_index s idx)) as [Hidx|Hidx].
  - destruct (load_frame E idx s Hidx) as (_ & _ & _ & _ & _ & _ & _ & _ & -> & _). exact Hd.
  - rewrite load_out_of_range by done. cbn. apply elem_of_app. by left.
Qed.

Lemma save_eq called_from_next s :
  PyStr.truthy (current_subfolder_name s) = true →
  _action_save_annotations E called_from_next s
  = (true, if called_from_next then saved_state E s
           else _load_subfolder_by_index E (current_subfolder_index (saved_state E s))
                  (saved_state E s)).
Proof. intros Hn. unfold _action_save_annotations. rewrite Hn. reflexivity. Qed.

Lemma saved_state_unsaved s : unsaved_changes (saved_state E s) = false.
Proof. reflexivity. Qed.

Lemma write_fields path doc s :
  let s' := _write_json_file E path doc s in
  subfolders s' = subfolders s ∧
  current_subfolder_index s' = current_subfolder_index s ∧
  current_subfolder_name s' = current_subfolder_name s ∧
  annotations_data s' = annotations_data s ∧
  progress_data s' = progress_data s ∧
  annotation_type_var s' = annotation_type_var s ∧
  combo_values s' = combo_values s ∧
  current_subfolder_active_annotations s' = current_subfolder_active_annotations s ∧
  undo_stack s' = undo_stack s ∧
  heap s' = heap s ∧
  current_image_names s' = current_image_names s.
Proof.
  unfold _write_json_file.
  destruct (can_write E path); [|destruct (write_failure E path).2]; cbn; repeat split.
Qed.

Lemma write_failed_dialogs path doc s :
  can_write E path = false →
  dialogs (_write_json_file E path doc s)
  = dialogs s ++ [ShowError "Error"
                    ("Could not save to " +:+ path +:+ ": " +:+ (write_failure E path).1)].
Proof.
  intros H. unfold _write_json_file. rewrite H.
  by destruct (write_failure E path).2.
Qed.

Lemma write_other path path' doc s :
  path ≠ path' → disk (_write_json_file E path doc s) !! path' = disk s !! path'.
Proof.
  intros Hne. unfold _write_json_file.
  destruct (can_write E path); [|destruct (write_failure E path).2]; cbn;
    by rewrite ?lookup_insert_ne.
Qed.

Lemma write_dialogs path doc s d :
  d ∈ dialogs s → d ∈ dialogs (_write_json_file E path doc s).
Proof.
  intros Hd. unfold _write_json_file.
  destruct (can_write E path); [done|].
  destruct (write_failure E path).2; cbn; apply elem_of_app; by left.
Qed.

(** C1 (as amended).  An I/O error while writing the annotation store or
    the progress store is caught inside [_write_json_file] and shown in an
    error dialog, "Could not save to <file>: <error>"; the save still
    returns success and the dirty flag is cleared. *)
Theorem C1_save_clears_dirty_flag_even_when_write_fails
    (called_from_next : bool) (s : App) :
  PyStr.truthy (current_subfolder_name s) = true →
  let r := _action_save_annotations E called_from_next s in
  r.1 = true ∧
  unsaved_changes r.2 = false ∧
  (can_write E ANNOTATIONS_FILE = false →
     ShowError "Error"
       ("Could not save to annotations.json: " +:+ (write_failure E ANNOTATIONS_FILE).1)
     ∈ dialogs r.2) ∧
  (can_write E PROGRESS_FILE = false →
     ShowError "Error"
       ("Could not save to progress.json: " +:+ (write_failure E PROGRESS_FILE).1)
     ∈ dialogs r.2).
Proof.
  intros Hname r. subst r. rewrite save_eq by done. cbn [fst snd].
  split; [done|].
  assert (Hdl : ∀ (s1 : App) d, d ∈ dialogs s1 →
             d ∈ dialogs (if called_from_next then s1
                   else _load_subfolder_by_index E (current_subfolder_index s1) s1)).
  { intros s1 d ?. destruct called_from_next; [done|]. by apply load_dialogs. }
  split; [|split].
  - destruct called_from_next; [done|]. by apply load_unsaved.
  - intros Hw. apply Hdl. unfold saved_state. cbn [dialogs with_unsaved_changes].
    apply write_dialogs. cbn [dialogs with_progress_data].
    rewrite write_failed_dialogs by done. apply elem_of_app. right. by left.
  - intros Hw. apply Hdl. unfold saved_state. cbn [dialogs with_unsaved_changes].
    rewrite write_failed_dialogs by done. apply elem_of_app. right. by left.
Qed.

End WithEnv.
End Save_facts.

(** ** Start-up *)

Module Init_facts.
Import Draw_boxes_ Engine_facts.

Section WithEnv.
Context (E : Env).

Lemma load_lists_spec (m : gmap string (list bbox)) (h : Heap) :
  (next_loc h ≤ next_loc (load_lists m h).2)%nat ∧
  ∀ img l, (load_lists m h).1 !! img = Some l → (l < next_loc (load_lists m h).2)%nat.
Proof.
  unfold load_lists.
  apply (map_fold_weak_ind
           (λ (acc : gmap string nat * Heap) (_ : gmap string (list bbox)),
              (next_loc h ≤ next_loc acc.2)%nat ∧
              ∀ img l, acc.1 !! img = Some l → (l < next_loc acc.2)%nat)).
  - split; [done|]. intros img l. cbn [fst snd]. by rewrite lookup_empty.
  - intros img v m' [d h'] _ [IH1 IH2]. cbn in *. split; [lia|].
    intros img' l [[_ <-]|[_ Hl]]%lookup_insert_Some; [lia|].
    apply IH2 in Hl. lia.
Qed.

Lemma json_load_annotations_spec (j : gmap string SubfolderJson) (h : Heap) :
  (next_loc h ≤ next_loc (json_load_annotations j h).2)%nat ∧
  ∀ g r img l,
    (json_load_annotations j h).1 !! g = Some r → annotations r !! img = Some l →
    (l < next_loc (json_load_annotations j h).2)%nat.
Proof.
  unfold json_load_annotations.
  apply (map_fold_weak_ind
           (λ (acc : gmap string SubfolderData * Heap) (_ : gmap string SubfolderJson),
              (next_loc h ≤ next_loc acc.2)%nat ∧
              ∀ g r img l, acc.1 !! g = Some r → annotations r !! img = Some l →
                           (l < next_loc acc.2)%nat)).
  - split; [done|]. intros g r img l. cbn [fst snd]. by rewrite lookup_empty.
  - intros g rj m' [d h'] _ [IH1 IH2]. cbn [fst snd] in *.
    destruct (load_lists_spec (json_annotations rj) h') as [L1 L2].
    destruct (load_lists (json_annotations rj) h') as [d' h'']. cbn [fst snd] in *.
    split; [lia|].
    intros g' r img l [[_ <-]|[_ Hg]]%lookup_insert_Some Hl; cbn in *.
    + by apply L2 in Hl.
    + specialize (IH2 _ _ _ _ Hg Hl). lia.
Qed.

Lemma Inv_load_annotations_from_file s :
  Inv s → current_subfolder_active_annotations s = ∅ →
  Inv (_load_annotations_from_file s)
  ∧ current_subfolder_active_annotations (_load_annotations_from_file s) = ∅.
Proof.
  intros [H1 H2 H3 H4] Hw. unfold _load_annotations_from_file.
  assert (Hdef : Inv (with_annotations_data ∅ s)).
  { constructor; cbn; done. }
  destruct (disk s !! ANNOTATIONS_FILE) as [[j| | |]|]; try done.
  destruct (json_load_annotations_spec j (heap s)) as [L1 L2].
  destruct (json_load_annotations j (heap s)) as [d h]. cbn [fst snd] in *.
  split; [|done]. constructor; cbn; try done.
  - intros img l Hl. apply H1 in Hl. lia.
Qed.

Lemma Inv_load_progress_from_file s : Inv s → Inv (_load_progress_from_file s).
Proof.
  intros []. unfold _load_progress_from_file.
  destruct (disk s !! PROGRESS_FILE) as [[| | |]|]; by constructor.
Qed.

Lemma Inv_load_annotation_types s : Inv s → Inv (_load_annotation_types E s).
Proof.
  intros HI. unfold _load_annotation_types, _save_annotation_types.
  assert (∀ t, Inv (with_annotation_types t s)) as Ht by (intros; by destruct HI).
  destruct (disk s !! ANNOTATION_TYPES_FILE) as [[| | |]|]; try done; by apply Inv_write.
Qed.

Lemma Inv_setup_ui s : Inv s → Inv (_setup_ui s).
Proof. intros HI. unfold _setup_ui. apply Inv_rebuild. by destruct HI. Qed.

Lemma Inv_discover s :
  current_subfolder_name s = "" → Inv s → Inv (_discover_subfolders E s).
Proof.
  intros Hname [H1 H2 H3 H4]. unfold _discover_subfolders.
  destruct (listdir_dirs E); constructor; cbn; try done.
  rewrite Hname. done.
Qed.

Lemma Inv_blank files : Inv (blank files).
Proof. constructor; cbn; try done; intros *; by rewrite lookup_empty. Qed.

Lemma init_eq files :
  __init__ E files = _load_initial_state E (_setup_ui (_load_annotation_types E (blank files))).
Proof. reflexivity. Qed.

Lemma types_name s :
  current_subfolder_name (_load_annotation_types E s) = current_subfolder_name s
  ∧ current_subfolder_active_annotations (_load_annotation_types E s)
    = current_subfolder_active_annotations s.
Proof.
  unfold _load_annotation_types, _save_annotation_types, _write_json_file.
  destruct (disk s !! ANNOTATION_TYPES_FILE) as [[| | |]|]; try done;
    (destruct (can_write E ANNOTATION_TYPES_FILE); [done|]);
    by destruct (write_failure E ANNOTATION_TYPES_FILE).2.
Qed.

Lemma setup_ui_name s :
  current_subfolder_name (_setup_ui s) = current_subfolder_name s
  ∧ current_subfolder_active_annotations (_setup_ui s)
    = current_subfolder_active_annotations s.
Proof.
  unfold _setup_ui, _rebuild_annotation_widgets. cbn.
  destruct (filter _ _); [done|]. by destruct (negb _).
Qed.

Lemma Inv_load_initial_state s :
  current_subfolder_name s = "" → current_subfolder_active_annotations s = ∅ →
  Inv s → Inv (_load_initial_state E s).
Proof.
  intros Hname Hw HI. unfold _load_initial_state.
  destruct (negb (PyStr.truthy (askdirectory E))); [by destruct HI|].
  pose proof (Inv_discover s Hname HI) as HI1.
  assert (Hw1 : current_subfolder_active_annotations (_discover_subfolders E s) = ∅).
  { unfold _discover_subfolders. by destruct (listdir_dirs E). }
  generalize dependent (_discover_subfolders E s). intros s1 HI1 Hw1.
  destruct (subfolders s1) eqn:Hsub; [by apply Inv_showinfo|].
  destruct (Inv_load_annotations_from_file s1 HI1 Hw1) as [HI2 _].
  apply Inv_load. by apply Inv_load_progress_from_file.
Qed.

Lemma Inv_init files : Inv (__init__ E files).
Proof.
  rewrite init_eq.
  destruct (types_name (blank files)) as [T1 T2].
  destruct (setup_ui_name (_load_annotation_types E (blank files))) as [U1 U2].
  apply Inv_load_initial_state.
  - by rewrite U1, T1.
  - by rewrite U2, T2.
  - apply Inv_setup_ui, Inv_load_annotation_types, Inv_blank.
Qed.

End WithEnv.
End Init_facts.

Module Save_examples.
Import Draw_boxes_ Engine_facts Save_facts Examples.

(** C1, the claim as stated fails: on a disk that cannot be written, a
    save of a state with unsaved changes shows the two errors, succeeds
    and clears the flag. *)
Lemma C1_counterexample :
  unsaved_changes (dirty_B env_readonly) = true ∧
  can_write env_readonly ANNOTATIONS_FILE = false ∧
  can_write env_readonly PROGRESS_FILE = false ∧
  (_action_save_annotations env_readonly false (dirty_B env_readonly)).1 = true ∧
  unsaved_changes (_action_save_annotations env_readonly false (dirty_B env_readonly)).2
    ≠ true ∧
  dialogs (_action_save_annotations env_readonly false (dirty_B env_readonly)).2
  = dialogs (dirty_B env_readonly) ++
    [ShowError "Error"
       "Could not save to annotations.json: [Errno 13] Permission denied: 'annotations.json'";
     ShowError "Error"
       "Could not save to progress.json: [Errno 13] Permission denied: 'progress.json'"].
Proof. vm_compute. repeat split; discriminate. Qed.

Lemma C1_witness :
  PyStr.truthy (current_subfolder_name (dirty_B env_readonly)) = true ∧
  let r := _action_save_annotations env_readonly false (dirty_B env_readonly) in
  r.1 = true ∧
  unsaved_changes r.2 = false ∧
  (can_write env_readonly ANNOTATIONS_FILE = false →
     ShowError "Error"
       "Could not save to annotations.json: [Errno 13] Permission denied: 'annotations.json'"
     ∈ dialogs r.2) ∧
  (can_write env_readonly PROGRESS_FILE = false →
     ShowError "Error"
       "Could not save to progress.json: [Errno 13] Permission denied: 'progress.json'"
     ∈ dialogs r.2).
Proof.
  split; [reflexivity|].
  apply (C1_save_clears_dirty_flag_even_when_write_fails env_readonly false
           (dirty_B env_readonly)).
  reflexivity.
Defined.

End Save_examples.

(** ** Drawing and undoing *)

Module Box_facts.
Import Draw_boxes_ Engine_facts.

Lemma boxes_mutate_same s img l f :
  current_subfolder_active_annotations s !! img = Some l →
  boxes (with_heap (mutate l f (heap s)) s) img = f (boxes s img).
Proof.
  intros Hl. unfold boxes. cbn. rewrite Hl. apply deref_mutate_same.
Qed.

Lemma boxes_mutate_other s img img' l f :
  Inv s →
  current_subfolder_active_annotations s !! img = Some l → img' ≠ img →
  boxes (with_heap (mutate l f (heap s)) s) img' = boxes s img'.
Proof.
  intros HI Hl Hne. unfold boxes. cbn.
  destruct (current_subfolder_active_annotations s !! img') as [l'|] eqn:Hl'; [|done].
  apply deref_mutate_other. intros ->. apply Hne. eapply inv_active_inj; eauto.
Qed.

Lemma saved_boxes_mutate s l f g img :
  (∀ r img', annotations_data s !! g = Some r → annotations r !! img' ≠ Some l) →
  saved_boxes (with_heap (mutate l f (heap s)) s) g img = saved_boxes s g img.
Proof.
  intros Hsep. unfold saved_boxes. cbn.
  destruct (annotations_data s !! g) as [r|] eqn:Hg; [|done].
  destruct (annotations r !! img) as [l'|] eqn:Hl'; [|done].
  apply deref_mutate_other. intros ->. by eapply Hsep.
Qed.

(** What one release does to the session. *)
Lemma release_effect s canvas x y :
  Inv s →
  let s' := _on_canvas_release canvas x y s in
  annotations_data s' = annotations_data s ∧
  match canvas_drawing_state s !! canvas with
  | Some (mkDrawState (Some img) sx sy (Some _)) =>
      if too_small (release_bbox sx sy x y) then
        (∀ i, boxes s' i = boxes s i) ∧ undo_stack s' = undo_stack s ∧
        unsaved_changes s' = unsaved_changes s
      else
        (∀ i, boxes s' i = if decide (i = img) then boxes s i ++ [release_bbox sx sy x y]
                            else boxes s i) ∧
        undo_stack s' = undo_stack s ++ [(canvas, img)] ∧
        unsaved_changes s' = true
  | _ =>
      (∀ i, boxes s' i = boxes s i) ∧ undo_stack s' = undo_stack s ∧
      unsaved_changes s' = unsaved_changes s
  end.
Proof.
  intros HI s'. subst s'. unfold _on_canvas_release.
  destruct (canvas_drawing_state s !! canvas) as [[[img|] sx sy [r|]]|]; try done;
    cbn [active_rect_id image_name start_x start_y].
  2:{ by destruct (too_small (release_bbox sx sy x y)). }
  destruct (too_small (release_bbox sx sy x y)); [done|].
  unfold setdefault_list. app_simpl.
  destruct (current_subfolder_active_annotations s !! img) as [l|] eqn:Hl.
  - app_simpl. split; [done|]. split; [|done].
    intros i. unfold boxes. app_simpl. case_decide as Hi.
    + subst i. rewrite Hl. apply deref_mutate_same.
    + destruct (current_subfolder_active_annotations s !! i) as [l'|] eqn:Hl'; [|done].
      apply deref_mutate_other. intros ->. apply Hi. eapply inv_active_inj; eauto.
  - cbn [alloc]. app_simpl. split; [done|]. split; [|done].
    intros i. unfold boxes. app_simpl. case_decide as Hi.
    + subst i. rewrite Hl, lookup_insert_eq, deref_mutate_same.
      unfold deref; cbn. by rewrite lookup_insert_eq.
    + rewrite lookup_insert_ne by done.
      destruct (current_subfolder_active_annotations s !! i) as [l'|] eqn:Hl'; [|done].
      pose proof (inv_active_lt s HI _ _ Hl').
      rewrite deref_mutate_other by (cbn; lia).
      unfold deref; cbn. rewrite lookup_insert_ne by lia. done.
Qed.

(** What one undo does to the session. *)
Lemma undo_effect s canvas img :
  Inv s → last (undo_stack s) = Some (canvas, img) →
  let s' := _action_undo_last_bbox s in
  (∀ i, boxes s' i = if decide (i = img) then removelast (boxes s i) else boxes s i) ∧
  undo_stack s' = removelast (undo_stack s) ∧
  annotations_data s' = annotations_data s ∧
  canvas_drawing_state s' = canvas_drawing_state s ∧
  unsaved_changes s' = true.
Proof.
  intros HI Hlast s'. subst s'. unfold _action_undo_last_bbox. rewrite Hlast.
  assert (Hd : ∀ s1 : App,
            let s2 := match drawn_bbox_ids_on_canvas s1 !! img with
                      | Some ((_ :: _) as ids) =>
                          with_drawn_bbox_ids_on_canvas
                            (<[img := removelast ids]> (drawn_bbox_ids_on_canvas s1)) s1
                      | _ => s1
                      end in
            current_subfolder_active_annotations s2 = current_subfolder_active_annotations s1
            ∧ heap s2 = heap s1 ∧ undo_stack s2 = undo_stack s1
            ∧ annotations_data s2 = annotations_data s1
            ∧ canvas_drawing_state s2 = canvas_drawing_state s1).
  { intros s1. cbn. by destruct (drawn_bbox_ids_on_canvas s1 !! img) as [[|]|]. }
  specialize (Hd (with_undo_stack (removelast (undo_stack s)) s)).
  cbn zeta in Hd. destruct Hd as (D1 & D2 & D3 & D4 & D5).
  generalize dependent
    (match drawn_bbox_ids_on_canvas (with_undo_stack (removelast (undo_stack s)) s) !! img with
     | Some ((_ :: _) as ids) =>
         with_drawn_bbox_ids_on_canvas
           (<[img := removelast ids]>
              (drawn_bbox_ids_on_canvas (with_undo_stack (removelast (undo_stack s)) s)))
           (with_undo_stack (removelast (undo_stack s)) s)
     | _ => with_undo_stack (removelast (undo_stack s)) s
     end).
  intros s1 D1 D2 D3 D4 D5. cbn in D1, D2, D3, D4, D5. cbn zeta.
  destruct (current_subfolder_active_annotations s1 !! img) as [l|] eqn:Hl.
  - rewrite D1 in Hl. destruct (deref (heap s1) l) as [|b bs] eqn:Hbs.
    + cbn. repeat split; try done.
      intros i. unfold boxes. cbn. rewrite D1, D2. case_decide as Hi; [|done].
      subst i. rewrite Hl. rewrite D2 in Hbs. by rewrite Hbs.
    + cbn. repeat split; try done.
      intros i. unfold boxes. cbn. rewrite D1, D2. case_decide as Hi.
      * subst i. rewrite Hl. apply deref_mutate_same.
      * destruct (current_subfolder_active_annotations s !! i) as [l'|] eqn:Hl'; [|done].
        apply deref_mutate_other. intros ->. apply Hi. eapply inv_active_inj; eauto.
  - rewrite D1 in Hl. cbn. repeat split; try done.
    intros i. unfold boxes. cbn. rewrite D1, D2. case_decide as Hi; [|done].
    subst i. by rewrite Hl.
Qed.

Lemma undo_empty s : undo_stack s = [] → _action_undo_last_bbox s = s.
Proof. intros H. unfold _action_undo_last_bbox. by rewrite H. Qed.

End Box_facts.

Module Undo_facts.
Import Draw_boxes_ Engine_facts Box_facts.

Lemma press_effect s canvas x y :
  let s' := _on_canvas_press canvas x y s in
  current_subfolder_active_annotations s' = current_subfolder_active_annotations s ∧
  heap s' = heap s ∧ undo_stack s' = undo_stack s ∧
  annotations_data s' = annotations_data s ∧
  unsaved_changes s' = unsaved_changes s ∧
  canvas_drawing_state s' =
    match canvas_drawing_state s !! canvas with
    | Some state =>
        match image_name state with
        | Some img => if PyStr.truthy img
                      then <[canvas := mkDrawState (Some img) x y (Some (next_item s))]>
                             (canvas_drawing_state s)
                      else canvas_drawing_state s
        | None => canvas_drawing_state s
        end
    | None => canvas_drawing_state s
    end.
Proof.
  intros s'. subst s'. unfold _on_canvas_press.
  destruct (canvas_drawing_state s !! canvas) as [[[img|] sx sy r]|]; try done.
  cbn [image_name]. by destruct (PyStr.truthy img).
Qed.

Lemma release_canvas_state s canvas x y :
  canvas_drawing_state (_on_canvas_release canvas x y s) =
    match canvas_drawing_state s !! canvas with
    | Some state =>
        match active_rect_id state with
        | Some _ => <[canvas := mkDrawState (image_name state) (start_x state)
                                  (start_y state) None]> (canvas_drawing_state s)
        | None => canvas_drawing_state s
        end
    | None => canvas_drawing_state s
    end.
Proof.
  unfold _on_canvas_release.
  destruct (canvas_drawing_state s !! canvas) as [[img sx sy [r|]]|]; try done.
  cbn [active_rect_id image_name start_x start_y].
  destruct (too_small _); [done|]. destruct img as [img|]; [|done].
  unfold setdefault_list. app_simpl.
  by destruct (current_subfolder_active_annotations s !! img).
Qed.

Lemma boxes_ext s s' :
  current_subfolder_active_annotations s' = current_subfolder_active_annotations s →
  heap s' = heap s → ∀ i, boxes s' i = boxes s i.
Proof. intros H1 H2 i. unfold boxes. by rewrite H1, H2. Qed.

Lemma drawn_box_images s s' canvas x1 y1 x2 y2 :
  canvas_images s' = canvas_images s →
  drawn_box s' canvas x1 y1 x2 y2 = drawn_box s canvas x1 y1 x2 y2.
Proof.
  intros H. unfold drawn_box.
  assert (Hc : image_name <$> canvas_drawing_state s' !! canvas
               = image_name <$> canvas_drawing_state s !! canvas).
  { rewrite <- !list_lookup_fmap. unfold canvas_images in H. by rewrite H. }
  destruct (canvas_drawing_state s' !! canvas) as [st'|],
           (canvas_drawing_state s !! canvas) as [st|]; cbn in Hc; try done.
  by injection Hc as ->.
Qed.

(** One gesture: the box of [drawn_box] is appended to its image and
    pushed on the undo stack; otherwise nothing changes. *)
Lemma draw_effect s canvas x1 y1 x2 y2 :
  Inv s → no_pending s →
  let s' := _on_canvas_release canvas x2 y2 (_on_canvas_press canvas x1 y1 s) in
  Inv s' ∧ no_pending s' ∧ canvas_images s' = canvas_images s ∧
  annotations_data s' = annotations_data s ∧
  match drawn_box s canvas x1 y1 x2 y2 with
  | Some (img, b) =>
      (∀ i, boxes s' i = if decide (i = img) then boxes s i ++ [b] else boxes s i) ∧
      undo_stack s' = undo_stack s ++ [(canvas, img)] ∧
      unsaved_changes s' = true
  | None =>
      (∀ i, boxes s' i = boxes s i) ∧ undo_stack s' = undo_stack s ∧
      unsaved_changes s' = unsaved_changes s
  end.
Proof.
  intros HI Hnp s'. subst s'.
  pose proof (Inv_press canvas x1 y1 s HI) as HI1.
  destruct (press_effect s canvas x1 y1) as (P1 & P2 & P3 & P4 & P5 & P6).
  pose proof (release_effect (_on_canvas_press canvas x1 y1 s) canvas x2 y2 HI1) as R.
  pose proof (release_canvas_state (_on_canvas_press canvas x1 y1 s) canvas x2 y2) as RC.
  pose proof (Inv_release canvas x2 y2 _ HI1) as HI2.
  pose proof (boxes_ext s _ P1 P2) as PB.
  generalize dependent (_on_canvas_press canvas x1 y1 s). intros s1 HI1 P1 P2 P3 P4 P5 P6.
  generalize (_on_canvas_release canvas x2 y2 s1). intros s2 R RC HI2 PB.
  cbn zeta in R. destruct R as [R0 R].
  split; [done|]. unfold drawn_box.
  assert (Hsame : canvas_drawing_state s2 = canvas_drawing_state s →
                  no_pending s2 ∧ canvas_images s2 = canvas_images s).
  { intros Hq. unfold no_pending, canvas_images. by rewrite Hq. }
  destruct (canvas_drawing_state s !! canvas) as [[img sx sy r]|] eqn:Hc.
  2:{ rewrite P6 in R, RC. rewrite Hc in R, RC. destruct R as (R1 & R2 & R3).
      cbn in RC. destruct (Hsame RC) as [? ?].
      split; [done|]. split; [done|]. split; [congruence|].
      split; [|split]; [|congruence..]. intros i. by rewrite R1. }
  assert (r = None) as -> by (by apply (Hnp _ _ Hc)).
  cbn [image_name] in *.
  destruct img as [img|].
  2:{ rewrite P6 in R, RC. rewrite Hc in R, RC. destruct R as (R1 & R2 & R3).
      cbn in RC. destruct (Hsame RC) as [? ?].
      split; [done|]. split; [done|]. split; [congruence|].
      split; [|split]; [|congruence..]. intros i. by rewrite R1. }
  destruct (PyStr.truthy img) eqn:Htr; cbn [andb].
  2:{ rewrite P6 in R, RC. rewrite Hc in R, RC. destruct R as (R1 & R2 & R3).
      cbn in RC. destruct (Hsame RC) as [? ?].
      split; [done|]. split; [done|]. split; [congruence|].
      split; [|split]; [|congruence..]. intros i. by rewrite R1. }
  assert (Hlen : (canvas < length (canvas_drawing_state s))%nat)
    by (eapply lookup_lt_Some; eauto).
  assert (Hc1 : canvas_drawing_state s1 !! canvas
                = Some (mkDrawState (Some img) x1 y1 (Some (next_item s)))).
  { rewrite P6. by apply list_lookup_insert_eq. }
  rewrite Hc1 in R, RC. cbn [active_rect_id image_name start_x start_y] in RC.
  assert (Hcs : canvas_drawing_state s2
                = <[canvas := mkDrawState (Some img) x1 y1 None]> (canvas_drawing_state s)).
  { rewrite RC, P6. by rewrite list_insert_insert_eq. }
  split; [|split; [|split]].
  - intros c' st'. rewrite Hcs. intros Hst'.
    destruct (decide (c' = canvas)) as [->|Hne].
    + rewrite list_lookup_insert_eq in Hst' by done. by injection Hst' as <-.
    + rewrite list_lookup_insert_ne in Hst' by done. by eapply Hnp.
  - unfold canvas_images. rewrite Hcs. rewrite list_fmap_insert. cbn.
    apply list_insert_id. rewrite list_lookup_fmap, Hc. done.
  - congruence.
  - destruct (too_small (release_bbox x1 y1 x2 y2)); cbn [negb].
    + destruct R as (R1 & R2 & R3). split; [|split]; [|congruence..].
      intros i. by rewrite R1.
    + destruct R as (R1 & R2 & R3). split; [|split]; [|congruence..].
      intros i. rewrite R1. case_decide; by rewrite PB.
Qed.

Lemma boxes_for_snoc img adds a :
  boxes_for img (adds ++ [a])
  = boxes_for img adds ++ (if decide (a.1.2 = img) then [a.2] else []).
Proof. unfold boxes_for. rewrite omap_app. cbn. by case_decide. Qed.

Lemma Drawn_refl s : Inv s → Drawn s s [].
Proof.
  intros HI. constructor; [done|cbn; by rewrite app_nil_r|].
  intros img. cbn. by rewrite app_nil_r.
Qed.

Section WithEnv.
Context (E : Env).

Lemma Drawn_gesture s0 s adds (g : Gesture) :
  Drawn s0 s adds → no_pending s → canvas_images s = canvas_images s0 →
  let s' := run E s (gesture_actions g) in
  Drawn s0 s' (adds ++ option_list (added s0 g))
  ∧ no_pending s' ∧ canvas_images s' = canvas_images s0.
Proof.
  intros [D1 D2 D3] Hnp Himg s'. subst s'.
  destruct g as [[canvas [x1 y1]] [x2 y2]].
  change (run E s (gesture_actions (canvas, (x1, y1), (x2, y2))))
    with (_on_canvas_release canvas x2 y2 (_on_canvas_press canvas x1 y1 s)).
  destruct (draw_effect s canvas x1 y1 x2 y2 D1 Hnp) as (G1 & G2 & G3 & G4 & G5).
  generalize dependent (_on_canvas_release canvas x2 y2 (_on_canvas_press canvas x1 y1 s)).
  intros s' G1 G2 G3 G4 G5.
  split; [|split; [done|congruence]].
  unfold added. rewrite <- (drawn_box_images s0 s) by done.
  destruct (drawn_box s canvas x1 y1 x2 y2) as [[img b]|]; cbn in *.
  - destruct G5 as (B1 & B2 & B3). constructor; [done| |].
    + rewrite B2, D2, fmap_app, app_assoc. done.
    + intros i. rewrite B1, boxes_for_snoc, D3. cbn.
      destruct (decide (i = img)) as [->|Hne].
      * rewrite decide_True by done. by rewrite app_assoc.
      * rewrite decide_False by done. by rewrite app_nil_r.
  - destruct G5 as (B1 & B2 & B3). rewrite app_nil_r. constructor; [done|congruence|].
    intros i. by rewrite B1.
Qed.

Lemma Drawn_gestures s0 (gs : list Gesture) : ∀ s adds,
  Drawn s0 s adds → no_pending s → canvas_images s = canvas_images s0 →
  Drawn s0 (run E s (concat (gesture_actions <$> gs))) (adds ++ omap (added s0) gs).
Proof.
  induction gs as [|g gs IH]; intros s adds HD Hnp Himg.
  - cbn. by rewrite app_nil_r.
  - cbn [fmap list_fmap concat]. unfold run. rewrite foldl_app.
    destruct (Drawn_gesture s0 s adds g HD Hnp Himg) as (HD' & Hnp' & Himg').
    fold (run E s (gesture_actions g)).
    unfold run in IH. specialize (IH _ _ HD' Hnp' Himg').
    cbn [omap list_omap]. destruct (added s0 g) as [a|]; cbn in IH.
    + by rewrite <- app_assoc in IH.
    + by rewrite app_nil_r in IH.
Qed.

End WithEnv.

Lemma Drawn_undo s0 s adds a :
  Drawn s0 s (adds ++ [a]) → Drawn s0 (_action_undo_last_bbox s) adds.
Proof.
  intros [D1 D2 D3].
  assert (Hlast : last (undo_stack s) = Some (a.1.1, a.1.2)).
  { rewrite D2, fmap_app, app_assoc. cbn. by rewrite last_snoc. }
  destruct (undo_effect s _ _ D1 Hlast) as (U1 & U2 & _).
  constructor.
  - by apply Inv_undo.
  - rewrite U2, D2, fmap_app, app_assoc. cbn. by rewrite removelast_last.
  - intros i. rewrite U1, D3, boxes_for_snoc.
    destruct (decide (i = a.1.2)) as [->|Hne].
    + rewrite decide_True by done. by rewrite app_assoc, removelast_last.
    + rewrite decide_False by done. by rewrite app_nil_r.
Qed.

Lemma Drawn_undo_iter s0 s adds k :
  Drawn s0 s adds → (k ≤ length adds)%nat →
  Drawn s0 (Nat.iter k _action_undo_last_bbox s) (take (length adds - k) adds).
Proof.
  intros HD. induction k as [|k IH]; intros Hk.
  - cbn. rewrite Nat.sub_0_r, firstn_all. done.
  - cbn [Nat.iter nat_rect]. specialize (IH ltac:(lia)).
    destruct (lookup_lt_is_Some_2 adds (length adds - S k) ltac:(lia)) as [a Ha].
    apply Drawn_undo with a.
    replace (length adds - k)%nat with (S (length adds - S k)) in IH by lia.
    by rewrite (take_S_r _ _ _ Ha) in IH.
Qed.

(** C4.  The boxes drawn by a sequence of press/release pairs, on any of
    the four canvases, are recorded in drawing order on one undo stack;
    [k] undos remove exactly the [k] boxes drawn last, whichever image
    they were drawn on, so that as many undos as boxes drawn give back
    the box lists the group had before; an undo on an empty stack leaves
    the session as it is. *)
Theorem C4_undo_removes_boxes_in_reverse_order
    (E : Env) (s : App) (gs : list Gesture) :
  Inv s → no_pending s →
  let s' := run E s (concat (gesture_actions <$> gs)) in
  let adds := omap (added s) gs in
  undo_stack s' = undo_stack s ++ (undo_entry <$> adds) ∧
  (∀ k, (k ≤ length adds)%nat →
     let u := Nat.iter k _action_undo_last_bbox s' in
     undo_stack u = undo_stack s ++ (undo_entry <$> take (length adds - k) adds) ∧
     ∀ img, boxes u img = boxes s img ++ boxes_for img (take (length adds - k) adds)) ∧
  (∀ img, boxes (Nat.iter (length adds) _action_undo_last_bbox s') img = boxes s img) ∧
  (undo_stack s = [] → _action_undo_last_bbox s = s).
Proof.
  intros HI Hnp s' adds.
  pose proof (Drawn_gestures E s gs s [] (Drawn_refl s HI) Hnp eq_refl) as HD.
  cbn [app] in HD. fold s' adds in HD.
  split; [apply HD|]. split; [|split].
  - intros k Hk u. destruct (Drawn_undo_iter s s' adds k HD Hk) as [_ U2 U3]. done.
  - intros img. destruct (Drawn_undo_iter s s' adds (length adds) HD (le_n _)) as [_ _ U3].
    rewrite U3, Nat.sub_diag. cbn. by rewrite app_nil_r.
  - apply undo_empty.
Qed.

End Undo_facts.

(** ** The coordinate mapper *)

Module Mapper_facts.

Lemma clamp_bounds dim v : (1 ≤ dim → 0 ≤ Draw_boxes.clamp dim v ≤ dim - 1)%Z.
Proof. unfold Draw_boxes.clamp. lia. Qed.

Lemma clamp_mono dim a b : (a ≤ b → Draw_boxes.clamp dim a ≤ Draw_boxes.clamp dim b)%Z.
Proof. unfold Draw_boxes.clamp. lia. Qed.

Lemma abs_min_max a b : Z.abs (Z.min a b - Z.max a b) = Z.abs (a - b).
Proof. lia. Qed.

Lemma clamp_id dim v : (0 ≤ v ≤ dim - 1 → Draw_boxes.clamp dim v = v)%Z.
Proof. unfold Draw_boxes.clamp. lia. Qed.

(** The box of the older variant, in closed form. *)
Lemma release_bbox_closed_form (sx sy ex ey : Z) :
  let W := IMAGE_DISPLAY_SIZE.1 in
  let H := IMAGE_DISPLAY_SIZE.2 in
  let x1 := Draw_boxes.clamp W (Z.min sx ex) in
  let y1 := Draw_boxes.clamp H (Z.min sy ey) in
  let x2 := Draw_boxes.clamp W (Z.max sx ex) in
  let y2 := Draw_boxes.clamp H (Z.max sy ey) in
  Draw_boxes.release_bbox sx sy ex ey
  = (if bool_decide ((Z.abs (sx - ex) < 5 ∨ Z.abs (sy - ey) < 5)
                     ∨ (x2 - x1 < 5 ∨ y2 - y1 < 5))%Z
     then None else Some [x1; y1; x2; y2])
  ∧ (0 ≤ x1 ≤ x2 ∧ x2 ≤ W - 1)%Z ∧ (0 ≤ y1 ≤ y2 ∧ y2 ≤ H - 1)%Z.
Proof.
  intros W H x1 y1 x2 y2. subst W H. cbn [IMAGE_DISPLAY_SIZE fst snd] in *.
  assert (Hx : (x1 ≤ x2)%Z) by (apply clamp_mono; lia).
  assert (Hy : (y1 ≤ y2)%Z) by (apply clamp_mono; lia).
  pose proof (clamp_bounds 500 (Z.min sx ex) ltac:(lia)) as Bx1.
  pose proof (clamp_bounds 500 (Z.max sx ex) ltac:(lia)) as Bx2.
  pose proof (clamp_bounds 500 (Z.min sy ey) ltac:(lia)) as By1.
  pose proof (clamp_bounds 500 (Z.max sy ey) ltac:(lia)) as By2.
  fold x1 in Bx1. fold x2 in Bx2. fold y1 in By1. fold y2 in By2.
  split; [|lia].
  unfold Draw_boxes.release_bbox. cbn [IMAGE_DISPLAY_SIZE]. fold x1 y1 x2 y2.
  rewrite !abs_min_max.
  replace (Z.abs (x1 - x2)) with (x2 - x1)%Z by lia.
  replace (Z.abs (y1 - y2)) with (y2 - y1)%Z by lia.
  clearbody x1 y1 x2 y2.
  generalize (Z.abs (sx - ex)) (Z.abs (sy - ey)). intros dx dy.
  destruct (dx <? 5)%Z eqn:A1; destruct (dy <? 5)%Z eqn:A2; cbn [orb];
    try (rewrite bool_decide_eq_true_2; [reflexivity|];
         first [apply Z.ltb_lt in A1 | apply Z.ltb_lt in A2]; lia).
  apply Z.ltb_ge in A1, A2.
  destruct (x2 - x1 <? 5)%Z eqn:B1; destruct (y2 - y1 <? 5)%Z eqn:B2; cbn [orb];
    try (rewrite bool_decide_eq_true_2; [reflexivity|];
         first [apply Z.ltb_lt in B1 | apply Z.ltb_lt in B2]; lia).
  apply Z.ltb_ge in B1, B2.
  rewrite bool_decide_eq_false_2; [reflexivity|]. lia.
Qed.

(** Clamping can shrink a box below the minimum: the second check
    rejects it. *)
Example release_bbox_shrunk_by_clamping :
  Draw_boxes.release_bbox 497 10 510 100 = None
  ∧ Draw_boxes.release_bbox 490 10 520 100 = Some [490; 10; 499; 100]%Z.
Proof. split; reflexivity. Qed.

(** Every box the older variant produces is in canonical form. *)
Lemma release_bbox_canonical sx sy ex ey b :
  Draw_boxes.release_bbox sx sy ex ey = Some b →
  ∃ x1 y1 x2 y2, b = [x1; y1; x2; y2]
                 ∧ (x1 ≤ x2 ∧ y1 ≤ y2 ∧ 5 ≤ x2 - x1 ∧ 5 ≤ y2 - y1)%Z
                 ∧ (5 ≤ Z.abs (sx - ex) ∧ 5 ≤ Z.abs (sy - ey))%Z.
Proof.
  destruct (release_bbox_closed_form sx sy ex ey) as (Heq & Bx & By).
  cbn zeta in Heq, Bx, By. rewrite Heq.
  set (x1 := Draw_boxes.clamp _ (Z.min sx ex)) in *.
  set (x2 := Draw_boxes.clamp _ (Z.max sx ex)) in *.
  set (y1 := Draw_boxes.clamp _ (Z.min sy ey)) in *.
  set (y2 := Draw_boxes.clamp _ (Z.max sy ey)) in *.
  clearbody x1 x2 y1 y2.
  case_bool_decide as Hd; [done|].
  intros [= <-]. exists x1, y1, x2, y2. split; [reflexivity|]. lia.
Qed.

(** The newer variant neither clamps nor checks twice; for positions on
    the surface it produces the same box or the same rejection. *)
Lemma release_bbox_variants_agree_on_surface (sx sy ex ey : Z) :
  (0 ≤ sx ≤ 499 ∧ 0 ≤ sy ≤ 499 ∧ 0 ≤ ex ≤ 499 ∧ 0 ≤ ey ≤ 499)%Z →
  (if Draw_boxes_.too_small (Draw_boxes_.release_bbox sx sy ex ey) then None
   else Some (Draw_boxes_.release_bbox sx sy ex ey))
  = Draw_boxes.release_bbox sx sy ex ey.
Proof.
  intros Hs.
  destruct (release_bbox_closed_form sx sy ex ey) as [Heq _].
  cbn zeta in Heq. rewrite Heq. cbn [IMAGE_DISPLAY_SIZE fst snd].
  rewrite !clamp_id by lia.
  unfold Draw_boxes_.too_small, Draw_boxes_.release_bbox. cbn [nth].
  replace (Z.abs (sx - ex)) with (Z.max sx ex - Z.min sx ex)%Z by lia.
  replace (Z.abs (sy - ey)) with (Z.max sy ey - Z.min sy ey)%Z by lia.
  generalize (Z.max sx ex) (Z.min sx ex) (Z.max sy ey) (Z.min sy ey).
  intros Mx mx My my.
  destruct (Mx - mx <? 5)%Z eqn:A1; destruct (My - my <? 5)%Z eqn:A2; cbn [orb];
    try (rewrite bool_decide_eq_true_2; [reflexivity|];
         first [apply Z.ltb_lt in A1 | apply Z.ltb_lt in A2]; lia).
  apply Z.ltb_ge in A1, A2. rewrite bool_decide_eq_false_2; [reflexivity|]. lia.
Qed.

(** Off the surface the newer variant keeps the raw coordinates. *)
Example release_bbox_newer_variant_unclamped :
  Draw_boxes_.too_small (Draw_boxes_.release_bbox 490 10 520 100) = false
  ∧ Draw_boxes_.release_bbox 490 10 520 100 = [490; 10; 520; 100]%Z.
Proof. split; reflexivity. Qed.


(** The closed form with the clamping written out. *)
Lemma release_bbox_explicit (sx sy ex ey : Z) :
  let x1 := Z.max 0 (Z.min (Z.min sx ex) 499) in
  let y1 := Z.max 0 (Z.min (Z.min sy ey) 499) in
  let x2 := Z.max 0 (Z.min (Z.max sx ex) 499) in
  let y2 := Z.max 0 (Z.min (Z.max sy ey) 499) in
  Draw_boxes.release_bbox sx sy ex ey
  = (if bool_decide ((Z.abs (sx - ex) < 5 ∨ Z.abs (sy - ey) < 5)
                     ∨ (x2 - x1 < 5 ∨ y2 - y1 < 5))%Z
     then None else Some [x1; y1; x2; y2])
  ∧ (0 ≤ x1 ≤ x2 ∧ x2 ≤ 499)%Z ∧ (0 ≤ y1 ≤ y2 ∧ y2 ≤ 499)%Z.
Proof.
  pose proof (release_bbox_closed_form sx sy ex ey) as H.
  cbn zeta in H. cbn [IMAGE_DISPLAY_SIZE fst snd] in H.
  unfold Draw_boxes.clamp in H. change (500 - 1)%Z with 499%Z in H. exact H.
Qed.

Lemma release_bbox_newer_on_surface (sx sy ex ey : Z) :
  (0 ≤ sx ≤ 499 ∧ 0 ≤ sy ≤ 499 ∧ 0 ≤ ex ≤ 499 ∧ 0 ≤ ey ≤ 499)%Z →
  (if Draw_boxes_.too_small (Draw_boxes_.release_bbox sx sy ex ey) then None
   else Some (Draw_boxes_.release_bbox sx sy ex ey))
  = (if bool_decide (Z.abs (sx - ex) < 5 ∨ Z.abs (sy - ey) < 5)%Z then None
     else Some [Z.min sx ex; Z.min sy ey; Z.max sx ex; Z.max sy ey])
  ∧ Z.max 0 (Z.min (Z.min sx ex) 499) = Z.min sx ex
  ∧ Z.max 0 (Z.min (Z.min sy ey) 499) = Z.min sy ey
  ∧ Z.max 0 (Z.min (Z.max sx ex) 499) = Z.max sx ex
  ∧ Z.max 0 (Z.min (Z.max sy ey) 499) = Z.max sy ey.
Proof.
  intros Hs. split; [|lia].
  unfold Draw_boxes_.too_small, Draw_boxes_.release_bbox. cbn [nth].
  destruct (Z.max sx ex - Z.min sx ex <? 5)%Z eqn:A1;
    destruct (Z.max sy ey - Z.min sy ey <? 5)%Z eqn:A2; cbn [orb];
    try (rewrite bool_decide_eq_true_2; [reflexivity|];
         first [apply Z.ltb_lt in A1 | apply Z.ltb_lt in A2]; lia).
  apply Z.ltb_ge in A1, A2. rewrite bool_decide_eq_false_2; [reflexivity|]. lia.
Qed.

(** C3.  In [draw_boxes.py], for every press position [(sx, sy)] and
    release position [(ex, ey)], the box is
    [[min x, min y, max x, max y]] with every coordinate clamped into
    [[0, 499]] of the 500 by 500 surface, and no box is produced exactly
    when an extent is below 5, between the raw positions or between the
    clamped coordinates.  In [draw_boxes_.py] the handler gives the same
    box and the same rejections for positions on the surface (where the
    clamping changes nothing), but it neither clamps nor checks a second
    time: a press at (497, 10) and a release at (510, 100), which
    [draw_boxes.py] rejects, is stored as [[497, 10, 510, 100]]. *)
Theorem C3_release_box_clamped_and_checked_twice_in_older_only :
  (∀ sx sy ex ey : Z,
     let x1 := Z.max 0 (Z.min (Z.min sx ex) 499) in
     let y1 := Z.max 0 (Z.min (Z.min sy ey) 499) in
     let x2 := Z.max 0 (Z.min (Z.max sx ex) 499) in
     let y2 := Z.max 0 (Z.min (Z.max sy ey) 499) in
     Draw_boxes.release_bbox sx sy ex ey
     = (if bool_decide ((Z.abs (sx - ex) < 5 ∨ Z.abs (sy - ey) < 5)
                        ∨ (x2 - x1 < 5 ∨ y2 - y1 < 5))%Z
        then None else Some [x1; y1; x2; y2])
     ∧ (0 ≤ x1 ≤ x2 ∧ x2 ≤ 499)%Z ∧ (0 ≤ y1 ≤ y2 ∧ y2 ≤ 499)%Z) ∧
  (∀ sx sy ex ey : Z,
     (0 ≤ sx ≤ 499 ∧ 0 ≤ sy ≤ 499 ∧ 0 ≤ ex ≤ 499 ∧ 0 ≤ ey ≤ 499)%Z →
     (if Draw_boxes_.too_small (Draw_boxes_.release_bbox sx sy ex ey) then None
      else Some (Draw_boxes_.release_bbox sx sy ex ey))
     = (if bool_decide (Z.abs (sx - ex) < 5 ∨ Z.abs (sy - ey) < 5)%Z then None
        else Some [Z.min sx ex; Z.min sy ey; Z.max sx ex; Z.max sy ey])
     ∧ Z.max 0 (Z.min (Z.min sx ex) 499) = Z.min sx ex
     ∧ Z.max 0 (Z.min (Z.min sy ey) 499) = Z.min sy ey
     ∧ Z.max 0 (Z.min (Z.max sx ex) 499) = Z.max sx ex
     ∧ Z.max 0 (Z.min (Z.max sy ey) 499) = Z.max sy ey) ∧
  (let older :=
     Draw_boxes._on_canvas_release 0 510 100
       (Draw_boxes._on_canvas_press 0 497 10
          (Draw_boxes._load_subfolder_by_index Examples.older_env 0 Examples.older_start)) in
   let newer :=
     Draw_boxes_._on_canvas_release 0 510 100
       (Draw_boxes_._on_canvas_press 0 497 10
          (Draw_boxes_.__init__ Examples.env_abc ∅)) in
   Draw_boxes.current_subfolder_name older = "A" ∧
   Draw_boxes_.current_subfolder_name newer = "A" ∧
   Draw_boxes.release_bbox 497 10 510 100 = None ∧
   Draw_boxes.boxes older "A1.PNG" = [] ∧
   Draw_boxes_.boxes newer "A1.PNG" = [[497; 10; 510; 100]%Z]).
Proof.
  split; [exact release_bbox_explicit|].
  split; [exact release_bbox_newer_on_surface|].
  vm_compute. repeat split.
Qed.

Lemma C3_witness :
  (0 ≤ 100 ≤ 499 ∧ 0 ≤ 400 ≤ 499 ∧ 0 ≤ 10 ≤ 499 ∧ 0 ≤ 20 ≤ 499)%Z ∧
  Draw_boxes.release_bbox 100 400 10 20 = Some [10; 20; 100; 400]%Z ∧
  (if Draw_boxes_.too_small (Draw_boxes_.release_bbox 100 400 10 20) then None
   else Some (Draw_boxes_.release_bbox 100 400 10 20))
  = Some [10; 20; 100; 400]%Z.
Proof.
  assert (Hr : (0 ≤ 100 ≤ 499 ∧ 0 ≤ 400 ≤ 499 ∧ 0 ≤ 10 ≤ 499 ∧ 0 ≤ 20 ≤ 499)%Z) by lia.
  split; [exact Hr|].
  destruct C3_release_box_clamped_and_checked_twice_in_older_only as (H1 & H2 & _).
  split.
  - exact (proj1 (H1 100 400 10 20)%Z).
  - exact (proj1 (H2 100 400 10 20 Hr)%Z).
Defined.

End Mapper_facts.

(** ** Adding a box *)

Module AddBox_facts.
Import Draw_boxes_ Engine_facts Box_facts Mapper_facts.


(** The same in the older variant, for the image of the canvas. *)
Lemma older_release_appends (s : Draw_boxes.App) (canvas : nat) (x y : Z)
    (state : DrawState) (img : string) (r : nat) :
  Draw_boxes.canvas_drawing_state s !! canvas = Some state →
  image_name state = Some img →
  active_rect_id state = Some r →
  let s' := Draw_boxes._on_canvas_release canvas x y s in
  match Draw_boxes.release_bbox (start_x state) (start_y state) x y with
  | None => Draw_boxes.boxes s' img = Draw_boxes.boxes s img
  | Some b => Draw_boxes.boxes s' img = Draw_boxes.boxes s img ++ [b]
  end.
Proof.
  intros Hc Himg Hr s'. subst s'. unfold Draw_boxes._on_canvas_release.
  rewrite Hc, Himg, Hr.
  destruct (Draw_boxes.release_bbox (start_x state) (start_y state) x y) as [b|]; [|done].
  unfold Draw_boxes.boxes.
  cbn [Draw_boxes.current_subfolder_active_annotations Draw_boxes.heap
       Draw_boxes.with_next_item Draw_boxes.with_canvas_drawing_state].
  destruct (Draw_boxes.current_subfolder_active_annotations s !! img) as [l|] eqn:Hl.
  - cbn. rewrite Hl. apply deref_mutate_same.
  - cbn. rewrite lookup_insert_eq, deref_mutate_same. unfold deref. cbn.
    by rewrite lookup_insert_eq.
Qed.

End AddBox_facts.

(** ** Navigation *)

Module Navigation_facts.
Import Draw_boxes_ Engine_facts Save_facts Box_facts Undo_facts Examples.

Section WithEnv.
Context (E : Env).

(** C9 (as amended).  [previous] on the first group changes nothing but
    the dialog log: the index, the box lists, the undo history and the
    dirty flag stay as they are.  The boundary dialog is shown when there
    are no unsaved changes or the user agrees to discard them; when the
    user declines, only the confirmation question was asked. *)
Theorem C9_previous_at_first_group_keeps_state (yes : bool) (s : App) :
  current_subfolder_index s = 0%Z →
  let s' := _action_previous_subfolder E yes s in
  let boundary :=
    ShowInfo "Info" "You have reached the beginning or end of the subfolders." in
  let question :=
    AskYesNo "Unsaved Changes" "Go to previous without saving?" yes in
  s' = with_dialogs (dialogs s') s ∧
  current_subfolder_index s' = current_subfolder_index s ∧
  (∀ img, boxes s' img = boxes s img) ∧
  undo_stack s' = undo_stack s ∧
  unsaved_changes s' = unsaved_changes s ∧
  dialogs s' = dialogs s ++
               (if unsaved_changes s
                then question :: (if yes then [boundary] else [])
                else [boundary]).
Proof.
  intros Hidx s' boundary question. subst s' boundary question.
  unfold _action_previous_subfolder.
  assert (Hout : ∀ s1 : App, subfolders s1 = subfolders s →
             current_subfolder_index s1 = 0%Z →
             _load_subfolder_by_index E (current_subfolder_index s1 - 1) s1
             = showinfo "Info" "You have reached the beginning or end of the subfolders." s1).
  { intros s1 _ H0. apply load_out_of_range. unfold valid_index. lia. }
  destruct (unsaved_changes s) eqn:Hu.
  - destruct yes; cbn [negb].
    + rewrite Hout by done. unfold showinfo, askyesno, boxes. cbn.
      rewrite <- app_assoc. cbn. by rewrite Hu.
    + unfold askyesno, boxes. cbn. by rewrite Hu.
  - rewrite Hout by done. unfold showinfo, boxes. cbn. by rewrite Hu.
Qed.

End WithEnv.

(** The same in the older variant, whose boundary dialog names the
    start. *)
Lemma older_previous_at_first_group (E : Draw_boxes.Env) (yes : bool)
    (s : Draw_boxes.App) :
  Draw_boxes.current_subfolder_index s = 0%Z →
  let s' := Draw_boxes._action_previous_subfolder E yes s in
  s' = Draw_boxes.with_dialogs (Draw_boxes.dialogs s') s ∧
  Draw_boxes.dialogs s' =
    Draw_boxes.dialogs s ++
    (if Draw_boxes.unsaved_changes s
     then AskYesNo "Unsaved Changes"
            "You have unsaved changes. Do you want to proceed to the previous subfolder without saving?"
            yes
          :: (if yes then [ShowInfo "Info" "You are at the first subfolder."] else [])
     else [ShowInfo "Info" "You are at the first subfolder."]).
Proof.
  intros Hidx s'. subst s'. unfold Draw_boxes._action_previous_subfolder.
  destruct s as [sf idx nm ad names dr act cds [] h ni dl]; cbn in *; subst idx.
  - destruct yes; cbn;
      unfold Draw_boxes.showinfo, Draw_boxes.askyesno, Draw_boxes.with_dialogs; cbn;
      rewrite <- ?app_assoc; done.
  - cbn. unfold Draw_boxes.showinfo, Draw_boxes.with_dialogs; cbn. done.
Qed.

(** C9, the claim as stated fails: with unsaved changes on the first
    group and the confirmation declined, no boundary dialog is shown. *)
Lemma C9_counterexample :
  current_subfolder_index (dirty_A env_abc) = 0%Z ∧
  unsaved_changes (dirty_A env_abc) = true ∧
  dialogs (_action_previous_subfolder env_abc false (dirty_A env_abc))
  = [AskYesNo "Unsaved Changes" "Go to previous without saving?" false] ∧
  ¬ ∃ title message,
      ShowInfo title message
      ∈ dialogs (_action_previous_subfolder env_abc false (dirty_A env_abc)).
Proof.
  assert (Hd : dialogs (_action_previous_subfolder env_abc false (dirty_A env_abc))
               = [AskYesNo "Unsaved Changes" "Go to previous without saving?" false])
    by (vm_compute; reflexivity).
  split; [vm_compute; reflexivity|]. split; [vm_compute; reflexivity|].
  split; [exact Hd|]. rewrite Hd. intros (t & m & Hin).
  apply list_elem_of_singleton in Hin. discriminate.
Qed.

Lemma C9_witness :
  current_subfolder_index (dirty_A env_abc) = 0%Z ∧
  let s := dirty_A env_abc in
  let s' := _action_previous_subfolder env_abc true s in
  let boundary :=
    ShowInfo "Info" "You have reached the beginning or end of the subfolders." in
  let question :=
    AskYesNo "Unsaved Changes" "Go to previous without saving?" true in
  s' = with_dialogs (dialogs s') s ∧
  current_subfolder_index s' = current_subfolder_index s ∧
  (∀ img, boxes s' img = boxes s img) ∧
  undo_stack s' = undo_stack s ∧
  unsaved_changes s' = unsaved_changes s ∧
  dialogs s' = dialogs s ++
               (if unsaved_changes s
                then question :: (if true then [boundary] else [])
                else [boundary]).
Proof.
  split; [reflexivity|].
  apply (C9_previous_at_first_group_keeps_state env_abc true (dirty_A env_abc)).
  reflexivity.
Defined.

End Navigation_facts.

(** ** Save and reload *)

Module Reload_facts.
Import Draw_boxes_ Engine_facts Save_facts Box_facts Undo_facts Examples.

Section WithEnv.
Context (E : Env).

Lemma saved_state_fields s :
  subfolders (saved_state E s) = subfolders s ∧
  current_subfolder_index (saved_state E s) = current_subfolder_index s ∧
  current_subfolder_name (saved_state E s) = current_subfolder_name s ∧
  annotations_data (saved_state E s)
  = <[current_subfolder_name s :=
        mkSubfolderData (Some (annotation_type_var s))
                        (current_subfolder_active_annotations s)]> (annotations_data s) ∧
  annotation_type_var (saved_state E s) = annotation_type_var s ∧
  combo_values (saved_state E s) = combo_values s ∧
  current_subfolder_active_annotations (saved_state E s)
  = current_subfolder_active_annotations s ∧
  undo_stack (saved_state E s) = undo_stack s ∧
  heap (saved_state E s) = heap s.
Proof.
  unfold saved_state, _write_json_file.
  (destruct (can_write E ANNOTATIONS_FILE);
     [|destruct (write_failure E ANNOTATIONS_FILE).2]);
    (destruct (can_write E PROGRESS_FILE);
       [|destruct (write_failure E PROGRESS_FILE).2]);
    cbn; repeat split.
Qed.

Lemma Inv_saved_state s : Inv s → Inv (saved_state E s).
Proof.
  intros [H1 H2 H3 H4].
  destruct (saved_state_fields s) as (F1 & F2 & F3 & F4 & F5 & F6 & F7 & F8 & F9).
  constructor; rewrite ?F1, ?F2, ?F3, ?F4, ?F7, ?F9; try done.
  intros g r img l [[<- <-]|[? Hg]]%lookup_insert_Some Hr; cbn in *; eauto.
Qed.

Lemma boxes_saved_state s img : boxes (saved_state E s) img = boxes s img.
Proof.
  destruct (saved_state_fields s) as (_ & _ & _ & _ & _ & _ & F7 & _ & F9).
  unfold boxes. by rewrite F7, F9.
Qed.

(** What the store holds for the active group right after the write. *)
Lemma saved_boxes_saved_state s img :
  saved_boxes (saved_state E s) (current_subfolder_name s) img = boxes s img.
Proof.
  destruct (saved_state_fields s) as (_ & _ & _ & F4 & _ & _ & _ & _ & F9).
  unfold saved_boxes, boxes. rewrite F4, F9, lookup_insert_eq. done.
Qed.

Lemma current_index_valid s :
  Inv s → PyStr.truthy (current_subfolder_name s) = true →
  valid_index s (current_subfolder_index s).
Proof.
  intros HI Hn. destruct (inv_current s HI Hn) as [H0 Hl].
  apply lookup_lt_Some in Hl. unfold valid_index. lia.
Qed.

Lemma save_and_next_eq s :
  PyStr.truthy (current_subfolder_name s) = true →
  _action_save_and_next E s
  = _load_subfolder_by_index E (current_subfolder_index s + 1) (saved_state E s).
Proof.
  intros Hn. unfold _action_save_and_next. rewrite save_eq by done.
  destruct (saved_state_fields s) as (_ & F2 & _). by rewrite F2.
Qed.

Lemma plain_save_eq s :
  PyStr.truthy (current_subfolder_name s) = true →
  (_action_save_annotations E false s).2
  = _load_subfolder_by_index E (current_subfolder_index s) (saved_state E s).
Proof.
  intros Hn. rewrite save_eq by done. cbn [snd].
  destruct (saved_state_fields s) as (_ & F2 & _). by rewrite F2.
Qed.

Lemma valid_index_saved_state s idx : valid_index (saved_state E s) idx ↔ valid_index s idx.
Proof.
  destruct (saved_state_fields s) as (F1 & _). unfold valid_index. by rewrite F1.
Qed.

(** After a plain save the undo stack is empty. *)
Lemma plain_save_undo_stack s :
  Inv s → PyStr.truthy (current_subfolder_name s) = true →
  undo_stack (_action_save_annotations E false s).2 = [].
Proof.
  intros HI Hn. rewrite plain_save_eq by done.
  apply load_frame. apply valid_index_saved_state. by apply current_index_valid.
Qed.

(** C10 (as amended).  A successful save that is followed by a group
    load leaves the undo stack empty, so that an undo afterwards does
    nothing: this is the case of [save] alone, and of [saveAndAdvance]
    when there is a next group.  On the last group [saveAndAdvance] saves,
    shows the boundary dialog and loads nothing: the undo stack and the
    box lists stay as they were. *)
Theorem C10_undo_stack_after_save (s : App) :
  Inv s →
  PyStr.truthy (current_subfolder_name s) = true →
  let s1 := (_action_save_annotations E false s).2 in
  let s2 := _action_save_and_next E s in
  (undo_stack s1 = [] ∧ _action_undo_last_bbox s1 = s1) ∧
  (valid_index s (current_subfolder_index s + 1) →
     undo_stack s2 = [] ∧ _action_undo_last_bbox s2 = s2) ∧
  (¬ valid_index s (current_subfolder_index s + 1) →
     undo_stack s2 = undo_stack s ∧
     current_subfolder_index s2 = current_subfolder_index s ∧
     ∀ img, boxes s2 img = boxes s img).
Proof.
  intros HI Hn s1 s2. subst s1 s2.
  split; [|split].
  - pose proof (plain_save_undo_stack s HI Hn) as Hu. split; [done|]. by apply undo_empty.
  - intros Hv. rewrite save_and_next_eq by done.
    apply valid_index_saved_state in Hv.
    destruct (load_frame E _ _ Hv) as (_ & _ & _ & _ & _ & _ & _ & _ & _ & _ & Hu & _).
    split; [done|]. by apply undo_empty.
  - intros Hv. rewrite save_and_next_eq by done.
    rewrite load_out_of_range by (by rewrite valid_index_saved_state).
    destruct (saved_state_fields s) as (_ & F2 & _ & _ & _ & _ & F7 & F8 & F9).
    split; [exact F8|]. split; [exact F2|].
    intros img. unfold boxes.
    cbn [current_subfolder_active_annotations heap showinfo with_dialogs].
    by rewrite F7, F9.
Qed.

End WithEnv.

(** C10, the claim as stated fails: on the last group [saveAndAdvance]
    saves successfully and the undo stack still holds the box drawn
    before; the undo that follows removes that box. *)
Lemma C10_counterexample :
  (_action_save_annotations env_abc true (dirty_C env_abc)).1 = true ∧
  undo_stack (_action_save_and_next env_abc (dirty_C env_abc)) = [(0%nat, "C1.PNG")] ∧
  boxes (_action_save_and_next env_abc (dirty_C env_abc)) "C1.PNG"
  = [[10; 10; 100; 100]%Z] ∧
  boxes (_action_undo_last_bbox (_action_save_and_next env_abc (dirty_C env_abc)))
        "C1.PNG" = [].
Proof. vm_compute. repeat split. Qed.

Lemma C10_witness :
  Inv (dirty_C env_abc) ∧
  PyStr.truthy (current_subfolder_name (dirty_C env_abc)) = true ∧
  let s := dirty_C env_abc in
  let s1 := (_action_save_annotations env_abc false s).2 in
  let s2 := _action_save_and_next env_abc s in
  (undo_stack s1 = [] ∧ _action_undo_last_bbox s1 = s1) ∧
  (valid_index s (current_subfolder_index s + 1) →
     undo_stack s2 = [] ∧ _action_undo_last_bbox s2 = s2) ∧
  (¬ valid_index s (current_subfolder_index s + 1) →
     undo_stack s2 = undo_stack s ∧
     current_subfolder_index s2 = current_subfolder_index s ∧
     ∀ img, boxes s2 img = boxes s img).
Proof.
  assert (HI : Inv (dirty_C env_abc)) by apply Inv_run, Init_facts.Inv_init.
  split; [exact HI|]. split; [reflexivity|].
  apply (C10_undo_stack_after_save env_abc (dirty_C env_abc) HI). reflexivity.
Defined.

End Reload_facts.

Module Roundtrip_facts.
Import Draw_boxes_ Engine_facts Save_facts Box_facts Reload_facts Examples.

Section WithEnv.
Context (E : Env).

(** The box lists after a load, from what the store held before it. *)
Lemma load_boxes idx s :
  valid_index s idx → Inv s →
  let s' := _load_subfolder_by_index E idx s in
  (∀ img, loaded E (current_subfolder_name s') img →
          boxes s' img = saved_boxes s (current_subfolder_name s') img) ∧
  (∀ img, ¬ loaded E (current_subfolder_name s') img → boxes s' img = []) ∧
  (∀ g img, saved_boxes s' g img = saved_boxes s g img).
Proof.
  intros Hidx HI s'. subst s'.
  pose proof (load_Loaded E idx s Hidx (inv_store_lt s HI)) as L.
  generalize dependent (_load_subfolder_by_index E idx s). intros s' L.
  split; [|split].
  - intros img Hl. destruct (ld_present _ _ _ _ L img Hl) as [l Hw].
    unfold boxes. rewrite Hw. by apply (ld_active _ _ _ _ L).
  - intros img Hl. unfold boxes.
    destruct (current_subfolder_active_annotations s' !! img) as [l|] eqn:Hw; [|done].
    destruct Hl. by apply (ld_active _ _ _ _ L img l).
  - intros g img. unfold saved_boxes. rewrite (ld_store _ _ _ _ L).
    destruct (annotations_data s !! g) as [r|] eqn:Hg; [|done].
    destruct (annotations r !! img) as [l|] eqn:Hr; [|done].
    apply (ld_old _ _ _ _ L). by apply (inv_store_lt s HI g r img).
Qed.

Lemma loaded_type_saved_state s :
  loaded_type (saved_state E s) (current_subfolder_name s)
  = if decide (annotation_type_var s ∈ combo_values s) then annotation_type_var s
    else default "" (head (combo_values s)).
Proof.
  destruct (saved_state_fields E s) as (_ & _ & _ & F4 & F5 & F6 & _).
  unfold loaded_type. rewrite F4, F6, lookup_insert_eq. done.
Qed.

(** Saving and then reloading the group, in closed form. *)
Lemma save_reload s :
  Inv s →
  PyStr.truthy (current_subfolder_name s) = true →
  let s1 := (_action_save_annotations E false s).2 in
  let s2 := _load_subfolder_by_index E (current_subfolder_index s1) s1 in
  current_subfolder_name s2 = current_subfolder_name s ∧
  current_subfolder_index s2 = current_subfolder_index s ∧
  (∀ img, loaded E (current_subfolder_name s) img → boxes s2 img = boxes s img) ∧
  (∀ img, ¬ loaded E (current_subfolder_name s) img → boxes s2 img = []) ∧
  (∀ img, saved_boxes s2 (current_subfolder_name s) img = boxes s img) ∧
  (annotation_type_var s ∈ combo_values s →
     annotation_type_var s2 = annotation_type_var s) ∧
  (annotation_type_var s ∉ combo_values s →
     annotation_type_var s2 = default "" (head (combo_values s))).
Proof.
  intros HI Hn s1 s2. subst s1 s2. rewrite plain_save_eq by done.
  pose proof (Inv_saved_state E s HI) as HIs.
  pose proof (current_index_valid s HI Hn) as Hv.
  apply (valid_index_saved_state E) in Hv.
  destruct (inv_current s HI Hn) as [_ Hlk].
  destruct (saved_state_fields E s) as (F1 & F2 & F3 & F4 & F5 & F6 & F7 & F8 & F9).
  pose proof (saved_boxes_saved_state E s) as Hsb.
  pose proof (loaded_type_saved_state s) as Hty.
  generalize dependent (saved_state E s). intros ss HIs Hv F1 F2 F3 F4 F5 F6 F7 F8 F9 Hsb Hty.
  pose proof (load_boxes _ ss Hv HIs) as B1. cbn zeta in B1.
  pose proof (load_frame E _ ss Hv) as Fr1. cbn zeta in Fr1.
  pose proof (Inv_load E (current_subfolder_index s) ss HIs) as HI1.
  generalize dependent (_load_subfolder_by_index E (current_subfolder_index s) ss).
  intros s1 B1 Fr1 HI1.
  destruct Fr1 as (G1 & G2 & G3 & G4 & _ & _ & G7 & _ & _ & _ & _ & _ & G13).
  assert (Hname1 : current_subfolder_name s1 = current_subfolder_name s).
  { rewrite F1, Hlk in G3. by injection G3. }
  rewrite Hname1 in B1, G13. destruct B1 as (B11 & B12 & B13).
  rewrite G2.
  assert (Hv1 : valid_index s1 (current_subfolder_index s)).
  { unfold valid_index in *. by rewrite G1. }
  pose proof (load_boxes _ s1 Hv1 HI1) as B2. cbn zeta in B2.
  pose proof (load_frame E _ s1 Hv1) as Fr2. cbn zeta in Fr2.
  generalize dependent (_load_subfolder_by_index E (current_subfolder_index s) s1).
  intros s2 B2 Fr2.
  destruct Fr2 as (K1 & K2 & K3 & _ & _ & _ & _ & _ & _ & _ & _ & _ & K13).
  assert (Hname2 : current_subfolder_name s2 = current_subfolder_name s).
  { rewrite G1, F1, Hlk in K3. by injection K3. }
  rewrite Hname2 in B2, K13. destruct B2 as (B21 & B22 & B23).
  assert (Hty2 : loaded_type s1 (current_subfolder_name s)
                 = loaded_type ss (current_subfolder_name s)).
  { unfold loaded_type. rewrite G4, G7, F4, !lookup_insert_eq. done. }
  rewrite Hty2, Hty in K13.
  split; [done|]. split; [done|]. split; [|split; [|split; [|split]]].
  - intros img Hl. by rewrite B21, B13, Hsb.
  - done.
  - intros img. by rewrite B23, B13, Hsb.
  - intros Hin. by rewrite K13, decide_True.
  - intros Hin. by rewrite K13, decide_False.
Qed.

(** C5 (as amended).  Saving the active group and then reloading it
    gives, for every image the group displays (one of its first four
    image files that can be opened), the box list it had before the save,
    and the category selected before the save whenever that category is
    one of the selectable entries (the registry without "other"); a
    category that is not selectable is replaced by the first selectable
    entry (by the empty string when there is none). *)
Theorem C5_save_reload_round_trip (s : App) :
  Inv s →
  PyStr.truthy (current_subfolder_name s) = true →
  let s1 := (_action_save_annotations E false s).2 in
  let s2 := _load_subfolder_by_index E (current_subfolder_index s1) s1 in
  current_subfolder_name s2 = current_subfolder_name s ∧
  current_subfolder_index s2 = current_subfolder_index s ∧
  (∀ img, loaded E (current_subfolder_name s) img → boxes s2 img = boxes s img) ∧
  (annotation_type_var s ∈ combo_values s →
     annotation_type_var s2 = annotation_type_var s) ∧
  (annotation_type_var s ∉ combo_values s →
     annotation_type_var s2 = default "" (head (combo_values s))).
Proof.
  intros HI Hn.
  destruct (save_reload s HI Hn) as (H1 & H2 & H3 & _ & _ & H6 & H7).
  done.
Qed.

End WithEnv.

(** C5, the claim as stated fails, in its two parts.  The category: with
    "other" selected, the record saved for the group holds "other" and
    the reload selects "paragraphs".  The boxes: on group B of the folder
    [env_uneven], which shows one image, the second canvas still names
    the second image of group A; the box drawn there is in the box list
    of that name before the save and is not after the reload. *)
Lemma C5_counterexample :
  (let s := other_B env_abc in
   let s1 := (_action_save_annotations env_abc false s).2 in
   let s2 := _load_subfolder_by_index env_abc (current_subfolder_index s1) s1 in
   current_subfolder_name s = "B" ∧ current_subfolder_name s2 = "B" ∧
   annotation_type_var s = "other" ∧
   (annotations_data s2 !! "B" ≫= type_of_annotation) = Some "other" ∧
   annotation_type_var s2 = "paragraphs" ∧
   annotation_type_var s2 ≠ annotation_type_var s) ∧
  (let s := run env_uneven uneven_B (draw 1 10 10 100 100) in
   let s1 := (_action_save_annotations env_uneven false s).2 in
   let s2 := _load_subfolder_by_index env_uneven (current_subfolder_index s1) s1 in
   current_subfolder_name s = "B" ∧ current_subfolder_name s2 = "B" ∧
   current_image_names s = [Some "B1.png"; None; None; None] ∧
   boxes s "A2.png" = [[10; 10; 100; 100]]%Z ∧
   boxes s2 "A2.png" = [] ∧
   boxes s2 "A2.png" ≠ boxes s "A2.png").
Proof. vm_compute. repeat split; discriminate. Qed.

Lemma C5_witness :
  Inv (dirty_B env_abc) ∧
  PyStr.truthy (current_subfolder_name (dirty_B env_abc)) = true ∧
  let s := dirty_B env_abc in
  let s1 := (_action_save_annotations env_abc false s).2 in
  let s2 := _load_subfolder_by_index env_abc (current_subfolder_index s1) s1 in
  current_subfolder_name s2 = current_subfolder_name s ∧
  current_subfolder_index s2 = current_subfolder_index s ∧
  (∀ img, loaded env_abc (current_subfolder_name s) img → boxes s2 img = boxes s img) ∧
  (annotation_type_var s ∈ combo_values s →
     annotation_type_var s2 = annotation_type_var s) ∧
  (annotation_type_var s ∉ combo_values s →
     annotation_type_var s2 = default "" (head (combo_values s))).
Proof.
  assert (HI : Inv (dirty_B env_abc)) by apply Inv_run, Init_facts.Inv_init.
  split; [exact HI|]. split; [reflexivity|].
  apply (C5_save_reload_round_trip env_abc (dirty_B env_abc) HI). reflexivity.
Defined.

End Roundtrip_facts.

(** ** The store and the working lists *)

Module Store_facts.
Import Draw_boxes_ Engine_facts Save_facts Box_facts Undo_facts Reload_facts
       Roundtrip_facts Examples.

Lemma press_store s canvas x y :
  Separated s →
  Separated (_on_canvas_press canvas x y s) ∧
  ∀ g img, saved_boxes (_on_canvas_press canvas x y s) g img = saved_boxes s g img.
Proof.
  intros Hsep. destruct (press_effect s canvas x y) as (P1 & P2 & _ & P4 & _).
  split.
  - unfold Separated. rewrite P1, P4. exact Hsep.
  - intros g img. unfold saved_boxes. by rewrite P2, P4.
Qed.

Lemma release_store s canvas x y :
  Inv s → Separated s →
  Separated (_on_canvas_release canvas x y s) ∧
  ∀ g img, saved_boxes (_on_canvas_release canvas x y s) g img = saved_boxes s g img.
Proof.
  intros HI Hsep. unfold _on_canvas_release.
  destruct (canvas_drawing_state s !! canvas) as [[im sx sy [r|]]|]; try done.
  cbn [active_rect_id image_name start_x start_y].
  destruct (too_small (release_bbox sx sy x y)); [done|].
  destruct im as [img|]; [|done].
  unfold setdefault_list. app_simpl.
  destruct (current_subfolder_active_annotations s !! img) as [l|] eqn:Hl.
  - app_simpl. split; [unfold Separated; app_simpl; exact Hsep|].
    intros g i. unfold saved_boxes. app_simpl.
    destruct (annotations_data s !! g) as [rc|] eqn:Hg; [|done].
    destruct (annotations rc !! i) as [l'|] eqn:Hl'; [|done].
    apply deref_mutate_other. intros ->. by apply (Hsep img l' g rc i).
  - cbn [alloc]. app_simpl. split.
    + unfold Separated. app_simpl.
      intros i l g rc i' [[_ <-]|[_ Hi]]%lookup_insert_Some Hg Hi'.
      * pose proof (inv_store_lt s HI g rc i' _ Hg Hi'). lia.
      * by apply (Hsep i l g rc i').
    + intros g i. unfold saved_boxes. app_simpl.
      destruct (annotations_data s !! g) as [rc|] eqn:Hg; [|done].
      destruct (annotations rc !! i) as [l'|] eqn:Hl'; [|done].
      pose proof (inv_store_lt s HI g rc i l' Hg Hl').
      rewrite deref_mutate_other by (cbn; lia).
      unfold deref; cbn. by rewrite lookup_insert_ne by lia.
Qed.

Lemma undo_store s :
  Separated s →
  Separated (_action_undo_last_bbox s) ∧
  ∀ g img, saved_boxes (_action_undo_last_bbox s) g img = saved_boxes s g img.
Proof.
  intros Hsep. unfold _action_undo_last_bbox.
  destruct (last (undo_stack s)) as [[canvas img]|]; [|done].
  assert (Hd : ∀ s1 : App,
            let s2 := match drawn_bbox_ids_on_canvas s1 !! img with
                      | Some ((_ :: _) as ids) =>
                          with_drawn_bbox_ids_on_canvas
                            (<[img := removelast ids]> (drawn_bbox_ids_on_canvas s1)) s1
                      | _ => s1
                      end in
            current_subfolder_active_annotations s2 = current_subfolder_active_annotations s1
            ∧ heap s2 = heap s1 ∧ annotations_data s2 = annotations_data s1).
  { intros s1. cbn. by destruct (drawn_bbox_ids_on_canvas s1 !! img) as [[|]|]. }
  specialize (Hd (with_undo_stack (removelast (undo_stack s)) s)).
  cbn zeta in Hd. destruct Hd as (D1 & D2 & D4).
  generalize dependent
    (match drawn_bbox_ids_on_canvas (with_undo_stack (removelast (undo_stack s)) s) !! img with
     | Some ((_ :: _) as ids) =>
         with_drawn_bbox_ids_on_canvas
           (<[img := removelast ids]>
              (drawn_bbox_ids_on_canvas (with_undo_stack (removelast (undo_stack s)) s)))
           (with_undo_stack (removelast (undo_stack s)) s)
     | _ => with_undo_stack (removelast (undo_stack s)) s
     end).
  intros s1 D1 D2 D4. cbn in D1, D2, D4. cbn zeta.
  assert (Hsame : Separated (with_unsaved_changes true s1)
                  ∧ ∀ g i, saved_boxes (with_unsaved_changes true s1) g i = saved_boxes s g i).
  { split.
    - unfold Separated. app_simpl. rewrite D1, D4. exact Hsep.
    - intros g i. unfold saved_boxes. app_simpl. by rewrite D2, D4. }
  destruct (current_subfolder_active_annotations s1 !! img) as [l|] eqn:Hl; [|done].
  destruct (deref (heap s1) l) as [|b bs]; [done|].
  split.
  - unfold Separated. app_simpl. rewrite D1, D4. exact Hsep.
  - intros g i. unfold saved_boxes. app_simpl. rewrite D4, D2.
    destruct (annotations_data s !! g) as [rc|] eqn:Hg; [|done].
    destruct (annotations rc !! i) as [l'|] eqn:Hl'; [|done].
    apply deref_mutate_other. intros ->. rewrite D1 in Hl.
    by apply (Hsep img l' g rc i).
Qed.

Section WithEnv.
Context (E : Env).

Lemma mutation_store s a :
  Inv s → Separated s → is_mutation a →
  Separated (step E s a) ∧ ∀ g img, saved_boxes (step E s a) g img = saved_boxes s g img.
Proof.
  intros HI Hsep Ha. destruct a; try done; cbn [step].
  - by apply press_store.
  - by apply release_store.
  - by apply undo_store.
Qed.

Lemma mutations_store actions : ∀ s,
  Inv s → Separated s → Forall is_mutation actions →
  ∀ g img, saved_boxes (run E s actions) g img = saved_boxes s g img.
Proof.
  induction actions as [|a actions IH]; intros s HI Hsep Hall g img; [done|].
  apply Forall_cons in Hall as [Ha Hall].
  destruct (mutation_store s a HI Hsep Ha) as [Hsep' Hs'].
  cbn. unfold run in IH. rewrite IH; [apply Hs'| by apply Inv_step |done|done].
Qed.

(** After a plain save the group is loaded again from the store, and the
    lists of the working mapping are new copies: drawing and undoing
    afterwards leaves what the store records untouched. *)
Lemma plain_save_isolates_store s actions :
  Inv s → PyStr.truthy (current_subfolder_name s) = true →
  Forall is_mutation actions →
  let s1 := (_action_save_annotations E false s).2 in
  ∀ img, saved_boxes (run E s1 actions) (current_subfolder_name s) img = boxes s img.
Proof.
  intros HI Hn Hall s1 img. subst s1.
  pose proof (Inv_save E false s HI) as HI1.
  assert (Hsep : Separated (_action_save_annotations E false s).2).
  { rewrite plain_save_eq by done.
    eapply (Loaded_Separated E); [apply (Inv_saved_state E s HI)|].
    apply load_Loaded.
    - apply valid_index_saved_state. by apply current_index_valid.
    - apply (inv_store_lt _ (Inv_saved_state E s HI)). }
  rewrite mutations_store by done.
  rewrite plain_save_eq by done.
  pose proof (load_boxes E (current_subfolder_index s) (saved_state E s)) as B.
  cbn zeta in B.
  destruct B as (_ & _ & B3).
  { apply valid_index_saved_state. by apply current_index_valid. }
  { by apply Inv_saved_state. }
  rewrite B3. apply saved_boxes_saved_state.
Qed.

End WithEnv.

(** C2, evaluated where it fails.  On the last group [saveAndAdvance]
    stores a shallow copy of the working mapping and loads nothing, so
    the store and the working mapping share their lists: the undo that
    follows empties the list recorded in the store for the saved group,
    and the next save of another group writes that change to disk. *)
Theorem C2_saved_lists_shared_at_last_group :
  let s0 := dirty_C env_abc in
  let s1 := _action_save_and_next env_abc s0 in
  let s2 := _action_undo_last_bbox s1 in
  let s3 := run env_abc s2 [Previous true; Save] in
  current_subfolder_name s1 = "C" ∧
  saved_boxes s1 "C" "C1.PNG" = [[10; 10; 100; 100]%Z] ∧
  disk_boxes s1 "C" "C1.PNG" = [[10; 10; 100; 100]%Z] ∧
  saved_boxes s2 "C" "C1.PNG" = [] ∧
  current_subfolder_name s3 = "B" ∧
  disk_boxes s3 "C" "C1.PNG" = [].
Proof. vm_compute. repeat split. Qed.

End Store_facts.

(** ** Resuming *)

Module Resume_facts.
Import Draw_boxes_ Engine_facts Save_facts Init_facts Examples.

Lemma first_not_completed_found completed pre name post i :
  Forall (λ d, d ∈ completed) pre → name ∉ completed →
  first_not_completed completed (pre ++ name :: post) i = Some (i + length pre)%nat.
Proof.
  intros Hpre Hname. revert i. induction Hpre as [|d pre Hd _ IH]; intros i; cbn.
  - rewrite decide_False by done. f_equal. lia.
  - rewrite decide_True by done. rewrite IH. f_equal. lia.
Qed.

Lemma first_not_completed_none completed folders i :
  Forall (λ d, d ∈ completed) folders →
  first_not_completed completed folders i = None.
Proof.
  intros H. revert i. induction H as [|d l Hd _ IH]; intros i; cbn; [done|].
  by rewrite decide_True.
Qed.

Lemma first_not_completed_lt completed folders k i :
  first_not_completed completed folders k = Some i → (k ≤ i < k + length folders)%nat.
Proof.
  revert k. induction folders as [|d l IH]; intros k; cbn; [done|].
  case_decide.
  - intros Hf. apply IH in Hf. lia.
  - intros [= <-]. lia.
Qed.

Lemma sorted_nonempty dirs : dirs ≠ [] → PyStr.sorted dirs ≠ [].
Proof.
  intros Hd Hs. apply Hd. apply Permutation_nil_r.
  rewrite <- Hs. unfold PyStr.sorted. by rewrite merge_sort_Permutation.
Qed.

Section WithEnv.
Context (E : Env).

Lemma load_annotations_frame s :
  subfolders (_load_annotations_from_file s) = subfolders s ∧
  disk (_load_annotations_from_file s) = disk s.
Proof.
  unfold _load_annotations_from_file.
  destruct (disk s !! ANNOTATIONS_FILE) as [[j| | |]|]; try done.
  by destruct (json_load_annotations j (heap s)).
Qed.

Lemma load_progress_frame s :
  subfolders (_load_progress_from_file s) = subfolders s ∧
  default [] (progress_data (_load_progress_from_file s)) = completed_on_disk (disk s).
Proof.
  unfold _load_progress_from_file, completed_on_disk.
  by destruct (disk s !! PROGRESS_FILE) as [[| | |]|].
Qed.

Lemma setup_ui_disk s : disk (_setup_ui s) = disk s.
Proof.
  unfold _setup_ui, _rebuild_annotation_widgets. app_simpl.
  destruct (filter _ _); [done|]. by destruct (negb _).
Qed.

Lemma load_types_other_file s path :
  path ≠ ANNOTATION_TYPES_FILE →
  disk (_load_annotation_types E s) !! path = disk s !! path.
Proof.
  intros Hp. unfold _load_annotation_types, _save_annotation_types.
  destruct (disk s !! ANNOTATION_TYPES_FILE) as [[| | |]|]; try done;
    by rewrite write_other.
Qed.

Lemma init_progress_file files :
  disk (_setup_ui (_load_annotation_types E (blank files))) !! PROGRESS_FILE
  = files !! PROGRESS_FILE.
Proof. rewrite setup_ui_disk. by rewrite load_types_other_file. Qed.

(** Start-up on a main folder with at least one subfolder. *)
Lemma initial_state_eq s dirs :
  PyStr.truthy (askdirectory E) = true →
  listdir_dirs E = Some dirs → dirs ≠ [] →
  ∃ sl : App,
    subfolders sl = PyStr.sorted dirs ∧
    default [] (progress_data sl) = completed_on_disk (disk s) ∧
    _load_initial_state E s
    = _load_subfolder_by_index E
        (match first_not_completed (default [] (progress_data sl)) (subfolders sl) 0 with
         | Some i => Z.of_nat i
         | None => Z.max 0 (Z.of_nat (length (subfolders sl)) - 1)
         end) sl.
Proof.
  intros Hask Hdirs Hne.
  exists (_load_progress_from_file
            (_load_annotations_from_file (with_subfolders (PyStr.sorted dirs) s))).
  destruct (load_annotations_frame (with_subfolders (PyStr.sorted dirs) s)) as [A1 A2].
  destruct (load_progress_frame
              (_load_annotations_from_file (with_subfolders (PyStr.sorted dirs) s)))
    as [P1 P2].
  split; [by rewrite P1, A1|]. split; [by rewrite P2, A2|].
  unfold _load_initial_state, _discover_subfolders. rewrite Hask, Hdirs. cbn [negb].
  cbn [subfolders with_subfolders].
  destruct (PyStr.sorted dirs) eqn:Hs; [by apply sorted_nonempty in Hs|].
  reflexivity.
Qed.

Lemma resume_position (files : gmap string JsonDoc) (dirs : list string) :
  PyStr.truthy (askdirectory E) = true →
  listdir_dirs E = Some dirs →
  dirs ≠ [] →
  let s := __init__ E files in
  let completed := completed_on_disk files in
  (subfolders s = PyStr.sorted dirs ∧
   Sorted String.le (subfolders s) ∧ subfolders s ≡ₚ dirs) ∧
  (∀ pre name post,
     subfolders s = pre ++ name :: post →
     Forall (λ d, d ∈ completed) pre → name ∉ completed →
     current_subfolder_name s = name ∧
     current_subfolder_index s = Z.of_nat (length pre)) ∧
  (Forall (λ d, d ∈ completed) (subfolders s) →
     last (subfolders s) = Some (current_subfolder_name s) ∧
     current_subfolder_index s = (Z.of_nat (length (subfolders s)) - 1)%Z).
Proof.
  intros Hask Hdirs Hne s completed. subst s completed.
  rewrite init_eq.
  destruct (initial_state_eq (_setup_ui (_load_annotation_types E (blank files)))
              dirs Hask Hdirs Hne) as (sl & S1 & S2 & ->).
  assert (Hc : default [] (progress_data sl) = completed_on_disk files).
  { rewrite S2. unfold completed_on_disk. by rewrite init_progress_file. }
  rewrite Hc. clear S2 Hc.
  assert (Hlen : (0 < length (subfolders sl))%nat).
  { rewrite S1. destruct (PyStr.sorted dirs) eqn:Hs; [by apply sorted_nonempty in Hs|].
    cbn. lia. }
  set (idx := match first_not_completed _ _ _ with Some i => _ | None => _ end).
  assert (Hfr : valid_index sl idx →
            subfolders (_load_subfolder_by_index E idx sl) = subfolders sl ∧
            current_subfolder_index (_load_subfolder_by_index E idx sl) = idx ∧
            subfolders sl !! Z.to_nat idx
            = Some (current_subfolder_name (_load_subfolder_by_index E idx sl))).
  { intros Hv. destruct (load_frame E idx sl Hv) as (F1 & F2 & F3 & _). done. }
  generalize dependent (_load_subfolder_by_index E idx sl). intros s Hfr.
  assert (Hsub : valid_index sl idx → subfolders s = subfolders sl)
    by (intros Hv; by apply Hfr).
  assert (Hv : valid_index sl idx).
  { subst idx. unfold valid_index.
    destruct (first_not_completed (completed_on_disk files) (subfolders sl) 0)
      as [i|] eqn:Hf; [|lia].
    apply first_not_completed_lt in Hf. lia. }
  destruct (Hfr Hv) as (F1 & F2 & F3).
  split; [|split].
  - rewrite F1, S1. split; [done|]. unfold PyStr.sorted. split.
    + apply Sorted_merge_sort. apply _.
    + apply merge_sort_Permutation.
  - intros pre name post Hdec Hpre Hname. rewrite F1 in Hdec.
    assert (Hidx : idx = Z.of_nat (length pre)).
    { subst idx. rewrite Hdec. by rewrite first_not_completed_found. }
    rewrite F2, Hidx. split; [|done].
    rewrite Hidx, Nat2Z.id, Hdec in F3.
    rewrite lookup_app_r, Nat.sub_diag in F3 by lia. cbn in F3. by injection F3.
  - intros Hall. rewrite F1 in Hall |- *.
    assert (Hidx : idx = (Z.of_nat (length (subfolders sl)) - 1)%Z).
    { subst idx. rewrite first_not_completed_none by done. lia. }
    rewrite F2, Hidx. split; [|done].
    rewrite last_lookup, <- F3, Hidx. f_equal. lia.
Qed.

(** C6.  Start-up sorts the discovered groups and resumes at the first
    group, in that order, whose name is not in the completed set read
    from the progress store; when every group is completed it loads the
    last one. *)
Theorem C6_resume_at_first_incomplete_group
    (files : gmap string JsonDoc) (dirs : list string) :
  PyStr.truthy (askdirectory E) = true →
  listdir_dirs E = Some dirs →
  dirs ≠ [] →
  let s := __init__ E files in
  let completed := completed_on_disk files in
  (subfolders s = PyStr.sorted dirs ∧
   Sorted String.le (subfolders s) ∧ subfolders s ≡ₚ dirs) ∧
  (∀ pre name post,
     subfolders s = pre ++ name :: post →
     Forall (λ d, d ∈ completed) pre → name ∉ completed →
     current_subfolder_name s = name ∧
     current_subfolder_index s = Z.of_nat (length pre)) ∧
  (Forall (λ d, d ∈ completed) (subfolders s) →
     last (subfolders s) = Some (current_subfolder_name s) ∧
     current_subfolder_index s = (Z.of_nat (length (subfolders s)) - 1)%Z).
Proof. exact (resume_position files dirs). Qed.

End WithEnv.

(** The scenario of the specification: groups A, B, C with A completed
    resume at B. *)
Lemma C6_witness :
  PyStr.truthy (askdirectory env_abc) = true ∧
  listdir_dirs env_abc = Some ["C"; "A"; "B"] ∧
  ["C"; "A"; "B"] ≠ [] ∧
  completed_on_disk files_A_done = ["A"] ∧
  subfolders (__init__ env_abc files_A_done) = ["A"; "B"; "C"] ∧
  current_subfolder_name (__init__ env_abc files_A_done) = "B" ∧
  current_subfolder_index (__init__ env_abc files_A_done) = 1%Z.
Proof.
  split; [reflexivity|]. split; [reflexivity|]. split; [discriminate|].
  split; [reflexivity|].
  destruct (C6_resume_at_first_incomplete_group env_abc files_A_done ["C"; "A"; "B"]
              eq_refl eq_refl ltac:(discriminate)) as ((Hs & _) & Hfirst & _).
  assert (Hsub : subfolders (__init__ env_abc files_A_done) = ["A"; "B"; "C"]).
  { rewrite Hs. vm_compute. reflexivity. }
  split; [exact Hsub|].
  apply (Hfirst ["A"] "B" ["C"] Hsub).
  - repeat constructor.
  - intros Hin. apply list_elem_of_singleton in Hin. discriminate.
Defined.

End Resume_facts.

(** ** The category registry *)

Module Registry_facts.
Import Draw_boxes_ Engine_facts Save_facts Examples.

Lemma isspace_lower_char c : PyStr.isspace (PyStr.lower_char c) = PyStr.isspace c.
Proof. destruct c as [[] [] [] [] [] [] [] []]; reflexivity. Qed.

Lemma lstrip_lower s : PyStr.lstrip (PyStr.lower s) = PyStr.lower (PyStr.lstrip s).
Proof.
  induction s as [|c s IH]; [done|]. cbn. rewrite isspace_lower_char.
  by destruct (PyStr.isspace c).
Qed.

Lemma rstrip_lower s : PyStr.rstrip (PyStr.lower s) = PyStr.lower (PyStr.rstrip s).
Proof.
  induction s as [|c s IH]; [done|]. cbn. rewrite IH, isspace_lower_char.
  destruct (PyStr.rstrip s); cbn; [|done]. by destruct (PyStr.isspace c).
Qed.

Lemma strip_lower s : PyStr.strip (PyStr.lower s) = PyStr.lower (PyStr.strip s).
Proof. unfold PyStr.strip. by rewrite lstrip_lower, rstrip_lower. Qed.

Lemma truthy_false s : PyStr.truthy s = false ↔ s = "".
Proof. by destruct s. Qed.

Lemma lower_empty s : PyStr.lower s = "" ↔ s = "".
Proof. by destruct s. Qed.

(** The test [not new_type or not new_type.strip()] is the test that the
    normalized name is empty. *)
Lemma rejected_iff_normalized_empty name :
  negb (PyStr.truthy name) || negb (PyStr.truthy (PyStr.strip name)) = true
  ↔ PyStr.strip (PyStr.lower name) = "".
Proof.
  rewrite strip_lower, lower_empty, orb_true_iff, !negb_true_iff, !truthy_false.
  split; [|by right]. intros [->|?]; done.
Qed.

(** *** ASCII strings *)

Lemma isspace_spec c :
  PyStr.isspace c = true
  ↔ (9 ≤ nat_of_ascii c ≤ 13 ∨ 28 ≤ nat_of_ascii c ≤ 32)%nat.
Proof.
  unfold PyStr.isspace. cbv zeta.
  rewrite orb_true_iff, !andb_true_iff, !Nat.leb_le. tauto.
Qed.

Lemma is_ascii_spec s :
  PyStr.is_ascii s = true
  ↔ Forall (λ c, (nat_of_ascii c < 128)%nat) (String.list_ascii_of_string s).
Proof.
  induction s as [|c s IH]; cbn [PyStr.is_ascii String.list_ascii_of_string].
  - split; [constructor|done].
  - rewrite andb_true_iff, Nat.ltb_lt, IH, Forall_cons. tauto.
Qed.

Lemma lower_char_ascii c :
  (nat_of_ascii c < 128)%nat → (nat_of_ascii (PyStr.lower_char c) < 128)%nat.
Proof.
  intros Hc. unfold PyStr.lower_char. cbv zeta.
  destruct (_ && _) eqn:Hb; [|done].
  apply andb_true_iff in Hb as [_ Hb%Nat.leb_le].
  rewrite nat_ascii_embedding; lia.
Qed.

Lemma is_ascii_lower s : PyStr.is_ascii s = true → PyStr.is_ascii (PyStr.lower s) = true.
Proof.
  induction s as [|c s IH]; [done|]. cbn [PyStr.is_ascii PyStr.lower].
  rewrite !andb_true_iff, !Nat.ltb_lt. intros [Hc Hs].
  split; [by apply lower_char_ascii | by apply IH].
Qed.

Lemma is_ascii_lstrip s : PyStr.is_ascii s = true → PyStr.is_ascii (PyStr.lstrip s) = true.
Proof.
  induction s as [|c s IH]; [done|]. intros Hs. cbn.
  destruct (PyStr.isspace c); [|done].
  apply IH. cbn in Hs. by apply andb_true_iff in Hs as [_ ?].
Qed.

Lemma is_ascii_rstrip s : PyStr.is_ascii s = true → PyStr.is_ascii (PyStr.rstrip s) = true.
Proof.
  induction s as [|c s IH]; [done|]. cbn. intros [Hc Hs]%andb_true_iff.
  specialize (IH Hs). destruct (PyStr.rstrip s).
  - destruct (PyStr.isspace c); [done|]. cbn. by rewrite Hc.
  - cbn in *. by rewrite Hc.
Qed.

Lemma is_ascii_strip s : PyStr.is_ascii s = true → PyStr.is_ascii (PyStr.strip s) = true.
Proof. intros Hs. by apply is_ascii_rstrip, is_ascii_lstrip. Qed.

Lemma list_ascii_lower s :
  String.list_ascii_of_string (PyStr.lower s)
  = map PyStr.lower_char (String.list_ascii_of_string s).
Proof. induction s as [|c s IH]; [done|]. cbn. by rewrite IH. Qed.

(** What [lstrip] and [rstrip] remove is whitespace, and what they leave
    neither starts nor ends with whitespace. *)
Lemma lstrip_split s :
  ∃ pre, s = pre +:+ PyStr.lstrip s
         ∧ Forall (λ c, PyStr.isspace c = true) (String.list_ascii_of_string pre).
Proof.
  induction s as [|c s (pre & Hs & Hpre)].
  - exists "". split; [done|constructor].
  - cbn. destruct (PyStr.isspace c) eqn:Hc.
    + exists (String c pre). split; [exact (f_equal (String c) Hs) | by constructor].
    + exists "". split; [done|constructor].
Qed.

Lemma lstrip_head s c r : PyStr.lstrip s = String c r → PyStr.isspace c = false.
Proof.
  induction s as [|d s IH]; [done|]. cbn.
  destruct (PyStr.isspace d) eqn:Hd; [done|]. by intros [= <- _].
Qed.

Lemma rstrip_split s :
  ∃ post, s = PyStr.rstrip s +:+ post
          ∧ Forall (λ c, PyStr.isspace c = true) (String.list_ascii_of_string post).
Proof.
  induction s as [|c s (post & Hs & Hpost)].
  - exists "". split; [done|constructor].
  - cbn [PyStr.rstrip]. destruct (PyStr.rstrip s) as [|d r] eqn:Hr.
    + destruct (PyStr.isspace c) eqn:Hc.
      * exists (String c post). split; [exact (f_equal (String c) Hs) | by constructor].
      * exists post. split; [exact (f_equal (String c) Hs) | done].
    + exists post. split; [exact (f_equal (String c) Hs) | done].
Qed.

Lemma rstrip_head s c r : PyStr.rstrip s = String c r → ∃ r', s = String c r'.
Proof.
  destruct s as [|d s]; [done|]. cbn.
  destruct (PyStr.rstrip s); [destruct (PyStr.isspace d)|];
    intros [= <- _]; by eexists.
Qed.

Lemma rstrip_last s r c : PyStr.rstrip s = r +:+ String c "" → PyStr.isspace c = false.
Proof.
  revert r. induction s as [|d s IH]; intros r.
  - by destruct r.
  - cbn [PyStr.rstrip]. destruct (PyStr.rstrip s) as [|e t] eqn:Hr.
    + destruct (PyStr.isspace d) eqn:Hd; [by destruct r|].
      destruct r as [|f r]; cbn.
      * by intros [= <-].
      * intros [= _ Hr']. by destruct r.
    + destruct r as [|f r]; cbn; [done|]. intros [= _ Ht]. by apply (IH r).
Qed.

Lemma strip_split s :
  ∃ pre post,
    s = pre +:+ PyStr.strip s +:+ post
    ∧ Forall (λ c, PyStr.isspace c = true) (String.list_ascii_of_string pre)
    ∧ Forall (λ c, PyStr.isspace c = true) (String.list_ascii_of_string post)
    ∧ (∀ c r, PyStr.strip s = String c r → PyStr.isspace c = false)
    ∧ (∀ r c, PyStr.strip s = r +:+ String c "" → PyStr.isspace c = false).
Proof.
  destruct (lstrip_split s) as (pre & Hs & Hpre).
  destruct (rstrip_split (PyStr.lstrip s)) as (post & Hl & Hpost).
  exists pre, post. unfold PyStr.strip. split; [|split; [done|split; [done|split]]].
  - by rewrite <- Hl.
  - intros c r Hc. apply rstrip_head in Hc as [r' Hc]. by apply lstrip_head in Hc.
  - intros r c. apply rstrip_last.
Qed.

Lemma list_index_found x pre post :
  x ∉ pre → list_index x (pre ++ x :: post) = Some (length pre).
Proof.
  induction pre as [|y pre IH]; intros Hx; cbn.
  - by rewrite decide_True.
  - apply not_elem_of_cons in Hx as [Hne Hx].
    rewrite decide_False by done. by rewrite IH.
Qed.

Lemma list_index_missing x l : x ∉ l → list_index x l = None.
Proof.
  induction l as [|y l IH]; intros Hx; cbn; [done|].
  apply not_elem_of_cons in Hx as [Hne Hx].
  rewrite decide_False by done. by rewrite IH.
Qed.

Lemma list_insert_at_app {A} (x y : A) pre post :
  list_insert_at (length pre) x (pre ++ y :: post) = pre ++ x :: y :: post.
Proof.
  unfold list_insert_at. by rewrite take_app_length, drop_app_length.
Qed.

Section WithEnv.
Context (E : Env).

Lemma rebuild_fields s :
  annotation_types (_rebuild_annotation_widgets s) = annotation_types s ∧
  disk (_rebuild_annotation_widgets s) = disk s ∧
  dialogs (_rebuild_annotation_widgets s) = dialogs s ∧
  combo_values (_rebuild_annotation_widgets s)
  = filter (λ t, t ≠ "other") (annotation_types s).
Proof.
  unfold _rebuild_annotation_widgets. app_simpl.
  destruct (filter _ _); [done|]. by destruct (negb _).
Qed.

Lemma str_lower_ascii name : PyStr.is_ascii name = true → str_lower E name = PyStr.lower name.
Proof. intros H. unfold str_lower. by rewrite H. Qed.

Lemma str_strip_ascii name : PyStr.is_ascii name = true → str_strip E name = PyStr.strip name.
Proof. intros H. unfold str_strip. by rewrite H. Qed.

Lemma str_title_ascii name : PyStr.is_ascii name = true → str_title E name = PyStr.title name.
Proof. intros H. unfold str_title. by rewrite H. Qed.

(** The normal form [new_type.lower().strip()] of an ASCII name. *)
Lemma normal_form_ascii name :
  PyStr.is_ascii name = true →
  str_strip E (str_lower E name) = PyStr.lower (PyStr.strip name)
  ∧ str_strip E name = PyStr.strip name.
Proof.
  intros H. rewrite (str_lower_ascii name H), (str_strip_ascii name H).
  rewrite str_strip_ascii by (by apply is_ascii_lower). by rewrite strip_lower.
Qed.

(** The test [not new_type or not new_type.strip()]. *)
Lemma rejected_iff name :
  negb (PyStr.truthy name) || negb (PyStr.truthy (str_strip E name)) = true
  ↔ str_strip E name = "".
Proof.
  rewrite orb_true_iff, !negb_true_iff, !truthy_false.
  split; [|by right]. intros [->|?]; done.
Qed.

Lemma normal_form_spec (name : string) :
  Forall (λ c, (nat_of_ascii c < 128)%nat) (String.list_ascii_of_string name) →
  ∃ pre mid post : string,
    name = pre +:+ mid +:+ post
    ∧ Forall (λ c, (9 ≤ nat_of_ascii c ≤ 13 ∨ 28 ≤ nat_of_ascii c ≤ 32)%nat)
             (String.list_ascii_of_string pre)
    ∧ Forall (λ c, (9 ≤ nat_of_ascii c ≤ 13 ∨ 28 ≤ nat_of_ascii c ≤ 32)%nat)
             (String.list_ascii_of_string post)
    ∧ (∀ c r, mid = String c r →
         ¬ (9 ≤ nat_of_ascii c ≤ 13 ∨ 28 ≤ nat_of_ascii c ≤ 32)%nat)
    ∧ (∀ r c, mid = r +:+ String c "" →
         ¬ (9 ≤ nat_of_ascii c ≤ 13 ∨ 28 ≤ nat_of_ascii c ≤ 32)%nat)
    ∧ String.list_ascii_of_string (str_strip E (str_lower E name))
      = map (λ c, if (65 <=? nat_of_ascii c)%nat && (nat_of_ascii c <=? 90)%nat
                  then ascii_of_nat (nat_of_ascii c + 32) else c)
            (String.list_ascii_of_string mid)
    ∧ (str_strip E name = "" ↔ mid = "").
Proof.
  intros Ha%is_ascii_spec.
  destruct (normal_form_ascii name Ha) as [-> ->].
  destruct (strip_split name) as (pre & post & Hs & Hpre & Hpost & Hh & Hl).
  exists pre, (PyStr.strip name), post.
  split; [done|]. split; [|split; [|split; [|split; [|split]]]].
  - eapply Forall_impl; [exact Hpre|]. intros c. apply isspace_spec.
  - eapply Forall_impl; [exact Hpost|]. intros c. apply isspace_spec.
  - intros c r Hm Hc%isspace_spec. by rewrite (Hh c r Hm) in Hc.
  - intros r c Hm Hc%isspace_spec. by rewrite (Hl r c Hm) in Hc.
  - apply list_ascii_lower.
  - done.
Qed.

Lemma add_new_annotation_type_spec (name : string) (s : App) :
  let new_type := str_strip E (str_lower E name) in
  let s' := _add_new_annotation_type E (Some name) s in
  (str_strip E name = "" → s' = askstring "New Annotation Type" (Some name) s) ∧
  (str_strip E name ≠ "" → new_type ∈ annotation_types s →
     annotation_types s' = annotation_types s ∧
     annotation_type_var s' = new_type ∧
     disk s' = disk s ∧
     unsaved_changes s' = unsaved_changes s ∧
     dialogs s'
     = dialogs s ++
       [AskString "New Annotation Type" (Some name);
        ShowInfo "Already Exists"
          ("The type '" +:+ str_title E new_type
           +:+ "' already exists. It has been selected for you.")]) ∧
  (str_strip E name ≠ "" → new_type ∉ annotation_types s →
     (∀ pre post, annotation_types s = pre ++ "other" :: post → "other" ∉ pre →
                  annotation_types s' = pre ++ new_type :: "other" :: post) ∧
     ("other" ∉ annotation_types s →
        annotation_types s' = annotation_types s ++ [new_type]) ∧
     annotation_type_var s' = new_type ∧
     unsaved_changes s' = true ∧
     (can_write E ANNOTATION_TYPES_FILE = true →
        disk s' !! ANNOTATION_TYPES_FILE = Some (DocTypes (annotation_types s'))) ∧
     (can_write E ANNOTATION_TYPES_FILE = false →
        ShowError "Error"
          ("Could not save to annotation_types.json: "
           +:+ (write_failure E ANNOTATION_TYPES_FILE).1) ∈ dialogs s')).
Proof.
  intros new_type s'. subst s'. unfold _add_new_annotation_type.
  pose proof (rejected_iff name) as Hrej.
  destruct (negb (PyStr.truthy name) || negb (PyStr.truthy (str_strip E name))) eqn:Hb.
  { apply proj1 in Hrej. specialize (Hrej eq_refl).
    split; [done|]. split; intros Hne; by destruct Hne. }
  assert (Hne : str_strip E name ≠ "").
  { intros He. apply Hrej in He. discriminate. }
  split; [done|]. clear Hrej Hb.
  fold new_type.
  generalize dependent new_type. intros new_type. app_simpl.
  destruct (decide (new_type ∈ annotation_types s)) as [Hin|Hnin].
  { split; [intros _ _; app_simpl; repeat split; by rewrite <- (assoc_L (++))
           | intros _ Hn; by destruct Hn]. }
  split; [intros _ Hn; by destruct Hnin|]. intros _ _.
  set (types := match list_index "other" (annotation_types s) with
                | Some other_index =>
                    list_insert_at other_index new_type (annotation_types s)
                | None => annotation_types s ++ [new_type]
                end).
  app_simpl.
  set (s1 := with_annotation_types types _).
  unfold _save_annotation_types.
  destruct (rebuild_fields
              (_write_json_file E ANNOTATION_TYPES_FILE (DocTypes (annotation_types s1)) s1))
    as (R1 & R2 & R3 & R4).
  generalize dependent
    (_rebuild_annotation_widgets
       (_write_json_file E ANNOTATION_TYPES_FILE (DocTypes (annotation_types s1)) s1)).
  intros s2 R1 R2 R3 R4. app_simpl.
  assert (Hty : annotation_types s2 = types).
  { rewrite R1. unfold _write_json_file.
    destruct (can_write E ANNOTATION_TYPES_FILE); [done|].
    by destruct (write_failure E ANNOTATION_TYPES_FILE).2. }
  rewrite Hty.
  split; [|split; [|split; [done|split; [done|split]]]].
  - intros pre post Hdec Hpre. subst types.
    rewrite Hdec, list_index_found by done. apply list_insert_at_app.
  - intros Ho. subst types. by rewrite list_index_missing.
  - intros Hw. rewrite R2. unfold _write_json_file. rewrite Hw. cbn.
    by rewrite lookup_insert_eq.
  - intros Hw. rewrite R3, write_failed_dialogs by done.
    apply elem_of_app. right. by left.
Qed.

(** C7 (as amended).  [addCategory] trims and lowercases the name: for a
    name of ASCII characters the normal form is the name without the
    whitespace at its two ends, every letter A-Z replaced by its
    lower-case letter; for every name it is [name.lower().strip()].  A
    name that is empty after trimming changes nothing; a name whose
    normal form is already in the registry leaves the registry, the
    files and the dirty flag as they are and becomes the selected
    category; a new name is inserted immediately before the first
    "other", or appended when there is no "other", becomes the selected
    category, and the updated list is written to the registry file
    before the operation returns when that file can be written; when the
    write fails, the error is shown in a dialog (the new name is in the
    registry in memory all the same). *)
Theorem C7_add_category_normalizes_dedups_inserts_persists (name : string) (s : App) :
  let new_type := str_strip E (str_lower E name) in
  let s' := _add_new_annotation_type E (Some name) s in
  (Forall (λ c, (nat_of_ascii c < 128)%nat) (String.list_ascii_of_string name) →
   ∃ pre mid post : string,
     name = pre +:+ mid +:+ post
     ∧ Forall (λ c, (9 ≤ nat_of_ascii c ≤ 13 ∨ 28 ≤ nat_of_ascii c ≤ 32)%nat)
              (String.list_ascii_of_string pre)
     ∧ Forall (λ c, (9 ≤ nat_of_ascii c ≤ 13 ∨ 28 ≤ nat_of_ascii c ≤ 32)%nat)
              (String.list_ascii_of_string post)
     ∧ (∀ c r, mid = String c r →
          ¬ (9 ≤ nat_of_ascii c ≤ 13 ∨ 28 ≤ nat_of_ascii c ≤ 32)%nat)
     ∧ (∀ r c, mid = r +:+ String c "" →
          ¬ (9 ≤ nat_of_ascii c ≤ 13 ∨ 28 ≤ nat_of_ascii c ≤ 32)%nat)
     ∧ String.list_ascii_of_string new_type
       = map (λ c, if (65 <=? nat_of_ascii c)%nat && (nat_of_ascii c <=? 90)%nat
                   then ascii_of_nat (nat_of_ascii c + 32) else c)
             (String.list_ascii_of_string mid)
     ∧ (str_strip E name = "" ↔ mid = "")) ∧
  (str_strip E name = "" → s' = askstring "New Annotation Type" (Some name) s) ∧
  (str_strip E name ≠ "" → new_type ∈ annotation_types s →
     annotation_types s' = annotation_types s ∧
     annotation_type_var s' = new_type ∧
     disk s' = disk s ∧
     unsaved_changes s' = unsaved_changes s ∧
     dialogs s'
     = dialogs s ++
       [AskString "New Annotation Type" (Some name);
        ShowInfo "Already Exists"
          ("The type '" +:+ str_title E new_type
           +:+ "' already exists. It has been selected for you.")]) ∧
  (str_strip E name ≠ "" → new_type ∉ annotation_types s →
     (∀ pre post, annotation_types s = pre ++ "other" :: post → "other" ∉ pre →
                  annotation_types s' = pre ++ new_type :: "other" :: post) ∧
     ("other" ∉ annotation_types s →
        annotation_types s' = annotation_types s ++ [new_type]) ∧
     annotation_type_var s' = new_type ∧
     unsaved_changes s' = true ∧
     (can_write E ANNOTATION_TYPES_FILE = true →
        disk s' !! ANNOTATION_TYPES_FILE = Some (DocTypes (annotation_types s'))) ∧
     (can_write E ANNOTATION_TYPES_FILE = false →
        ShowError "Error"
          ("Could not save to annotation_types.json: "
           +:+ (write_failure E ANNOTATION_TYPES_FILE).1) ∈ dialogs s')).
Proof.
  split; [exact (normal_form_spec name)|exact (add_new_annotation_type_spec name s)].
Qed.

End WithEnv.

(** C7, the claim as stated fails: on a disk that cannot be written a
    new name is added to the registry and the updated list is not in the
    registry file when the operation returns. *)
Lemma C7_counterexample :
  let s := __init__ env_readonly files_A_done in
  let s' := _add_new_annotation_type env_readonly (Some "Figures") s in
  annotation_types s = ["paragraphs"; "tables"; "images"; "headings"; "other"] ∧
  annotation_types s'
  = ["paragraphs"; "tables"; "images"; "headings"; "figures"; "other"] ∧
  disk s' !! ANNOTATION_TYPES_FILE ≠ Some (DocTypes (annotation_types s')).
Proof. vm_compute. repeat split. discriminate. Qed.

(** [addNew("Tables")] when "tables" exists, and a new name. *)
Lemma C7_witness :
  let s := __init__ env_abc files_A_done in
  let s1 := _add_new_annotation_type env_abc (Some "Tables") s in
  let s2 := _add_new_annotation_type env_abc (Some " Figures ") s in
  annotation_types s = ["paragraphs"; "tables"; "images"; "headings"; "other"] ∧
  (annotation_types s1 = annotation_types s ∧
   annotation_type_var s1 = "tables" ∧
   disk s1 = disk s ∧
   unsaved_changes s1 = unsaved_changes s ∧
   dialogs s1
   = dialogs s ++
     [AskString "New Annotation Type" (Some "Tables");
      ShowInfo "Already Exists"
        "The type 'Tables' already exists. It has been selected for you."]) ∧
  (annotation_types s2
   = ["paragraphs"; "tables"; "images"; "headings"] ++ "figures" :: "other" :: [] ∧
   annotation_type_var s2 = "figures" ∧
   unsaved_changes s2 = true ∧
   disk s2 !! ANNOTATION_TYPES_FILE = Some (DocTypes (annotation_types s2))).
Proof.
  intros s s1 s2.
  assert (Hs : annotation_types s
               = ["paragraphs"; "tables"; "images"; "headings"; "other"])
    by (vm_compute; reflexivity).
  split; [exact Hs|]. split.
  - pose proof (C7_add_category_normalizes_dedups_inserts_persists env_abc "Tables" s)
      as (_ & _ & H & _).
    apply H; [discriminate|].
    rewrite Hs. vm_compute. do 1 right. left.
  - pose proof (C7_add_category_normalizes_dedups_inserts_persists env_abc " Figures " s)
      as (_ & _ & _ & H).
    destruct H as (H1 & _ & H3 & H4 & H5 & _).
    + discriminate.
    + rewrite Hs. vm_compute. intros Hin. repeat (apply elem_of_cons in Hin as [?|Hin]; [done|]).
      by apply elem_of_nil in Hin.
    + split; [|split; [exact H3|split; [exact H4|exact (H5 eq_refl)]]].
      apply (H1 ["paragraphs"; "tables"; "images"; "headings"] []); [exact Hs|].
      intros Hin. repeat (apply elem_of_cons in Hin as [?|Hin]; [done|]).
      by apply elem_of_nil in Hin.
Defined.

End Registry_facts.

(** ** The theorems at concrete sessions *)

Module Witnesses.
Import Draw_boxes_ Engine_facts Init_facts Box_facts Undo_facts AddBox_facts Examples.

Lemma no_pending_check s :
  forallb (λ state, bool_decide (active_rect_id state = None)) (canvas_drawing_state s)
  = true →
  no_pending s.
Proof.
  intros Hall canvas state Hc.
  rewrite forallb_forall in Hall.
  eapply bool_decide_eq_true_1. apply Hall.
  apply list_elem_of_In. eapply list_elem_of_lookup_2. exact Hc.
Qed.

Lemma C4_witness :
  Inv (__init__ env_abc files_A_done) ∧
  no_pending (__init__ env_abc files_A_done) ∧
  let s := __init__ env_abc files_A_done in
  let s' := run env_abc s (concat (gesture_actions <$> three_gestures)) in
  let adds := omap (added s) three_gestures in
  undo_stack s' = undo_stack s ++ (undo_entry <$> adds) ∧
  (∀ k, (k ≤ length adds)%nat →
     let u := Nat.iter k _action_undo_last_bbox s' in
     undo_stack u = undo_stack s ++ (undo_entry <$> take (length adds - k) adds) ∧
     ∀ img, boxes u img = boxes s img ++ boxes_for img (take (length adds - k) adds)) ∧
  (∀ img, boxes (Nat.iter (length adds) _action_undo_last_bbox s') img = boxes s img) ∧
  (undo_stack s = [] → _action_undo_last_bbox s = s).
Proof.
  assert (HI : Inv (__init__ env_abc files_A_done)) by apply Inv_init.
  assert (Hnp : no_pending (__init__ env_abc files_A_done))
    by (apply no_pending_check; vm_compute; reflexivity).
  split; [exact HI|]. split; [exact Hnp|].
  exact (C4_undo_removes_boxes_in_reverse_order env_abc
           (__init__ env_abc files_A_done) three_gestures HI Hnp).
Defined.

(** The boxes left after each number of undos in that session. *)
Example undo_three_gestures :
  let s := __init__ env_abc files_A_done in
  let s' := run env_abc s (concat (gesture_actions <$> three_gestures)) in
  (boxes s' "B1.PNG", boxes s' "B2.png")
  = ([[10; 10; 100; 100]], [[20; 20; 200; 200]])%Z ∧
  (let u := Nat.iter 1 _action_undo_last_bbox s' in
   (boxes u "B1.PNG", boxes u "B2.png") = ([[10; 10; 100; 100]%Z], [])) ∧
  (let u := Nat.iter 2 _action_undo_last_bbox s' in
   (boxes u "B1.PNG", boxes u "B2.png") = ([], [])).
Proof. vm_compute. repeat split. Qed.


End Witnesses.

(** ** What the handlers leave alone *)

Module Frame_facts.
Import Draw_boxes_ Engine_facts Save_facts Init_facts Reload_facts Registry_facts.

Section WithEnv.
Variable E : Env.

(** A group load, at any index, changes neither the stores nor the
    registry nor the files. *)
Lemma load_keeps idx s :
  let s' := _load_subfolder_by_index E idx s in
  subfolders s' = subfolders s ∧
  annotations_data s' = annotations_data s ∧
  progress_data s' = progress_data s ∧
  annotation_types s' = annotation_types s ∧
  combo_values s' = combo_values s ∧
  disk s' = disk s ∧
  destroyed s' = destroyed s.
Proof.
  intros s'. subst s'.
  destruct (decide (0 ≤ idx < Z.of_nat (length (subfolders s)))%Z) as [Hv|Hv].
  - pose proof (load_frame E idx s Hv) as H. cbv zeta in H.
    destruct H as (H1 & _ & _ & H4 & H5 & H6 & H7 & H8 & _ & H10 & _).
    by rewrite H1, H4, H5, H6, H7, H8, H10.
  - by rewrite (load_out_of_range E idx s Hv).
Qed.

(** The loop of [_action_clear_current_annotations]: every key of the
    working mapping gets a new empty list. *)
Lemma clear_allocs_fields (imgs : list string) : ∀ s,
  let s' := foldl (λ s img_name,
                     let '(l, h) := alloc [] (heap s) in
                     with_active_annotations
                       (<[img_name := l]> (current_subfolder_active_annotations s))
                       (with_heap h s))
                  s imgs in
  subfolders s' = subfolders s ∧
  current_subfolder_index s' = current_subfolder_index s ∧
  current_subfolder_name s' = current_subfolder_name s ∧
  annotations_data s' = annotations_data s ∧
  progress_data s' = progress_data s ∧
  annotation_types s' = annotation_types s ∧
  combo_values s' = combo_values s ∧
  annotation_type_var s' = annotation_type_var s ∧
  canvas_drawing_state s' = canvas_drawing_state s ∧
  disk s' = disk s ∧
  dialogs s' = dialogs s ∧
  destroyed s' = destroyed s ∧
  (next_loc (heap s) ≤ next_loc (heap s'))%nat ∧
  (∀ l, (l < next_loc (heap s))%nat → deref (heap s') l = deref (heap s) l).
Proof.
  induction imgs as [|img imgs IH]; intros s; cbn [foldl].
  - repeat split; auto.
  - match goal with
    | |- context [foldl ?f ?s1 imgs] => specialize (IH s1); remember s1 as s2 eqn:Hs2
    end.
    cbv zeta in IH |- *.
    destruct IH as (H1 & H2 & H3 & H4 & H5 & H6 & H7 & H8 & H9 & H10 & H11 & H12
                    & H13 & H14).
    rewrite H1, H2, H3, H4, H5, H6, H7, H8, H9, H10, H11, H12.
    assert (Hh : heap s2 = (alloc [] (heap s)).2) by (subst s2; reflexivity).
    assert (Hn : next_loc (heap s2) = S (next_loc (heap s)))
      by (rewrite Hh; apply next_loc_alloc).
    repeat split; try (subst s2; reflexivity).
    + lia.
    + intros l Hl. rewrite H14 by lia.
      rewrite Hh. apply deref_alloc_old. lia.
Qed.

Lemma clear_keeps yes s :
  let s' := _action_clear_current_annotations E yes s in
  subfolders s' = subfolders s ∧
  annotations_data s' = annotations_data s ∧
  progress_data s' = progress_data s ∧
  annotation_types s' = annotation_types s ∧
  combo_values s' = combo_values s ∧
  disk s' = disk s ∧
  destroyed s' = destroyed s.
Proof.
  intros s'. subst s'. unfold _action_clear_current_annotations.
  destruct yes; [|done].
  match goal with
  | |- context [_load_subfolder_by_index E ?i ?s1] =>
      generalize (load_keeps i s1); generalize (_load_subfolder_by_index E i s1)
  end.
  intros s2 H. cbv zeta in H.
  destruct H as (H1 & H2 & H3 & H4 & H5 & H6 & H7).
  match type of H1 with
  | _ = subfolders (foldl ?f ?s0 ?imgs) =>
      pose proof (clear_allocs_fields imgs s0) as G
  end.
  cbv zeta in G.
  destruct G as (G1 & _ & _ & G4 & G5 & G6 & G7 & _ & _ & G10 & _ & G12 & _).
  app_simpl.
  rewrite H1, H2, H3, H4, H5, H6, H7, G1, G4, G5, G6, G7, G10, G12. done.
Qed.

Lemma previous_keeps yes s :
  let s' := _action_previous_subfolder E yes s in
  subfolders s' = subfolders s ∧
  annotations_data s' = annotations_data s ∧
  progress_data s' = progress_data s ∧
  annotation_types s' = annotation_types s ∧
  combo_values s' = combo_values s ∧
  disk s' = disk s ∧
  destroyed s' = destroyed s.
Proof.
  intros s'. subst s'. unfold _action_previous_subfolder.
  destruct (unsaved_changes s); [destruct yes|]; simpl; try done.
  - match goal with
    | |- context [_load_subfolder_by_index E ?i ?s1] => apply (load_keeps i s1)
    end.
  - apply load_keeps.
Qed.

Lemma press_keeps c x y s :
  let s' := _on_canvas_press c x y s in
  subfolders s' = subfolders s ∧
  annotations_data s' = annotations_data s ∧
  progress_data s' = progress_data s ∧
  annotation_types s' = annotation_types s ∧
  combo_values s' = combo_values s ∧
  disk s' = disk s ∧
  destroyed s' = destroyed s.
Proof. intros s'. subst s'. unfold _on_canvas_press. by repeat case_match. Qed.

Lemma release_keeps c x y s :
  let s' := _on_canvas_release c x y s in
  subfolders s' = subfolders s ∧
  annotations_data s' = annotations_data s ∧
  progress_data s' = progress_data s ∧
  annotation_types s' = annotation_types s ∧
  combo_values s' = combo_values s ∧
  disk s' = disk s ∧
  destroyed s' = destroyed s.
Proof.
  intros s'. subst s'. unfold _on_canvas_release, setdefault_list.
  by repeat case_match; simplify_eq.
Qed.

Lemma undo_keeps s :
  let s' := _action_undo_last_bbox s in
  subfolders s' = subfolders s ∧
  annotations_data s' = annotations_data s ∧
  progress_data s' = progress_data s ∧
  annotation_types s' = annotation_types s ∧
  combo_values s' = combo_values s ∧
  disk s' = disk s ∧
  destroyed s' = destroyed s.
Proof. intros s'. subst s'. unfold _action_undo_last_bbox. by repeat case_match. Qed.

Lemma select_keeps t s :
  let s' := select_annotation_type t s in
  subfolders s' = subfolders s ∧
  annotations_data s' = annotations_data s ∧
  progress_data s' = progress_data s ∧
  annotation_types s' = annotation_types s ∧
  combo_values s' = combo_values s ∧
  disk s' = disk s ∧
  destroyed s' = destroyed s.
Proof. intros s'. subst s'. unfold select_annotation_type. by case_match. Qed.

(** A save keeps the registry and the combobox. *)
Lemma saved_state_registry s :
  annotation_types (saved_state E s) = annotation_types s ∧
  combo_values (saved_state E s) = combo_values s ∧
  destroyed (saved_state E s) = destroyed s.
Proof. unfold saved_state, _write_json_file. by repeat case_match. Qed.

Lemma save_registry b s :
  annotation_types (_action_save_annotations E b s).2 = annotation_types s ∧
  combo_values (_action_save_annotations E b s).2 = combo_values s ∧
  destroyed (_action_save_annotations E b s).2 = destroyed s.
Proof.
  destruct (PyStr.truthy (current_subfolder_name s)) eqn:Hn.
  - rewrite (save_eq E b s Hn). cbn [snd].
    destruct (saved_state_registry s) as (H1 & H2 & H3).
    destruct b; [done|].
    match goal with
    | |- context [_load_subfolder_by_index E ?i ?s1] =>
        destruct (load_keeps i s1) as (_ & _ & _ & G4 & G5 & _ & G7)
    end.
    by rewrite G4, G5, G7.
  - unfold _action_save_annotations. by rewrite Hn.
Qed.

Lemma save_and_next_registry s :
  annotation_types (_action_save_and_next E s) = annotation_types s ∧
  combo_values (_action_save_and_next E s) = combo_values s ∧
  destroyed (_action_save_and_next E s) = destroyed s.
Proof.
  destruct (PyStr.truthy (current_subfolder_name s)) eqn:Hn.
  - rewrite (save_and_next_eq E s Hn).
    destruct (saved_state_registry s) as (H1 & H2 & H3).
    match goal with
    | |- context [_load_subfolder_by_index E ?i ?s1] =>
        destruct (load_keeps i s1) as (_ & _ & _ & G4 & G5 & _ & G7)
    end.
    by rewrite G4, G5, G7.
  - unfold _action_save_and_next, _action_save_annotations. by rewrite Hn.
Qed.

End WithEnv.
End Frame_facts.

(** ** Properties of every session *)

Module Session_facts.
Import Draw_boxes_ Engine_facts Save_facts Init_facts Box_facts Undo_facts Reload_facts
       Roundtrip_facts Store_facts Registry_facts Frame_facts Examples.

Section WithEnv.
Variable E : Env.

Lemma add_type_display answer s :
  combo_values s = filter (λ t, t ≠ "other") (annotation_types s) →
  combo_values (_add_new_annotation_type E answer s)
  = filter (λ t, t ≠ "other") (annotation_types (_add_new_annotation_type E answer s)).
Proof.
  intros Hd. unfold _add_new_annotation_type.
  destruct answer as [new_type|]; [|done].
  destruct (negb (PyStr.truthy new_type) || negb (PyStr.truthy (str_strip E new_type)));
    [done|].
  app_simpl.
  destruct (decide (_ ∈ _)); [done|].
  match goal with
  | |- context [_rebuild_annotation_widgets ?s1] =>
      destruct (rebuild_fields s1) as (R1 & _ & _ & R4);
      generalize dependent (_rebuild_annotation_widgets s1)
  end.
  intros s2 R1 R4. app_simpl. by rewrite R1, R4.
Qed.

Lemma step_display s a :
  combo_values s = filter (λ t, t ≠ "other") (annotation_types s) →
  combo_values (step E s a) = filter (λ t, t ≠ "other") (annotation_types (step E s a)).
Proof.
  intros Hd. destruct a as [c x y|c x y| | | |yes|yes|t|answer]; cbn [step].
  - destruct (press_keeps c x y s) as (_ & _ & _ & H4 & H5 & _). by rewrite H4, H5.
  - destruct (release_keeps c x y s) as (_ & _ & _ & H4 & H5 & _). by rewrite H4, H5.
  - destruct (undo_keeps s) as (_ & _ & _ & H4 & H5 & _). by rewrite H4, H5.
  - destruct (save_registry E false s) as (H4 & H5 & _). by rewrite H4, H5.
  - destruct (save_and_next_registry E s) as (H4 & H5 & _). by rewrite H4, H5.
  - destruct (clear_keeps E yes s) as (_ & _ & _ & H4 & H5 & _). by rewrite H4, H5.
  - destruct (previous_keeps E yes s) as (_ & _ & _ & H4 & H5 & _). by rewrite H4, H5.
  - destruct (select_keeps t s) as (_ & _ & _ & H4 & H5 & _). by rewrite H4, H5.
  - by apply add_type_display.
Qed.

Lemma run_display actions : ∀ s,
  combo_values s = filter (λ t, t ≠ "other") (annotation_types s) →
  combo_values (run E s actions)
  = filter (λ t, t ≠ "other") (annotation_types (run E s actions)).
Proof.
  induction actions as [|a actions IH]; intros s Hd; [done|].
  apply IH. by apply step_display.
Qed.

Lemma initial_state_registry s :
  annotation_types (_load_initial_state E s) = annotation_types s ∧
  combo_values (_load_initial_state E s) = combo_values s.
Proof.
  unfold _load_initial_state.
  destruct (negb (PyStr.truthy (askdirectory E))); [done|].
  assert (annotation_types (_discover_subfolders E s) = annotation_types s
          ∧ combo_values (_discover_subfolders E s) = combo_values s) as [D1 D2].
  { unfold _discover_subfolders. by destruct (listdir_dirs E). }
  generalize dependent (_discover_subfolders E s). intros s1 D1 D2.
  destruct (subfolders s1); [done|].
  match goal with
  | |- context [_load_subfolder_by_index E ?i ?s2] =>
      destruct (load_keeps E i s2) as (_ & _ & _ & G4 & G5 & _)
  end.
  rewrite G4, G5.
  unfold _load_progress_from_file, _load_annotations_from_file.
  repeat case_match; done.
Qed.

Lemma init_display files :
  combo_values (__init__ E files)
  = filter (λ t, t ≠ "other") (annotation_types (__init__ E files)).
Proof.
  rewrite init_eq.
  destruct (initial_state_registry (_setup_ui (_load_annotation_types E (blank files))))
    as [H1 H2].
  rewrite H1, H2. unfold _setup_ui.
  match goal with
  | |- context [_rebuild_annotation_widgets ?s1] =>
      destruct (rebuild_fields s1) as (R1 & _ & _ & R4)
  end.
  by rewrite R1, R4.
Qed.

Lemma reachable_display files actions :
  let s := run E (__init__ E files) actions in
  combo_values s = filter (λ t, t ≠ "other") (annotation_types s) ∧
  ("other" ∉ combo_values s) ∧
  select_annotation_type "other" s = s.
Proof.
  intros s.
  assert (Hd : combo_values s = filter (λ t, t ≠ "other") (annotation_types s))
    by apply run_display, init_display.
  assert (Hn : "other" ∉ combo_values s).
  { rewrite Hd. intros [Hc _]%list_elem_of_filter. by apply Hc. }
  split; [done|]. split; [done|].
  unfold select_annotation_type. by rewrite decide_False.
Qed.

(** *** What the store records, by content *)






(** After a plain save the group is loaded again: no list of the
    working mapping is a list of the store. *)
Lemma plain_save_separated s :
  Inv s → PyStr.truthy (current_subfolder_name s) = true →
  Separated (_action_save_annotations E false s).2.
Proof.
  intros HI Hn. rewrite plain_save_eq by done.
  eapply (Loaded_Separated E); [apply (Inv_saved_state E s HI)|].
  apply load_Loaded.
  - apply valid_index_saved_state. by apply current_index_valid.
  - apply (inv_store_lt _ (Inv_saved_state E s HI)).
Qed.


(** X1.  In every state that a session reaches from start-up, whatever
    the files found on disk and whatever the sequence of user actions,
    the heap discipline [Inv] holds: every list the working mapping or
    the annotation store refers to has been allocated, two images of
    the working mapping never share one box list, and the name of the
    active group is the subfolder at the current index. *)
Theorem reachable_states_keep_working_lists_apart
    (files : gmap string JsonDoc) (actions : list Action) :
  Inv (run E (__init__ E files) actions).
Proof. apply Inv_run, Inv_init. Qed.


(** X3.  In every state that a session reaches from start-up the
    combobox offers exactly the registry without "other", in registry
    order; "other" is therefore never among the selectable entries and
    picking it changes nothing. *)
Theorem combobox_is_registry_without_other
    (files : gmap string JsonDoc) (actions : list Action) :
  let s := run E (__init__ E files) actions in
  combo_values s = filter (λ t, t ≠ "other") (annotation_types s) ∧
  ("other" ∉ combo_values s) ∧
  select_annotation_type "other" s = s.
Proof. exact (reachable_display files actions). Qed.

End WithEnv.


(** Where the store shares its lists with the working mapping (after
    save-and-next on the last group) an undo changes what the store
    records, although the store holds the same records. *)
Example undo_on_shared_list_changes_store :
  let s := _action_save_and_next env_abc (dirty_C env_abc) in
  let s' := _action_undo_last_bbox s in
  annotations_data s' = annotations_data s ∧
  saved_boxes s "C" "C1.PNG" = [[10; 10; 100; 100]]%Z ∧
  saved_boxes s' "C" "C1.PNG" = [].
Proof. vm_compute. repeat split. Qed.

End Session_facts.

(** ** What a save records *)

Module Persist_facts.
Import Draw_boxes_ Engine_facts Save_facts Init_facts Box_facts Reload_facts
       Roundtrip_facts Store_facts Frame_facts Examples.

Section WithEnv.
Variable E : Env.

Lemma saved_state_progress s :
  progress_data (saved_state E s)
  = Some (if decide (current_subfolder_name s ∈ default [] (progress_data s))
          then default [] (progress_data s)
          else default [] (progress_data s) ++ [current_subfolder_name s]).
Proof. unfold saved_state, _write_json_file. by repeat case_match. Qed.

Lemma saved_state_progress_file s :
  can_write E PROGRESS_FILE = true →
  disk (saved_state E s) !! PROGRESS_FILE
  = Some (DocProgress (progress_data (saved_state E s))).
Proof.
  intros Hw. rewrite saved_state_progress.
  unfold saved_state, _write_json_file. rewrite Hw.
  (destruct (can_write E ANNOTATIONS_FILE);
     [|destruct (write_failure E ANNOTATIONS_FILE).2]);
    app_simpl; by rewrite lookup_insert_eq.
Qed.

Lemma saved_state_annotations_file s :
  can_write E ANNOTATIONS_FILE = true →
  disk (saved_state E s) !! ANNOTATIONS_FILE
  = Some (dump_annotations
            (with_annotations_data
               (<[current_subfolder_name s :=
                    mkSubfolderData (Some (annotation_type_var s))
                                    (current_subfolder_active_annotations s)]>
                  (annotations_data s)) s)).
Proof.
  intros Hw. unfold saved_state, _write_json_file. rewrite Hw.
  (destruct (can_write E PROGRESS_FILE);
     [|destruct (write_failure E PROGRESS_FILE).2]);
    app_simpl; rewrite ?(lookup_insert_ne _ PROGRESS_FILE) by done;
    by rewrite lookup_insert_eq.
Qed.

Lemma saved_state_disk_boxes s g img :
  can_write E ANNOTATIONS_FILE = true →
  disk_boxes (saved_state E s) g img = saved_boxes (saved_state E s) g img.
Proof.
  intros Hw. unfold disk_boxes, saved_boxes.
  rewrite (saved_state_annotations_file s Hw).
  destruct (saved_state_fields E s) as (_ & _ & _ & F4 & _ & _ & _ & _ & F9).
  rewrite F4, F9. unfold dump_annotations. app_simpl.
  rewrite lookup_fmap.
  destruct (_ !! g) as [r|]; [|done]. cbn.
  rewrite lookup_fmap. by destruct (annotations r !! img).
Qed.

Lemma save_name b s :
  Inv s → PyStr.truthy (current_subfolder_name s) = true →
  current_subfolder_name (_action_save_annotations E b s).2 = current_subfolder_name s.
Proof.
  intros HI Hn. rewrite (save_eq E b s Hn). cbn [snd].
  destruct (saved_state_fields E s) as (F1 & F2 & F3 & _).
  destruct b; [done|]. rewrite F2.
  assert (Hv : valid_index (saved_state E s) (current_subfolder_index s)).
  { apply valid_index_saved_state. by apply current_index_valid. }
  pose proof (load_frame E _ _ Hv) as Fr. cbv zeta in Fr.
  destruct Fr as (_ & _ & G3 & _).
  destruct (inv_current s HI Hn) as [_ Hlk].
  rewrite F1, Hlk in G3. by injection G3.
Qed.

Lemma save_progress b s :
  PyStr.truthy (current_subfolder_name s) = true →
  progress_data (_action_save_annotations E b s).2
  = Some (if decide (current_subfolder_name s ∈ default [] (progress_data s))
          then default [] (progress_data s)
          else default [] (progress_data s) ++ [current_subfolder_name s]).
Proof.
  intros Hn. rewrite (save_eq E b s Hn). cbn [snd].
  destruct b; [apply saved_state_progress|].
  destruct (load_keeps E (current_subfolder_index (saved_state E s)) (saved_state E s))
    as (_ & _ & -> & _).
  apply saved_state_progress.
Qed.

Lemma save_marks_completed b b' s :
  Inv s →
  PyStr.truthy (current_subfolder_name s) = true →
  let name := current_subfolder_name s in
  let c := default [] (progress_data s) in
  let s' := (_action_save_annotations E b s).2 in
  let c' := default [] (progress_data s') in
  name ∈ c' ∧
  c' = (if decide (name ∈ c) then c else c ++ [name]) ∧
  (NoDup c → NoDup c') ∧
  (can_write E PROGRESS_FILE = true →
     disk s' !! PROGRESS_FILE = Some (DocProgress (Some c'))) ∧
  progress_data (_action_save_annotations E b' s').2 = progress_data s'.
Proof.
  intros HI Hn name c s' c'.
  assert (Hc' : c' = if decide (name ∈ c) then c else c ++ [name]).
  { subst c' s'. by rewrite save_progress. }
  assert (Hin : name ∈ c').
  { rewrite Hc'. destruct (decide (name ∈ c)); [done|]. set_solver. }
  split; [done|]. split; [done|]. split; [|split].
  - intros Hnd. rewrite Hc'. destruct (decide (name ∈ c)); [done|].
    apply NoDup_app. split; [done|]. split; [|apply NoDup_singleton].
    intros x Hx Hx'. apply list_elem_of_singleton in Hx'. by subst x.
  - intros Hw. subst c' s'. rewrite save_progress by done. cbn [default].
    rewrite (save_eq E b s Hn). cbn [snd].
    pose proof (saved_state_progress_file s Hw) as Hd.
    rewrite saved_state_progress in Hd.
    destruct b; [done|]. by rewrite load_disk.
  - assert (Hn' : current_subfolder_name s' = name) by (by apply save_name).
    rewrite save_progress by (by rewrite Hn').
    rewrite Hn'. fold c'. rewrite decide_True by done.
    subst c' s'. by rewrite save_progress.
Qed.

Lemma save_writes_store b s :
  Inv s →
  PyStr.truthy (current_subfolder_name s) = true →
  let name := current_subfolder_name s in
  let s' := (_action_save_annotations E b s).2 in
  (∀ img, saved_boxes s' name img = boxes s img) ∧
  (∀ g img, g ≠ name → saved_boxes s' g img = saved_boxes s g img) ∧
  (annotations_data s' !! name ≫= type_of_annotation) = Some (annotation_type_var s) ∧
  (can_write E ANNOTATIONS_FILE = true →
     ∀ g img, disk_boxes s' g img = saved_boxes s' g img).
Proof.
  intros HI Hn name s'.
  assert (Hother : ∀ g img, g ≠ name →
            saved_boxes (saved_state E s) g img = saved_boxes s g img).
  { intros g img Hg. unfold saved_boxes.
    destruct (saved_state_fields E s) as (_ & _ & _ & F4 & _ & _ & _ & _ & F9).
    rewrite F4, F9. by rewrite lookup_insert_ne. }
  assert (Hty : (annotations_data (saved_state E s) !! name ≫= type_of_annotation)
                = Some (annotation_type_var s)).
  { destruct (saved_state_fields E s) as (_ & _ & _ & F4 & _).
    rewrite F4. subst name. by rewrite lookup_insert_eq. }
  subst s'. rewrite (save_eq E b s Hn). cbn [snd].
  destruct b.
  - split; [apply saved_boxes_saved_state|]. split; [done|]. split; [done|].
    intros Hw g img. by apply saved_state_disk_boxes.
  - destruct (saved_state_fields E s) as (_ & F2 & _). rewrite F2.
    assert (Hv : valid_index (saved_state E s) (current_subfolder_index s)).
    { apply valid_index_saved_state. by apply current_index_valid. }
    pose proof (load_boxes E _ _ Hv (Inv_saved_state E s HI)) as B. cbv zeta in B.
    destruct B as (_ & _ & B3).
    destruct (load_keeps E (current_subfolder_index s) (saved_state E s))
      as (_ & K2 & _).
    split; [|split; [|split]].
    + intros img. rewrite B3. apply saved_boxes_saved_state.
    + intros g img Hg. rewrite B3. by apply Hother.
    + by rewrite K2.
    + intros Hw g img. rewrite B3.
      rewrite <- (saved_state_disk_boxes s g img Hw).
      unfold disk_boxes. by rewrite load_disk.
Qed.

Lemma save_and_next_loads_next s :
  Inv s →
  PyStr.truthy (current_subfolder_name s) = true →
  valid_index s (current_subfolder_index s + 1) →
  let name := current_subfolder_name s in
  let s' := _action_save_and_next E s in
  current_subfolder_index s' = (current_subfolder_index s + 1)%Z ∧
  subfolders s !! Z.to_nat (current_subfolder_index s + 1)
    = Some (current_subfolder_name s') ∧
  (∀ img, saved_boxes s' name img = boxes s img) ∧
  name ∈ default [] (progress_data s') ∧
  (∀ img, loaded E (current_subfolder_name s') img →
          boxes s' img = saved_boxes s' (current_subfolder_name s') img) ∧
  (∀ img, ¬ loaded E (current_subfolder_name s') img → boxes s' img = []) ∧
  Separated s' ∧
  undo_stack s' = [] ∧
  unsaved_changes s' = false.
Proof.
  intros HI Hn Hv name s'. subst s'. rewrite save_and_next_eq by done.
  pose proof (Inv_saved_state E s HI) as HIs.
  apply (valid_index_saved_state E) in Hv.
  destruct (saved_state_fields E s) as (F1 & _).
  pose proof (saved_boxes_saved_state E s) as Hsb.
  pose proof (saved_state_progress s) as Hp.
  pose proof (load_boxes E _ _ Hv HIs) as B. cbv zeta in B.
  pose proof (load_frame E _ _ Hv) as Fr. cbv zeta in Fr.
  pose proof (load_Loaded E _ _ Hv (inv_store_lt _ HIs)) as L.
  apply (Loaded_Separated E _ _ _ HIs) in L.
  generalize dependent (_load_subfolder_by_index E (current_subfolder_index s + 1)
                          (saved_state E s)).
  intros s' (B1 & B2 & B3) Fr L.
  destruct Fr as (_ & G2 & G3 & _ & G5 & _ & _ & _ & _ & _ & G11 & G12 & _).
  rewrite F1 in G3.
  split; [done|]. split; [done|]. split; [|split; [|split; [|split]]].
  - intros img. by rewrite B3.
  - rewrite G5, Hp. cbn [default]. fold name.
    destruct (decide (name ∈ _)); [done|]. set_solver.
  - intros img Hl. by rewrite B1, B3.
  - done.
  - done.
Qed.

End WithEnv.

(** X4.  A save of the loaded group records the group as completed: its
    name is in the completed list afterwards, the list is the old one
    with the name appended when it was missing (so a list without
    duplicates stays one), the progress file holds that list when it can
    be written, and saving the same group again does not change the
    list. *)
Theorem save_marks_group_completed_once
    (E : Env) (called_from_next again : bool) (s : App) :
  Inv s →
  PyStr.truthy (current_subfolder_name s) = true →
  let name := current_subfolder_name s in
  let c := default [] (progress_data s) in
  let s' := (_action_save_annotations E called_from_next s).2 in
  let c' := default [] (progress_data s') in
  name ∈ c' ∧
  c' = (if decide (name ∈ c) then c else c ++ [name]) ∧
  (NoDup c → NoDup c') ∧
  (can_write E PROGRESS_FILE = true →
     disk s' !! PROGRESS_FILE = Some (DocProgress (Some c'))) ∧
  progress_data (_action_save_annotations E again s').2 = progress_data s'.
Proof. exact (save_marks_completed E called_from_next again s). Qed.

Lemma save_marks_group_completed_once_witness :
  Inv (dirty_B env_abc) ∧
  PyStr.truthy (current_subfolder_name (dirty_B env_abc)) = true ∧
  let s' := (_action_save_annotations env_abc false (dirty_B env_abc)).2 in
  default [] (progress_data (dirty_B env_abc)) = ["A"] ∧
  default [] (progress_data s') = ["A"; "B"] ∧
  disk s' !! PROGRESS_FILE = Some (DocProgress (Some ["A"; "B"])) ∧
  progress_data (_action_save_annotations env_abc true s').2 = progress_data s'.
Proof.
  assert (HI : Inv (dirty_B env_abc)) by apply Inv_run, Init_facts.Inv_init.
  split; [exact HI|]. split; [reflexivity|].
  pose proof (save_marks_group_completed_once env_abc false true (dirty_B env_abc)
                HI eq_refl) as H.
  cbv zeta in H. destruct H as (_ & H2 & _ & H4 & H5).
  split; [reflexivity|]. split; [exact H2|]. split; [|exact H5].
  rewrite (H4 eq_refl). rewrite H2. reflexivity.
Defined.

(** X5.  After a save of the loaded group the in-memory store records,
    for that group, exactly the box lists of the working mapping and the
    selected category, the records of the other groups are as before,
    and, when the annotation file can be written, the file holds for
    every group and image the same box list as the in-memory store. *)
Theorem save_writes_the_store_to_disk (E : Env) (called_from_next : bool) (s : App) :
  Inv s →
  PyStr.truthy (current_subfolder_name s) = true →
  let name := current_subfolder_name s in
  let s' := (_action_save_annotations E called_from_next s).2 in
  (∀ img, saved_boxes s' name img = boxes s img) ∧
  (∀ g img, g ≠ name → saved_boxes s' g img = saved_boxes s g img) ∧
  (annotations_data s' !! name ≫= type_of_annotation) = Some (annotation_type_var s) ∧
  (can_write E ANNOTATIONS_FILE = true →
     ∀ g img, disk_boxes s' g img = saved_boxes s' g img).
Proof. exact (save_writes_store E called_from_next s). Qed.

Lemma save_writes_the_store_to_disk_witness :
  Inv (dirty_B env_abc) ∧
  PyStr.truthy (current_subfolder_name (dirty_B env_abc)) = true ∧
  let s' := (_action_save_annotations env_abc false (dirty_B env_abc)).2 in
  boxes (dirty_B env_abc) "B1.PNG" = [[10; 10; 100; 100]%Z] ∧
  saved_boxes s' "B" "B1.PNG" = [[10; 10; 100; 100]%Z] ∧
  disk_boxes s' "B" "B1.PNG" = [[10; 10; 100; 100]%Z].
Proof.
  assert (HI : Inv (dirty_B env_abc)) by apply Inv_run, Init_facts.Inv_init.
  split; [exact HI|]. split; [reflexivity|].
  pose proof (save_writes_the_store_to_disk env_abc false (dirty_B env_abc)
                HI eq_refl) as H.
  cbv zeta in H. destruct H as (H1 & _ & _ & H4).
  assert (Hb : boxes (dirty_B env_abc) "B1.PNG" = [[10; 10; 100; 100]%Z])
    by (vm_compute; reflexivity).
  split; [exact Hb|].
  assert (Hs : saved_boxes (_action_save_annotations env_abc false (dirty_B env_abc)).2
                 "B" "B1.PNG" = [[10; 10; 100; 100]%Z]).
  { rewrite <- Hb. apply (H1 "B1.PNG"). }
  split; [exact Hs|].
  rewrite <- Hs. apply (H4 eq_refl).
Defined.

(** X6.  Save-and-next on a group that is not the last one saves the
    group and loads the next one: the active group becomes the subfolder
    at the next index, the store records the box lists the saved group
    had, the saved group is in the completed list, every displayed image
    of the new group shows the boxes the store records for it (no image
    that is not displayed has any), the working lists share nothing with
    the store, the undo stack is empty and nothing is unsaved. *)
Theorem save_and_next_saves_and_loads_next_group (E : Env) (s : App) :
  Inv s →
  PyStr.truthy (current_subfolder_name s) = true →
  valid_index s (current_subfolder_index s + 1) →
  let name := current_subfolder_name s in
  let s' := _action_save_and_next E s in
  current_subfolder_index s' = (current_subfolder_index s + 1)%Z ∧
  subfolders s !! Z.to_nat (current_subfolder_index s + 1)
    = Some (current_subfolder_name s') ∧
  (∀ img, saved_boxes s' name img = boxes s img) ∧
  name ∈ default [] (progress_data s') ∧
  (∀ img, loaded E (current_subfolder_name s') img →
          boxes s' img = saved_boxes s' (current_subfolder_name s') img) ∧
  (∀ img, ¬ loaded E (current_subfolder_name s') img → boxes s' img = []) ∧
  Separated s' ∧
  undo_stack s' = [] ∧
  unsaved_changes s' = false.
Proof. exact (save_and_next_loads_next E s). Qed.

Lemma save_and_next_saves_and_loads_next_group_witness :
  Inv (dirty_B env_abc) ∧
  PyStr.truthy (current_subfolder_name (dirty_B env_abc)) = true ∧
  valid_index (dirty_B env_abc) (current_subfolder_index (dirty_B env_abc) + 1) ∧
  let s' := _action_save_and_next env_abc (dirty_B env_abc) in
  current_subfolder_index s' = 2%Z ∧
  current_subfolder_name s' = "C" ∧
  saved_boxes s' "B" "B1.PNG" = [[10; 10; 100; 100]%Z] ∧
  undo_stack s' = [].
Proof.
  assert (HI : Inv (dirty_B env_abc)) by apply Inv_run, Init_facts.Inv_init.
  assert (Hv : valid_index (dirty_B env_abc)
                 (current_subfolder_index (dirty_B env_abc) + 1))
    by (vm_compute; split; [discriminate | reflexivity]).
  split; [exact HI|]. split; [reflexivity|]. split; [exact Hv|].
  pose proof (save_and_next_saves_and_loads_next_group env_abc (dirty_B env_abc)
                HI eq_refl Hv) as H.
  cbv zeta in H. destruct H as (H1 & _ & H3 & _ & _ & _ & _ & H8 & _).
  split; [exact H1|]. split; [|split; [|exact H8]].
  - vm_compute. reflexivity.
  - transitivity (boxes (dirty_B env_abc) "B1.PNG");
      [exact (H3 "B1.PNG") | vm_compute; reflexivity].
Defined.

(** X7.  After a plain save the store is independent of the working
    lists: whatever boxes are then drawn or undone, the store keeps for
    the saved group the box lists it had at the save. *)
Theorem plain_save_makes_store_independent_of_later_edits
    (E : Env) (s : App) (actions : list Action) :
  Inv s →
  PyStr.truthy (current_subfolder_name s) = true →
  Forall is_mutation actions →
  let s1 := (_action_save_annotations E false s).2 in
  ∀ img, saved_boxes (run E s1 actions) (current_subfolder_name s) img = boxes s img.
Proof. exact (plain_save_isolates_store E s actions). Qed.

Lemma plain_save_makes_store_independent_of_later_edits_witness :
  Inv (dirty_B env_abc) ∧
  PyStr.truthy (current_subfolder_name (dirty_B env_abc)) = true ∧
  Forall is_mutation (draw 0 20 20 200 200 ++ [Undo; Undo]) ∧
  let s1 := (_action_save_annotations env_abc false (dirty_B env_abc)).2 in
  saved_boxes (run env_abc s1 (draw 0 20 20 200 200 ++ [Undo; Undo])) "B" "B1.PNG"
  = [[10; 10; 100; 100]%Z].
Proof.
  assert (HI : Inv (dirty_B env_abc)) by apply Inv_run, Init_facts.Inv_init.
  assert (Hm : Forall is_mutation (draw 0 20 20 200 200 ++ [Undo; Undo]))
    by (repeat constructor).
  split; [exact HI|]. split; [reflexivity|]. split; [exact Hm|].
  cbv zeta.
  transitivity (boxes (dirty_B env_abc) "B1.PNG"); [|vm_compute; reflexivity].
  exact (plain_save_makes_store_independent_of_later_edits env_abc (dirty_B env_abc)
           _ HI eq_refl Hm "B1.PNG").
Defined.

End Persist_facts.

(** ** Clearing the boxes of the active group *)

Module Clear_facts.
Import Draw_boxes_ Engine_facts Save_facts Init_facts Box_facts Reload_facts
       Roundtrip_facts Frame_facts Examples.

Section WithEnv.
Variable E : Env.

Lemma clear_reverts_to_store s :
  Inv s →
  valid_index s (current_subfolder_index s) →
  let s' := _action_clear_current_annotations E true s in
  let name := current_subfolder_name s' in
  subfolders s !! Z.to_nat (current_subfolder_index s) = Some name ∧
  current_subfolder_index s' = current_subfolder_index s ∧
  (∀ img, loaded E name img → boxes s' img = saved_boxes s name img) ∧
  (∀ img, ¬ loaded E name img → boxes s' img = []) ∧
  (∀ g img, saved_boxes s' g img = saved_boxes s g img) ∧
  undo_stack s' = [] ∧
  unsaved_changes s' = true.
Proof.
  intros HI Hv s' name. subst name s'. unfold _action_clear_current_annotations.
  set (s0 := askyesno "Confirm Clear" "Clear all boxes for this subfolder?" true s).
  assert (HI0 : Inv s0) by (by destruct HI).
  match goal with
  | |- context [foldl ?f s0 ?imgs] =>
      pose proof (Inv_clear_allocs imgs s0 HI0) as HI1;
      pose proof (clear_allocs_fields imgs s0) as F; cbv zeta in F;
      generalize dependent (foldl f s0 imgs)
  end.
  intros s1 HI1 F.
  destruct F as (F1 & F2 & _ & F4 & _ & _ & _ & _ & _ & _ & _ & _ & F13 & F14).
  change (subfolders s0) with (subfolders s) in F1.
  change (current_subfolder_index s0) with (current_subfolder_index s) in F2.
  change (annotations_data s0) with (annotations_data s) in F4.
  change (heap s0) with (heap s) in F13, F14.
  clear HI0. clearbody s0. clear s0.
  assert (Hsb : ∀ g img, saved_boxes s1 g img = saved_boxes s g img).
  { intros g img. unfold saved_boxes. rewrite F4.
    destruct (annotations_data s !! g) as [r|] eqn:Hg; [|done].
    destruct (annotations r !! img) as [l|] eqn:Hl; [|done].
    apply F14. by apply (inv_store_lt s HI g r img). }
  assert (Hv1 : valid_index s1 (current_subfolder_index s1)).
  { unfold valid_index in *. by rewrite F1, F2. }
  pose proof (load_boxes E _ s1 Hv1 HI1) as B. cbv zeta in B.
  pose proof (load_frame E _ s1 Hv1) as Fr. cbv zeta in Fr.
  generalize dependent (_load_subfolder_by_index E (current_subfolder_index s1) s1).
  intros s2 (B1 & B2 & B3) Fr.
  destruct Fr as (_ & G2 & G3 & _ & _ & _ & _ & _ & _ & _ & G11 & _).
  rewrite F1, F2 in G3. rewrite F2 in G2.
  change (current_subfolder_name (with_unsaved_changes true s2))
    with (current_subfolder_name s2).
  change (current_subfolder_index (with_unsaved_changes true s2))
    with (current_subfolder_index s2).
  split; [done|]. split; [done|]. split; [|split; [|split]].
  - intros img Hl. rewrite <- Hsb, <- B1 by done. done.
  - intros img Hl. by rewrite <- (B2 img Hl).
  - intros g img. rewrite <- Hsb, <- B3. done.
  - done.
Qed.

End WithEnv.

(** X8.  "Clear Current" of [draw_boxes_.py], once confirmed, empties
    the working lists and then reloads the group from the in-memory
    store: afterwards every displayed image shows the boxes the store
    records for it (none for a group that was never saved), the boxes
    drawn since the last save are gone, the store itself is unchanged,
    the undo stack is empty and the session is marked as having unsaved
    changes.  Declining the confirmation changes nothing but the dialog
    log. *)
Theorem clear_reverts_to_the_stored_boxes (E : Env) (s : App) :
  Inv s →
  valid_index s (current_subfolder_index s) →
  let s' := _action_clear_current_annotations E true s in
  let name := current_subfolder_name s' in
  (subfolders s !! Z.to_nat (current_subfolder_index s) = Some name ∧
   current_subfolder_index s' = current_subfolder_index s ∧
   (∀ img, loaded E name img → boxes s' img = saved_boxes s name img) ∧
   (∀ img, ¬ loaded E name img → boxes s' img = []) ∧
   (∀ g img, saved_boxes s' g img = saved_boxes s g img) ∧
   undo_stack s' = [] ∧
   unsaved_changes s' = true) ∧
  _action_clear_current_annotations E false s
  = askyesno "Confirm Clear" "Clear all boxes for this subfolder?" false s.
Proof.
  intros HI Hv. split; [exact (clear_reverts_to_store E s HI Hv) | reflexivity].
Qed.

Lemma clear_reverts_to_the_stored_boxes_witness :
  let s := saved_B_then_drawn env_abc in
  let s' := _action_clear_current_annotations env_abc true s in
  Inv s ∧
  valid_index s (current_subfolder_index s) ∧
  boxes s "B1.PNG" = [[10; 10; 100; 100]; [20; 20; 200; 200]]%Z ∧
  boxes s "B2.png" = [[30; 30; 300; 300]]%Z ∧
  saved_boxes s "B" "B1.PNG" = [[10; 10; 100; 100]]%Z ∧
  boxes s' "B1.PNG" = [[10; 10; 100; 100]]%Z ∧
  boxes s' "B2.png" = [] ∧
  unsaved_changes s' = true.
Proof.
  intros s s'.
  assert (HI : Inv s) by (apply Inv_run, Inv_run, Init_facts.Inv_init).
  assert (Hv : valid_index s (current_subfolder_index s))
    by (vm_compute; split; [discriminate | reflexivity]).
  split; [exact HI|]. split; [exact Hv|].
  pose proof (clear_reverts_to_the_stored_boxes env_abc s HI Hv) as H.
  cbv zeta in H. destruct H as ((_ & _ & _ & _ & _ & _ & H7) & _).
  split; [vm_compute; reflexivity|]. split; [vm_compute; reflexivity|].
  split; [vm_compute; reflexivity|]. split; [vm_compute; reflexivity|].
  split; [vm_compute; reflexivity|]. exact H7.
Defined.

(** *** The older program *)

Lemma clear_slot_names s i :
  Draw_boxes.current_image_names (Draw_boxes.clear_slot s i)
  = Draw_boxes.current_image_names s
  ∧ Draw_boxes.annotations_data (Draw_boxes.clear_slot s i) = Draw_boxes.annotations_data s
  ∧ Draw_boxes.unsaved_changes (Draw_boxes.clear_slot s i) = Draw_boxes.unsaved_changes s
  ∧ Draw_boxes.dialogs (Draw_boxes.clear_slot s i) = Draw_boxes.dialogs s
  ∧ Draw_boxes.current_subfolder_name (Draw_boxes.clear_slot s i)
    = Draw_boxes.current_subfolder_name s
  ∧ Draw_boxes.current_subfolder_index (Draw_boxes.clear_slot s i)
    = Draw_boxes.current_subfolder_index s.
Proof. unfold Draw_boxes.clear_slot. by repeat case_match. Qed.

(** An image whose list is empty and allocated stays so when a slot is
    cleared. *)
Lemma clear_slot_keeps_empty s i img :
  Draw_boxes.boxes s img = [] →
  (∀ l, Draw_boxes.current_subfolder_active_annotations s !! img = Some l →
        (l < next_loc (Draw_boxes.heap s))%nat) →
  Draw_boxes.boxes (Draw_boxes.clear_slot s i) img = [] ∧
  (∀ l, Draw_boxes.current_subfolder_active_annotations (Draw_boxes.clear_slot s i) !! img
        = Some l →
        (l < next_loc (Draw_boxes.heap (Draw_boxes.clear_slot s i)))%nat).
Proof.
  intros Hb Hl. unfold Draw_boxes.clear_slot.
  destruct (Draw_boxes.current_image_names s !! i) as [[img'|]|]; [|done|done].
  destruct (PyStr.truthy img'); [|done].
  set (s1 := match Draw_boxes.drawn_bbox_ids_on_canvas s !! img' with
             | Some _ => _ | None => s end).
  assert (Hw : Draw_boxes.current_subfolder_active_annotations s1
               = Draw_boxes.current_subfolder_active_annotations s)
    by (subst s1; by case_match).
  assert (Hh : Draw_boxes.heap s1 = Draw_boxes.heap s) by (subst s1; by case_match).
  clearbody s1.
  destruct (Draw_boxes.current_subfolder_active_annotations s1 !! img') as [l'|] eqn:Hk.
  - unfold Draw_boxes.boxes in *. cbn. rewrite Hw, Hh.
    destruct (decide (img = img')) as [->|Hne].
    + rewrite lookup_insert_eq. split.
      * unfold deref. cbn. by rewrite lookup_insert_eq.
      * intros l Hl'. injection Hl' as <-. lia.
    + rewrite lookup_insert_ne by done. split.
      * destruct (Draw_boxes.current_subfolder_active_annotations s !! img) as [l|] eqn:Hi;
          [|done].
        specialize (Hl l eq_refl). unfold deref in *. cbn.
        rewrite lookup_insert_ne by lia. done.
      * intros l Hl'. specialize (Hl l Hl'). lia.
  - unfold Draw_boxes.boxes in *. rewrite Hw, Hh. done.
Qed.

Lemma clear_slot_empties s i img :
  Draw_boxes.current_image_names s !! i = Some (Some img) →
  PyStr.truthy img = true →
  Draw_boxes.boxes (Draw_boxes.clear_slot s i) img = [] ∧
  (∀ l, Draw_boxes.current_subfolder_active_annotations (Draw_boxes.clear_slot s i) !! img
        = Some l →
        (l < next_loc (Draw_boxes.heap (Draw_boxes.clear_slot s i)))%nat).
Proof.
  intros Hn Ht. unfold Draw_boxes.clear_slot. rewrite Hn, Ht.
  set (s1 := match Draw_boxes.drawn_bbox_ids_on_canvas s !! img with
             | Some _ => _ | None => s end).
  destruct (Draw_boxes.current_subfolder_active_annotations s1 !! img) as [l'|] eqn:Hk.
  - unfold Draw_boxes.boxes. cbn. rewrite lookup_insert_eq. split.
    + unfold deref. cbn. by rewrite lookup_insert_eq.
    + intros l Hl'. injection Hl' as <-. lia.
  - unfold Draw_boxes.boxes. rewrite Hk. split; [done|]. intros l Hl. discriminate.
Qed.

Lemma clear_slots_empty (idxs : list nat) : ∀ s i img,
  i ∈ idxs →
  Draw_boxes.current_image_names s !! i = Some (Some img) →
  PyStr.truthy img = true →
  Draw_boxes.boxes (foldl Draw_boxes.clear_slot s idxs) img = [].
Proof.
  assert (Hkeep : ∀ idxs s img,
            Draw_boxes.boxes s img = [] →
            (∀ l, Draw_boxes.current_subfolder_active_annotations s !! img = Some l →
                  (l < next_loc (Draw_boxes.heap s))%nat) →
            Draw_boxes.boxes (foldl Draw_boxes.clear_slot s idxs) img = []).
  { clear idxs. induction idxs as [|j idxs IH]; intros s img Hb Hl; cbn [foldl]; [done|].
    destruct (clear_slot_keeps_empty s j img Hb Hl) as [Hb' Hl']. by apply IH. }
  induction idxs as [|j idxs IH]; intros s i img Hi Hn Ht; cbn [foldl].
  { by apply elem_of_nil in Hi. }
  apply elem_of_cons in Hi as [->|Hi].
  - destruct (clear_slot_empties s j img Hn Ht) as [Hb Hl]. by apply Hkeep.
  - apply (IH _ i); [done| |done].
    destruct (clear_slot_names s j) as (-> & _). done.
Qed.

Lemma clear_slots_fields (idxs : list nat) : ∀ s,
  Draw_boxes.current_image_names (foldl Draw_boxes.clear_slot s idxs)
  = Draw_boxes.current_image_names s
  ∧ Draw_boxes.annotations_data (foldl Draw_boxes.clear_slot s idxs)
    = Draw_boxes.annotations_data s
  ∧ Draw_boxes.dialogs (foldl Draw_boxes.clear_slot s idxs) = Draw_boxes.dialogs s
  ∧ Draw_boxes.current_subfolder_name (foldl Draw_boxes.clear_slot s idxs)
    = Draw_boxes.current_subfolder_name s
  ∧ Draw_boxes.current_subfolder_index (foldl Draw_boxes.clear_slot s idxs)
    = Draw_boxes.current_subfolder_index s.
Proof.
  induction idxs as [|j idxs IH]; intros s; cbn [foldl]; [done|].
  destruct (IH (Draw_boxes.clear_slot s j)) as (-> & -> & -> & -> & ->).
  by destruct (clear_slot_names s j) as (-> & -> & _ & -> & -> & ->).
Qed.

Lemma older_clear_empties (yes : bool) (s : Draw_boxes.App) :
  let s' := Draw_boxes._action_clear_current_annotations yes s in
  let question :=
    AskYesNo "Confirm Clear"
      ("Are you sure you want to clear all annotations for subfolder '"
       +:+ Draw_boxes.current_subfolder_name s
       +:+ "'? This action cannot be undone until next save.") yes in
  (PyStr.truthy (Draw_boxes.current_subfolder_name s) = false
   ∨ Draw_boxes.is_anything_to_clear s = false → s' = s) ∧
  (PyStr.truthy (Draw_boxes.current_subfolder_name s) = true →
   Draw_boxes.is_anything_to_clear s = true →
   Draw_boxes.dialogs s' = Draw_boxes.dialogs s ++ [question] ∧
   (yes = false → s' = Draw_boxes.with_dialogs (Draw_boxes.dialogs s') s) ∧
   (yes = true →
      (∀ i img, (i < 4)%nat →
         Draw_boxes.current_image_names s !! i = Some (Some img) →
         PyStr.truthy img = true → Draw_boxes.boxes s' img = []) ∧
      Draw_boxes.unsaved_changes s' = true ∧
      Draw_boxes.current_image_names s' = Draw_boxes.current_image_names s ∧
      Draw_boxes.annotations_data s' = Draw_boxes.annotations_data s ∧
      Draw_boxes.current_subfolder_name s' = Draw_boxes.current_subfolder_name s ∧
      Draw_boxes.current_subfolder_index s' = Draw_boxes.current_subfolder_index s)).
Proof.
  intros s' question. subst s'. unfold Draw_boxes._action_clear_current_annotations.
  split.
  - intros [Hn|Hc]; [by rewrite Hn|].
    destruct (negb (PyStr.truthy _)); [done|]. by rewrite Hc.
  - intros Hn Hc. rewrite Hn, Hc. cbn [negb].
    set (s0 := Draw_boxes.askyesno _ _ yes s).
    destruct yes.
    + destruct (clear_slots_fields (seq 0 4) s0) as (K1 & K2 & K3 & K4 & K5).
      pose proof (λ i img, clear_slots_empty (seq 0 4) s0 i img) as Hb.
      generalize dependent (foldl Draw_boxes.clear_slot s0 (seq 0 4)).
      intros s1 K1 K2 K3 K4 K5 Hb.
      cbn [Draw_boxes.dialogs Draw_boxes.unsaved_changes Draw_boxes.current_image_names
           Draw_boxes.annotations_data Draw_boxes.current_subfolder_name
           Draw_boxes.current_subfolder_index Draw_boxes.with_unsaved_changes].
      split; [by rewrite K3|]. split; [done|].
      intros _. split; [|by rewrite K1, K2, K4, K5].
      intros i img Hi Hnm Ht.
      change (Draw_boxes.boxes s1 img = []).
      apply (Hb i); [|done|done].
      apply elem_of_seq. lia.
    + split; [done|]. split; [done|]. intros Hf. discriminate.
Qed.

(** X9.  "Clear Current" of the older program [draw_boxes.py] returns at
    once, without any dialog, when no group is loaded or when no
    displayed image has a box or a rectangle; otherwise it asks for
    confirmation and, when confirmed, gives every displayed image an
    empty box list, sets the unsaved flag and leaves the displayed
    images, the active group and the in-memory store as they are; when
    declined, only the dialog log changes. *)
Theorem older_clear_empties_displayed_images (yes : bool) (s : Draw_boxes.App) :
  let s' := Draw_boxes._action_clear_current_annotations yes s in
  let question :=
    AskYesNo "Confirm Clear"
      ("Are you sure you want to clear all annotations for subfolder '"
       +:+ Draw_boxes.current_subfolder_name s
       +:+ "'? This action cannot be undone until next save.") yes in
  (PyStr.truthy (Draw_boxes.current_subfolder_name s) = false
   ∨ Draw_boxes.is_anything_to_clear s = false → s' = s) ∧
  (PyStr.truthy (Draw_boxes.current_subfolder_name s) = true →
   Draw_boxes.is_anything_to_clear s = true →
   Draw_boxes.dialogs s' = Draw_boxes.dialogs s ++ [question] ∧
   (yes = false → s' = Draw_boxes.with_dialogs (Draw_boxes.dialogs s') s) ∧
   (yes = true →
      (∀ i img, (i < 4)%nat →
         Draw_boxes.current_image_names s !! i = Some (Some img) →
         PyStr.truthy img = true → Draw_boxes.boxes s' img = []) ∧
      Draw_boxes.unsaved_changes s' = true ∧
      Draw_boxes.current_image_names s' = Draw_boxes.current_image_names s ∧
      Draw_boxes.annotations_data s' = Draw_boxes.annotations_data s ∧
      Draw_boxes.current_subfolder_name s' = Draw_boxes.current_subfolder_name s ∧
      Draw_boxes.current_subfolder_index s' = Draw_boxes.current_subfolder_index s)).
Proof. exact (older_clear_empties yes s). Qed.

(** The older program on group A with one box drawn: the box is gone
    after a confirmed clear. *)
Example older_clear_on_dirty_A :
  Draw_boxes.boxes older_dirty_A "A1.PNG" = [[10; 10; 100; 100]]%Z ∧
  Draw_boxes.is_anything_to_clear older_dirty_A = true ∧
  Draw_boxes.boxes (Draw_boxes._action_clear_current_annotations true older_dirty_A)
                   "A1.PNG" = [].
Proof. vm_compute. repeat split. Qed.

End Clear_facts.

(** ** What a group load shows *)

Module Display_facts.
Import Draw_boxes_ Engine_facts Save_facts Init_facts Box_facts Reload_facts
       Roundtrip_facts Frame_facts Examples.

Section WithEnv.
Variable E : Env.

Lemma load_image_canvas_other name data files s i j :
  i ≠ j →
  canvas_drawing_state (load_image E name data files s i) !! j
  = canvas_drawing_state s !! j.
Proof.
  intros Hne. unfold load_image.
  destruct (files !! i) as [img'|]; [|done].
  destruct (image_loads E name img'); [|done]. simpl.
  by rewrite list_lookup_insert_ne.
Qed.

Lemma load_image_canvas_same name data s i :
  canvas_drawing_state (load_image E name data (image_files E name) s i) !! i
  = match slot_name E name i with
    | Some img => (λ _, mkDrawState (Some img) 0 0 None) <$> canvas_drawing_state s !! i
    | None => canvas_drawing_state s !! i
    end.
Proof.
  unfold load_image, slot_name.
  destruct (image_files E name !! i) as [img|]; [|done].
  destruct (image_loads E name img); [|done]. simpl.
  destruct (canvas_drawing_state s !! i) as [st|] eqn:Hs.
  - apply lookup_lt_Some in Hs. by rewrite list_lookup_insert_eq.
  - apply lookup_ge_None in Hs. by rewrite list_insert_ge, (proj2 (lookup_ge_None _ _)).
Qed.

Lemma foldl_load_image_canvas_other name data files idxs : ∀ s j,
  j ∉ idxs →
  canvas_drawing_state (foldl (load_image E name data files) s idxs) !! j
  = canvas_drawing_state s !! j.
Proof.
  induction idxs as [|i idxs IH]; intros s j Hj; cbn [foldl]; [done|].
  apply not_elem_of_cons in Hj as [Hne Hj].
  rewrite IH by done. by apply load_image_canvas_other.
Qed.

Lemma foldl_load_image_canvas name data idxs : ∀ s j,
  NoDup idxs → j ∈ idxs →
  canvas_drawing_state (foldl (load_image E name data (image_files E name)) s idxs) !! j
  = match slot_name E name j with
    | Some img => (λ _, mkDrawState (Some img) 0 0 None) <$> canvas_drawing_state s !! j
    | None => canvas_drawing_state s !! j
    end.
Proof.
  induction idxs as [|i idxs IH]; intros s j Hnd Hj; cbn [foldl].
  { by apply elem_of_nil in Hj. }
  apply NoDup_cons in Hnd as [Hi Hnd].
  destruct (decide (j = i)) as [->|Hne].
  - rewrite foldl_load_image_canvas_other by done. apply load_image_canvas_same.
  - rewrite IH; [|done|by apply elem_of_cons in Hj as [?|?]].
    by rewrite load_image_canvas_other.
Qed.

Lemma load_start_canvas idx name s :
  canvas_drawing_state (load_start idx name s) = canvas_drawing_state s.
Proof. reflexivity. Qed.

Lemma load_canvas_state_named idx name s :
  valid_index s idx →
  subfolders s !! Z.to_nat idx = Some name →
  (∀ i, (i < 4)%nat →
     canvas_drawing_state (_load_subfolder_by_index E idx s) !! i
     = match slot_name E name i with
       | Some img => (λ _, mkDrawState (Some img) 0 0 None) <$> canvas_drawing_state s !! i
       | None => canvas_drawing_state s !! i
       end) ∧
  (∀ i, (4 ≤ i)%nat →
     canvas_drawing_state (_load_subfolder_by_index E idx s) !! i
     = canvas_drawing_state s !! i).
Proof.
  intros Hv Hname.
  rewrite (load_valid_eq E idx name s Hv Hname).
  set (data := default (mkSubfolderData None ∅) (annotations_data s !! name)).
  set (g := load_image E name data (image_files E name)).
  set (s1 := load_start idx name s).
  assert (A : ∀ i, (i < 4)%nat →
            canvas_drawing_state (foldl g s1 (seq 0 4)) !! i
            = match slot_name E name i with
              | Some img =>
                  (λ _, mkDrawState (Some img) 0 0 None) <$> canvas_drawing_state s !! i
              | None => canvas_drawing_state s !! i
              end).
  { intros i Hi. apply (foldl_load_image_canvas name data (seq 0 4) s1).
    - apply NoDup_seq.
    - apply elem_of_seq. lia. }
  assert (B : ∀ i, (4 ≤ i)%nat →
            canvas_drawing_state (foldl g s1 (seq 0 4)) !! i
            = canvas_drawing_state s !! i).
  { intros i Hi.
    apply (foldl_load_image_canvas_other name data (image_files E name) (seq 0 4) s1).
    rewrite elem_of_seq. lia. }
  generalize dependent (foldl g s1 (seq 0 4)). intros sf A B.
  split; [exact A | exact B].
Qed.

Lemma load_canvas_state idx s :
  valid_index s idx →
  let s' := _load_subfolder_by_index E idx s in
  let name := current_subfolder_name s' in
  (∀ i, (i < 4)%nat →
     canvas_drawing_state s' !! i
     = match slot_name E name i with
       | Some img => (λ _, mkDrawState (Some img) 0 0 None) <$> canvas_drawing_state s !! i
       | None => canvas_drawing_state s !! i
       end) ∧
  (∀ i, (4 ≤ i)%nat → canvas_drawing_state s' !! i = canvas_drawing_state s !! i).
Proof.
  intros Hv s' name. subst name s'.
  destruct (valid_index_lookup s idx Hv) as [name Hname].
  pose proof (load_frame E idx s Hv) as Fr. cbv zeta in Fr.
  destruct Fr as (_ & _ & G3 & _).
  pose proof (load_canvas_state_named idx name s Hv Hname) as C.
  generalize dependent (_load_subfolder_by_index E idx s). intros s' G3 C.
  rewrite Hname in G3. injection G3 as G3. by rewrite <- G3.
Qed.

Lemma image_files_spec name :
  Sorted String.le (image_files E name) ∧
  ∀ f, f ∈ image_files E name ↔
       f ∈ listdir_files E name ∧
       (endswith (PyStr.lower f) ".png" || endswith (PyStr.lower f) ".jpg"
        || endswith (PyStr.lower f) ".jpeg") = true.
Proof.
  unfold image_files, PyStr.sorted. split.
  - apply Sorted_merge_sort. intros x y. apply String.le_total.
  - intros f. rewrite merge_sort_Permutation.
    rewrite list_elem_of_In, filter_In, <- list_elem_of_In. done.
Qed.

Lemma load_shows s idx :
  Inv s → valid_index s idx →
  let s' := _load_subfolder_by_index E idx s in
  let name := current_subfolder_name s' in
  subfolders s !! Z.to_nat idx = Some name ∧
  (∀ i, (i < 4)%nat → current_image_names s' !! i = Some (slot_name E name i)) ∧
  (∀ img, is_Some (current_subfolder_active_annotations s' !! img) ↔ loaded E name img) ∧
  (∀ img, loaded E name img →
     img ∈ listdir_files E name ∧
     (endswith (PyStr.lower img) ".png" || endswith (PyStr.lower img) ".jpg"
      || endswith (PyStr.lower img) ".jpeg") = true) ∧
  Separated s'.
Proof.
  intros HI Hv s' name. subst name s'.
  pose proof (load_Loaded E idx s Hv (inv_store_lt s HI)) as L.
  pose proof (Loaded_Separated E idx s _ HI L) as Hsep.
  generalize dependent (_load_subfolder_by_index E idx s). intros s' L Hsep.
  split; [apply (ld_name _ _ _ _ L)|].
  split; [apply (ld_names _ _ _ _ L)|].
  split; [|split; [|done]].
  - intros img. split.
    + intros [l Hl]. by apply (ld_active _ _ _ _ L img l).
    + apply (ld_present _ _ _ _ L).
  - intros img (i & _ & Hi & _).
    apply (image_files_spec (current_subfolder_name s')).
    by eapply list_elem_of_lookup_2.
Qed.

End WithEnv.

(** X10.  A group load of [draw_boxes_.py] shows, in slot [i] below 4,
    the [i]-th of the group's image files in sorted order when that file
    can be opened, and nothing otherwise; the working mapping has an
    entry exactly for the displayed images; a displayed image is always
    a file of the group's folder whose lower-cased name ends in .png,
    .jpg or .jpeg; and none of the new working lists is a list of the
    in-memory store. *)
Theorem load_shows_first_four_image_files (E : Env) (s : App) (idx : Z) :
  Inv s → valid_index s idx →
  let s' := _load_subfolder_by_index E idx s in
  let name := current_subfolder_name s' in
  subfolders s !! Z.to_nat idx = Some name ∧
  (∀ i, (i < 4)%nat → current_image_names s' !! i = Some (slot_name E name i)) ∧
  (∀ img, is_Some (current_subfolder_active_annotations s' !! img) ↔ loaded E name img) ∧
  (∀ img, loaded E name img →
     img ∈ listdir_files E name ∧
     (endswith (PyStr.lower img) ".png" || endswith (PyStr.lower img) ".jpg"
      || endswith (PyStr.lower img) ".jpeg") = true) ∧
  Separated s'.
Proof. exact (load_shows E s idx). Qed.

Lemma load_shows_first_four_image_files_witness :
  let s := __init__ env_abc files_A_done in
  let s' := _load_subfolder_by_index env_abc 2 s in
  Inv s ∧ valid_index s 2 ∧
  current_subfolder_name s' = "C" ∧
  current_image_names s' = [Some "C1.PNG"; Some "C2.png"; None; None] ∧
  (∀ i, (i < 4)%nat →
     current_image_names s' !! i = Some (slot_name env_abc (current_subfolder_name s') i)) ∧
  Separated s'.
Proof.
  intros s s'.
  assert (HI : Inv s) by apply Init_facts.Inv_init.
  assert (Hv : valid_index s 2) by (vm_compute; split; [discriminate | reflexivity]).
  split; [exact HI|]. split; [exact Hv|].
  pose proof (load_shows_first_four_image_files env_abc s 2 HI Hv) as H.
  cbv zeta in H. destruct H as (_ & H2 & _ & _ & H5).
  split; [vm_compute; reflexivity|]. split; [vm_compute; reflexivity|].
  split; [exact H2 | exact H5].
Defined.

(** X11.  A group load of [draw_boxes_.py] resets the drawing state of a
    canvas only when it puts an image on it: a slot that gets an image
    names that image and has no press pending, every other slot (no such
    file, or a file that cannot be opened) keeps the drawing state it
    had, image name included. *)
Theorem load_keeps_drawing_state_of_empty_slots (E : Env) (s : App) (idx : Z) :
  valid_index s idx →
  let s' := _load_subfolder_by_index E idx s in
  let name := current_subfolder_name s' in
  (∀ i, (i < 4)%nat →
     canvas_drawing_state s' !! i
     = match slot_name E name i with
       | Some img => (λ _, mkDrawState (Some img) 0 0 None) <$> canvas_drawing_state s !! i
       | None => canvas_drawing_state s !! i
       end) ∧
  (∀ i, (4 ≤ i)%nat → canvas_drawing_state s' !! i = canvas_drawing_state s !! i).
Proof. exact (load_canvas_state E idx s). Qed.

Lemma load_keeps_drawing_state_of_empty_slots_witness :
  let s := __init__ env_uneven ∅ in
  let s' := _load_subfolder_by_index env_uneven 1 s in
  valid_index s 1 ∧
  current_subfolder_name s = "A" ∧ current_subfolder_name s' = "B" ∧
  current_image_names s' = [Some "B1.png"; None; None; None] ∧
  canvas_drawing_state s' !! 1%nat = canvas_drawing_state s !! 1%nat ∧
  canvas_images s' = [Some "B1.png"; Some "A2.png"; None; None].
Proof.
  intros s s'.
  assert (Hv : valid_index s 1) by (vm_compute; split; [discriminate | reflexivity]).
  split; [exact Hv|].
  pose proof (load_keeps_drawing_state_of_empty_slots env_uneven s 1 Hv) as H.
  cbv zeta in H. destruct H as (H1 & _).
  split; [vm_compute; reflexivity|]. split; [vm_compute; reflexivity|].
  split; [vm_compute; reflexivity|]. split; [|vm_compute; reflexivity].
  exact (H1 1%nat (le_n_S _ _ (le_n_S _ _ (Nat.le_0_l _)))).
Defined.

(** The consequence in a session: group A has two images, group B one.
    On group B the second canvas still names the second image of A; a
    box drawn there is saved in the record of B under that name. *)
Example box_on_empty_slot_goes_to_previous_image :
  let s := run env_uneven uneven_B (draw 1 10 10 100 100) in
  let s' := run env_uneven s [Save] in
  current_subfolder_name s = "B" ∧
  current_image_names s = [Some "B1.png"; None; None; None] ∧
  boxes s "A2.png" = [[10; 10; 100; 100]]%Z ∧
  saved_boxes s' "B" "A2.png" = [[10; 10; 100; 100]]%Z ∧
  disk_boxes s' "B" "A2.png" = [[10; 10; 100; 100]]%Z.
Proof. vm_compute. repeat split. Qed.

End Display_facts.

(** ** The group load of the older program *)

Module Older_load_facts.
Import Examples.

Ltac older_simpl :=
  cbn [Draw_boxes.subfolders Draw_boxes.current_subfolder_index
       Draw_boxes.current_subfolder_name Draw_boxes.annotations_data
       Draw_boxes.current_image_names Draw_boxes.drawn_bbox_ids_on_canvas
       Draw_boxes.current_subfolder_active_annotations Draw_boxes.canvas_drawing_state
       Draw_boxes.unsaved_changes Draw_boxes.heap Draw_boxes.next_item Draw_boxes.dialogs
       Draw_boxes.with_current_subfolder Draw_boxes.with_current_image_names
       Draw_boxes.with_drawn_bbox_ids_on_canvas Draw_boxes.with_active_annotations
       Draw_boxes.with_canvas_drawing_state Draw_boxes.with_unsaved_changes
       Draw_boxes.with_heap Draw_boxes.with_next_item Draw_boxes.with_dialogs
       Draw_boxes.showinfo Draw_boxes.showerror Draw_boxes.askyesno
       Draw_boxes._clear_display_and_current_data] in *.

Section WithEnv.
Variable E : Draw_boxes.Env.

Lemma older_load_image_fresh name from_file files s i :
  (i < length (Draw_boxes.current_image_names s))%nat →
  Draw_boxes.canvases_fresh s →
  Draw_boxes.canvases_fresh (Draw_boxes.load_image E name from_file files s i)
  ∧ length (Draw_boxes.current_image_names
              (Draw_boxes.load_image E name from_file files s i))
    = length (Draw_boxes.current_image_names s).
Proof.
  intros Hi HP. unfold Draw_boxes.load_image.
  destruct (files !! i) as [img|]; [|done].
  destruct (Draw_boxes.image_loads E name img); [|done].
  unfold Draw_boxes.canvases_fresh, alloc. older_simpl.
  split; [|by rewrite length_insert].
  intros j st Hst. destruct (decide (i = j)) as [<-|Hne].
  - rewrite list_lookup_alter_eq in Hst.
    destruct (Draw_boxes.canvas_drawing_state s !! i) as [st0|] eqn:H0; [|done].
    injection Hst as <-. cbn. split; [by apply (HP i st0)|].
    intros img' [= <-]. by rewrite list_lookup_insert_eq.
  - rewrite list_lookup_alter_ne in Hst by done.
    rewrite list_lookup_insert_ne by done. by apply HP.
Qed.

Lemma older_no_image_fresh s i :
  Draw_boxes.canvases_fresh s →
  Draw_boxes.canvases_fresh (Draw_boxes.no_image s i)
  ∧ Draw_boxes.current_image_names (Draw_boxes.no_image s i)
    = Draw_boxes.current_image_names s.
Proof.
  intros HP. unfold Draw_boxes.no_image.
  destruct (Draw_boxes.current_image_names s !! i) as [[img|]|]; [done| |done].
  unfold Draw_boxes.canvases_fresh. older_simpl. split; [|done].
  intros j st Hst. destruct (decide (i = j)) as [<-|Hne].
  - rewrite list_lookup_alter_eq in Hst.
    destruct (Draw_boxes.canvas_drawing_state s !! i) as [st0|] eqn:H0; [|done].
    injection Hst as <-. cbn. split; [by apply (HP i st0)|]. done.
  - rewrite list_lookup_alter_ne in Hst by done. by apply HP.
Qed.

Lemma older_load_images_fresh name from_file files idxs : ∀ s,
  Forall (λ i, i < length (Draw_boxes.current_image_names s))%nat idxs →
  Draw_boxes.canvases_fresh s →
  Draw_boxes.canvases_fresh (foldl (Draw_boxes.load_image E name from_file files) s idxs).
Proof.
  induction idxs as [|i idxs IH]; intros s Hall HP; cbn [foldl]; [done|].
  apply Forall_cons in Hall as [Hi Hall].
  destruct (older_load_image_fresh name from_file files s i Hi HP) as [HP' Hlen].
  apply IH; [by rewrite Hlen | done].
Qed.

Lemma older_no_images_fresh idxs : ∀ s,
  Draw_boxes.canvases_fresh s →
  Draw_boxes.canvases_fresh (foldl Draw_boxes.no_image s idxs).
Proof.
  induction idxs as [|i idxs IH]; intros s HP; cbn [foldl]; [done|].
  apply IH. by apply older_no_image_fresh.
Qed.

Lemma older_clear_fresh s :
  Draw_boxes.canvases_fresh (Draw_boxes._clear_display_and_current_data s).
Proof.
  intros i st Hst. older_simpl.
  rewrite list_lookup_fmap in Hst.
  destruct (Draw_boxes.canvas_drawing_state s !! i); [|done].
  injection Hst as <-. done.
Qed.

Lemma older_load_fresh idx s :
  (0 ≤ idx < Z.of_nat (length (Draw_boxes.subfolders s)))%Z →
  let s' := Draw_boxes._load_subfolder_by_index E idx s in
  Draw_boxes.canvases_fresh s' ∧
  Draw_boxes.current_subfolder_index s' = idx ∧
  Draw_boxes.subfolders s !! Z.to_nat idx = Some (Draw_boxes.current_subfolder_name s') ∧
  Draw_boxes.unsaved_changes s' = false.
Proof.
  intros Hv s'. subst s'. unfold Draw_boxes._load_subfolder_by_index.
  destruct (Draw_boxes.subfolders s) as [|d ds] eqn:Hs; [cbn in Hv; lia|].
  rewrite <- Hs in *.
  destruct (negb _) eqn:Hb.
  { apply negb_true_iff, andb_false_iff in Hb as [Hb|Hb]; lia. }
  pose proof (older_clear_fresh s) as HP.
  assert (Hlen : length (Draw_boxes.current_image_names
                           (Draw_boxes._clear_display_and_current_data s)) = 4%nat)
    by reflexivity.
  assert (Hsub : Draw_boxes.subfolders (Draw_boxes._clear_display_and_current_data s)
                 = Draw_boxes.subfolders s) by reflexivity.
  assert (Hu : Draw_boxes.unsaved_changes (Draw_boxes._clear_display_and_current_data s)
               = false) by reflexivity.
  generalize dependent (Draw_boxes._clear_display_and_current_data s).
  intros s0 HP Hlen Hsub Hu. rewrite Hsub.
  destruct (Draw_boxes.subfolders s !! Z.to_nat idx) as [name|] eqn:Hname.
  2:{ apply lookup_ge_None in Hname. lia. }
  cbn [default from_option id].
  set (s1 := Draw_boxes.with_current_subfolder idx name s0).
  assert (HP1 : Draw_boxes.canvases_fresh s1) by exact HP.
  assert (Hlen1 : length (Draw_boxes.current_image_names s1) = 4%nat) by exact Hlen.
  assert (Hi1 : Draw_boxes.current_subfolder_index s1 = idx) by reflexivity.
  assert (Hn1 : Draw_boxes.current_subfolder_name s1 = name) by reflexivity.
  assert (Hu1 : Draw_boxes.unsaved_changes s1 = false) by exact Hu.
  clearbody s1.
  destruct (Draw_boxes.listdir_files E name) as [files|].
  2:{ split; [intros i st Hst; exact (HP1 i st Hst)|].
      older_simpl. by rewrite Hi1, Hn1, Hu1. }
  set (image_files := PyStr.sorted (List.filter Draw_boxes.is_image_file files)).
  set (from_file := default ∅ (Draw_boxes.annotations_data s1 !! name)).
  assert (HP2 : Draw_boxes.canvases_fresh
                  (foldl (Draw_boxes.load_image E name from_file image_files) s1
                         (seq 0 (Nat.min (length image_files) 4)))).
  { apply older_load_images_fresh; [|done].
    apply Forall_forall. intros i Hi. apply elem_of_seq in Hi. lia. }
  assert (Hf : ∀ idxs s2,
             Draw_boxes.current_subfolder_index
               (foldl (Draw_boxes.load_image E name from_file image_files) s2 idxs)
             = Draw_boxes.current_subfolder_index s2
             ∧ Draw_boxes.current_subfolder_name
                 (foldl (Draw_boxes.load_image E name from_file image_files) s2 idxs)
               = Draw_boxes.current_subfolder_name s2).
  { induction idxs as [|i idxs IH]; intros s2; cbn [foldl]; [done|].
    destruct (IH (Draw_boxes.load_image E name from_file image_files s2 i)) as [-> ->].
    unfold Draw_boxes.load_image. by repeat case_match. }
  destruct (Hf (seq 0 (Nat.min (length image_files) 4)) s1) as [Hi2 Hn2].
  generalize dependent (foldl (Draw_boxes.load_image E name from_file image_files) s1
                          (seq 0 (Nat.min (length image_files) 4))).
  intros s2 HP2 Hi2 Hn2.
  assert (Hg : ∀ idxs s3,
             Draw_boxes.current_subfolder_index (foldl Draw_boxes.no_image s3 idxs)
             = Draw_boxes.current_subfolder_index s3
             ∧ Draw_boxes.current_subfolder_name (foldl Draw_boxes.no_image s3 idxs)
               = Draw_boxes.current_subfolder_name s3).
  { induction idxs as [|i idxs IH]; intros s3; cbn [foldl]; [done|].
    destruct (IH (Draw_boxes.no_image s3 i)) as [-> ->].
    unfold Draw_boxes.no_image. by repeat case_match. }
  destruct (Hg (seq (length image_files) (4 - length image_files)) s2) as [Hi3 Hn3].
  pose proof (older_no_images_fresh
                (seq (length image_files) (4 - length image_files)) s2 HP2) as HP3.
  generalize dependent (foldl Draw_boxes.no_image s2
                          (seq (length image_files) (4 - length image_files))).
  intros s3 Hi3 Hn3 HP3.
  split; [intros i st Hst; exact (HP3 i st Hst)|]. older_simpl. by rewrite Hi3, Hn3, Hi2, Hn2, Hi1, Hn1.
Qed.

End WithEnv.

(** X12.  A group load of the older program [draw_boxes.py] at a valid
    index resets every canvas: afterwards no canvas has a press pending
    and a canvas names an image only if that image is displayed in its
    slot (so a slot left without image accepts no box); the active group
    is the subfolder at that index and nothing is unsaved. *)
Theorem older_load_resets_every_canvas
    (E : Draw_boxes.Env) (idx : Z) (s : Draw_boxes.App) :
  (0 ≤ idx < Z.of_nat (length (Draw_boxes.subfolders s)))%Z →
  let s' := Draw_boxes._load_subfolder_by_index E idx s in
  Draw_boxes.canvases_fresh s' ∧
  Draw_boxes.current_subfolder_index s' = idx ∧
  Draw_boxes.subfolders s !! Z.to_nat idx = Some (Draw_boxes.current_subfolder_name s') ∧
  Draw_boxes.unsaved_changes s' = false.
Proof. exact (older_load_fresh E idx s). Qed.

Lemma older_load_resets_every_canvas_witness :
  let s' := Draw_boxes._load_subfolder_by_index older_env 1 older_dirty_A in
  (0 ≤ 1 < Z.of_nat (length (Draw_boxes.subfolders older_dirty_A)))%Z ∧
  Draw_boxes.canvases_fresh s' ∧
  Draw_boxes.current_subfolder_name s' = "B" ∧
  Draw_boxes.current_image_names s' = [Some "B1.PNG"; Some "B2.png"; None; None].
Proof.
  intros s'.
  assert (Hv : (0 ≤ 1 < Z.of_nat (length (Draw_boxes.subfolders older_dirty_A)))%Z)
    by (vm_compute; split; [discriminate | reflexivity]).
  split; [exact Hv|].
  pose proof (older_load_resets_every_canvas older_env 1 older_dirty_A Hv) as H.
  cbv zeta in H. destruct H as (H1 & _).
  split; [exact H1|]. split; vm_compute; reflexivity.
Defined.

End Older_load_facts.

(** ** Start-up *)

Module Startup_facts.
Import Draw_boxes_ Engine_facts Save_facts Init_facts Box_facts Reload_facts
       Roundtrip_facts Resume_facts Registry_facts Frame_facts Session_facts Examples.

(** [json.load] of the box lists gives lists with the content read, at
    new addresses. *)
Lemma load_lists_content (m : gmap string (list bbox)) (h : Heap) :
  deref (load_lists m h).2 <$> (load_lists m h).1 = m ∧
  (next_loc h ≤ next_loc (load_lists m h).2)%nat ∧
  (∀ l, (l < next_loc h)%nat → deref (load_lists m h).2 l = deref h l) ∧
  (∀ img l, (load_lists m h).1 !! img = Some l → (l < next_loc (load_lists m h).2)%nat).
Proof.
  unfold load_lists.
  apply (map_fold_weak_ind
           (λ (acc : gmap string nat * Heap) (m : gmap string (list bbox)),
              deref acc.2 <$> acc.1 = m ∧
              (next_loc h ≤ next_loc acc.2)%nat ∧
              (∀ l, (l < next_loc h)%nat → deref acc.2 l = deref h l) ∧
              (∀ img l, acc.1 !! img = Some l → (l < next_loc acc.2)%nat))).
  - cbn [fst snd]. split; [by rewrite fmap_empty|]. split; [done|]. split; [done|].
    intros img l. by rewrite lookup_empty.
  - intros img v m' [d h'] _ (IH1 & IH2 & IH3 & IH4). cbn [fst snd] in *.
    assert (Ha : alloc v h' = (next_loc h', (alloc v h').2)) by reflexivity.
    rewrite Ha. cbn [fst snd].
    split; [|split; [|split]].
    + rewrite fmap_insert, deref_alloc_new. f_equal.
      rewrite <- IH1. apply map_fmap_ext. intros img' l Hl.
      apply deref_alloc_old. apply IH4 in Hl. lia.
    + rewrite next_loc_alloc. lia.
    + intros l Hl. rewrite deref_alloc_old by lia. by apply IH3.
    + intros img' l [[_ <-]|[_ Hl]]%lookup_insert_Some; rewrite next_loc_alloc; [lia|].
      apply IH4 in Hl. lia.
Qed.

Lemma json_load_content (j : gmap string SubfolderJson) (h : Heap) :
  (λ r, mkSubfolderJson (type_of_annotation r)
          (deref (json_load_annotations j h).2 <$> annotations r))
    <$> (json_load_annotations j h).1 = j ∧
  (next_loc h ≤ next_loc (json_load_annotations j h).2)%nat ∧
  (∀ l, (l < next_loc h)%nat → deref (json_load_annotations j h).2 l = deref h l) ∧
  (∀ g r img l, (json_load_annotations j h).1 !! g = Some r →
                annotations r !! img = Some l →
                (l < next_loc (json_load_annotations j h).2)%nat).
Proof.
  unfold json_load_annotations.
  apply (map_fold_weak_ind
           (λ (acc : gmap string SubfolderData * Heap) (j : gmap string SubfolderJson),
              (λ r, mkSubfolderJson (type_of_annotation r) (deref acc.2 <$> annotations r))
                <$> acc.1 = j ∧
              (next_loc h ≤ next_loc acc.2)%nat ∧
              (∀ l, (l < next_loc h)%nat → deref acc.2 l = deref h l) ∧
              (∀ g r img l, acc.1 !! g = Some r → annotations r !! img = Some l →
                            (l < next_loc acc.2)%nat))).
  - cbn [fst snd]. split; [by rewrite fmap_empty|]. split; [done|]. split; [done|].
    intros g r img l. by rewrite lookup_empty.
  - intros g rj m' [d h'] _ (IH1 & IH2 & IH3 & IH4). cbn [fst snd] in *.
    destruct (load_lists_content (json_annotations rj) h') as (L1 & L2 & L3 & L4).
    destruct (load_lists (json_annotations rj) h') as [d' h'']. cbn [fst snd] in *.
    split; [|split; [|split]].
    + rewrite fmap_insert. cbn [type_of_annotation annotations]. rewrite L1.
      f_equal; [by destruct rj|].
      rewrite <- IH1. apply map_fmap_ext. intros g' r Hr. f_equal.
      apply map_fmap_ext. intros img l Hl. apply L3. by apply (IH4 g' r img).
    + lia.
    + intros l Hl. rewrite L3 by lia. by apply IH3.
    + intros g' r img l [[_ <-]|[_ Hg]]%lookup_insert_Some Hl; cbn in *.
      * by apply L4 in Hl.
      * specialize (IH4 _ _ _ _ Hg Hl). lia.
Qed.

Lemma load_annotations_dump s j :
  disk s !! ANNOTATIONS_FILE = Some (DocAnnotations j) →
  dump_annotations (_load_annotations_from_file s) = DocAnnotations j.
Proof.
  intros Hd. unfold _load_annotations_from_file. rewrite Hd.
  destruct (json_load_content j (heap s)) as (J1 & _).
  destruct (json_load_annotations j (heap s)) as [d h]. cbn [fst snd] in J1.
  unfold dump_annotations. app_simpl. by rewrite J1.
Qed.

Lemma load_annotations_boxes s g img :
  saved_boxes (_load_annotations_from_file s) g img = disk_boxes s g img.
Proof.
  unfold disk_boxes.
  destruct (disk s !! ANNOTATIONS_FILE) as [doc|] eqn:Hd.
  2:{ unfold _load_annotations_from_file, saved_boxes. rewrite Hd. app_simpl.
      by rewrite lookup_empty. }
  destruct doc as [j| | |];
    try (unfold _load_annotations_from_file, saved_boxes; rewrite Hd; app_simpl;
         by rewrite lookup_empty).
  pose proof (load_annotations_dump s j Hd) as Hdump.
  unfold dump_annotations in Hdump. injection Hdump as Hdump.
  unfold saved_boxes. rewrite <- Hdump, lookup_fmap.
  destruct (annotations_data (_load_annotations_from_file s) !! g) as [r|]; [|done].
  cbn. rewrite lookup_fmap. by destruct (annotations r !! img).
Qed.

Section WithEnv.
Variable E : Env.

Lemma init_disk_other files path :
  path ≠ ANNOTATION_TYPES_FILE →
  disk (__init__ E files) !! path = files !! path.
Proof.
  intros Hp. rewrite init_eq.
  set (s0 := _setup_ui (_load_annotation_types E (blank files))).
  assert (H0 : disk s0 !! path = files !! path).
  { subst s0. rewrite setup_ui_disk. by rewrite load_types_other_file. }
  rewrite <- H0. f_equal. clearbody s0. clear H0.
  unfold _load_initial_state.
  destruct (negb (PyStr.truthy (askdirectory E))); [done|].
  assert (D : disk (_discover_subfolders E s0) = disk s0).
  { unfold _discover_subfolders. by destruct (listdir_dirs E). }
  generalize dependent (_discover_subfolders E s0). intros s1 D.
  destruct (subfolders s1); [done|].
  rewrite load_disk.
  unfold _load_progress_from_file.
  destruct (load_annotations_frame s1) as [_ A2].
  generalize dependent (_load_annotations_from_file s1). intros s2 A2.
  rewrite <- D, <- A2. by repeat case_match.
Qed.

Lemma init_registry files :
  let s := __init__ E files in
  (∀ path, path ≠ ANNOTATION_TYPES_FILE → disk s !! path = files !! path) ∧
  match files !! ANNOTATION_TYPES_FILE with
  | Some (DocTypes types) => annotation_types s = types ∧ disk s = files
  | Some DocCorrupt => annotation_types s = default_types ∧ disk s = files
  | _ =>
      annotation_types s = default_types ∧
      disk s !! ANNOTATION_TYPES_FILE
      = (if can_write E ANNOTATION_TYPES_FILE then Some (DocTypes default_types)
         else match (write_failure E ANNOTATION_TYPES_FILE).2 with
              | Some partial => Some partial
              | None => files !! ANNOTATION_TYPES_FILE
              end)
  end.
Proof.
  intros s. split; [intros path Hp; by apply init_disk_other|].
  subst s. rewrite init_eq.
  set (s0 := _load_annotation_types E (blank files)).
  assert (Hty : annotation_types (_load_initial_state E (_setup_ui s0))
                = annotation_types s0).
  { destruct (initial_state_registry E (_setup_ui s0)) as [-> _].
    unfold _setup_ui. by destruct (rebuild_fields
      (with_canvas_drawing_state (replicate 4 empty_draw_state) s0)) as (-> & _). }
  assert (Hdk : disk (_load_initial_state E (_setup_ui s0)) = disk s0).
  { rewrite <- (setup_ui_disk s0).
    generalize (_setup_ui s0). intros s1.
    unfold _load_initial_state.
    destruct (negb (PyStr.truthy (askdirectory E))); [done|].
    assert (D : disk (_discover_subfolders E s1) = disk s1).
    { unfold _discover_subfolders. by destruct (listdir_dirs E). }
    generalize dependent (_discover_subfolders E s1). intros s2 D.
    destruct (subfolders s2); [done|].
    rewrite load_disk.
    unfold _load_progress_from_file.
    destruct (load_annotations_frame s2) as [_ A2].
    generalize dependent (_load_annotations_from_file s2). intros s3 A2.
    rewrite <- D, <- A2. by repeat case_match. }
  rewrite Hty, Hdk. subst s0. unfold _load_annotation_types.
  change (disk (blank files)) with files.
  destruct (files !! ANNOTATION_TYPES_FILE) as [[| |types|]|] eqn:Hf;
    try (split; reflexivity);
    (split; [unfold _save_annotation_types, _write_json_file;
             destruct (can_write E ANNOTATION_TYPES_FILE); [done|];
             by destruct (write_failure E ANNOTATION_TYPES_FILE).2|]);
    unfold _save_annotation_types, _write_json_file;
    (destruct (can_write E ANNOTATION_TYPES_FILE);
       [|destruct (write_failure E ANNOTATION_TYPES_FILE).2]);
    app_simpl; by rewrite ?lookup_insert_eq.
Qed.

Lemma startup_edges files :
  let s := __init__ E files in
  (PyStr.truthy (askdirectory E) = false →
     destroyed s = true ∧ subfolders s = [] ∧
     current_subfolder_index s = (-1)%Z ∧ current_subfolder_name s = "" ∧
     (∀ title message, ShowInfo title message ∉ dialogs s)) ∧
  (PyStr.truthy (askdirectory E) = true → listdir_dirs E = Some [] →
     destroyed s = false ∧ subfolders s = [] ∧
     current_subfolder_index s = (-1)%Z ∧ current_subfolder_name s = "" ∧
     last (dialogs s) = Some (ShowInfo "Info" "No subfolders found.")) ∧
  (PyStr.truthy (askdirectory E) = true → listdir_dirs E = None →
     destroyed s = false ∧ subfolders s = [] ∧
     current_subfolder_index s = (-1)%Z ∧ current_subfolder_name s = "" ∧
     ShowError "Error" ("Could not read subfolders: " +:+ listdir_error E) ∈ dialogs s ∧
     last (dialogs s) = Some (ShowInfo "Info" "No subfolders found.")) ∧
  (_action_save_annotations E false s).1 = negb (bool_decide (current_subfolder_name s = "")).
Proof.
  intros s. subst s. rewrite init_eq.
  set (s0 := _setup_ui (_load_annotation_types E (blank files))).
  assert (H0 : destroyed s0 = false ∧ subfolders s0 = [] ∧
               current_subfolder_index s0 = (-1)%Z ∧ current_subfolder_name s0 = "" ∧
               ∀ title message, ShowInfo title message ∉ dialogs s0).
  { subst s0. unfold _setup_ui.
    assert (H1 : destroyed (_load_annotation_types E (blank files)) = false ∧
                 subfolders (_load_annotation_types E (blank files)) = [] ∧
                 current_subfolder_index (_load_annotation_types E (blank files))
                 = (-1)%Z ∧
                 current_subfolder_name (_load_annotation_types E (blank files)) = "" ∧
                 ∀ title message,
                   ShowInfo title message
                   ∉ dialogs (_load_annotation_types E (blank files))).
    { unfold _load_annotation_types, _save_annotation_types, _write_json_file.
      repeat case_match; app_simpl; repeat split; try done;
        intros title message Hin; cbn in Hin;
        repeat (apply elem_of_cons in Hin as [Hin|Hin]; [discriminate|]);
        by apply elem_of_nil in Hin. }
    generalize dependent (_load_annotation_types E (blank files)).
    intros s1 (A1 & A2 & A3 & A4 & A5).
    unfold _rebuild_annotation_widgets. app_simpl.
    destruct (filter _ _); [done|]. by destruct (negb _). }
  clearbody s0. destruct H0 as (A1 & A2 & A3 & A4 & A5).
  split; [|split; [|split]].
  - intros Hask. unfold _load_initial_state. rewrite Hask. cbn [negb]. app_simpl. done.
  - intros Hask Hdirs. unfold _load_initial_state, _discover_subfolders.
    rewrite Hask, Hdirs. cbn [negb]. app_simpl.
    change (PyStr.sorted []) with (@nil string). cbn iota.
    app_simpl. rewrite last_snoc. done.
  - intros Hask Hdirs. unfold _load_initial_state, _discover_subfolders.
    rewrite Hask, Hdirs. cbn [negb]. app_simpl. rewrite A2.
    app_simpl. rewrite last_snoc. repeat split; try done. set_solver.
  - unfold _action_save_annotations.
    destruct (PyStr.truthy (current_subfolder_name _)) eqn:Ht; cbn [negb fst].
    + symmetry. apply negb_true_iff, bool_decide_eq_false_2.
      intros He. rewrite He in Ht. discriminate.
    + symmetry. apply negb_false_iff, bool_decide_eq_true_2.
      by apply truthy_false.
Qed.

End WithEnv.

(** X13.  Reading the annotation file at start-up and writing the store
    back gives the file as it was read: the records of every group, the
    categories and the box lists of every image are reproduced, and the
    in-memory store holds for every group and image the box list of the
    file. *)
Theorem annotation_file_survives_load_and_dump
    (s : App) (j : gmap string SubfolderJson) :
  disk s !! ANNOTATIONS_FILE = Some (DocAnnotations j) →
  dump_annotations (_load_annotations_from_file s) = DocAnnotations j ∧
  ∀ g img, saved_boxes (_load_annotations_from_file s) g img = disk_boxes s g img.
Proof.
  intros Hd. split; [by apply load_annotations_dump|]. apply load_annotations_boxes.
Qed.

Lemma annotation_file_survives_load_and_dump_witness :
  let s := blank files_A_annotated in
  let j := {[ "A" := mkSubfolderJson (Some "tables")
                       {[ "A1.PNG" := [[1; 2; 30; 40]%Z]; "A2.png" := [] ]} ]} in
  disk s !! ANNOTATIONS_FILE = Some (DocAnnotations j) ∧
  dump_annotations (_load_annotations_from_file s) = DocAnnotations j ∧
  saved_boxes (_load_annotations_from_file s) "A" "A1.PNG" = [[1; 2; 30; 40]%Z].
Proof.
  intros s j.
  assert (Hd : disk s !! ANNOTATIONS_FILE = Some (DocAnnotations j)) by reflexivity.
  split; [exact Hd|].
  destruct (annotation_file_survives_load_and_dump s j Hd) as [H1 H2].
  split; [exact H1|]. rewrite H2. reflexivity.
Defined.

(** X14.  The ways start-up ends without a group.  When the folder
    dialog is cancelled the window is destroyed and nothing is loaded or
    announced.  When the main folder has no subfolder, or cannot be
    listed (an error dialog says so), the session stays open with no
    group loaded and the dialog "No subfolders found." is the last one
    shown.  A save is refused exactly when no group is loaded. *)
Theorem startup_without_groups (E : Env) (files : gmap string JsonDoc) :
  let s := __init__ E files in
  (PyStr.truthy (askdirectory E) = false →
     destroyed s = true ∧ subfolders s = [] ∧
     current_subfolder_index s = (-1)%Z ∧ current_subfolder_name s = "" ∧
     (∀ title message, ShowInfo title message ∉ dialogs s)) ∧
  (PyStr.truthy (askdirectory E) = true → listdir_dirs E = Some [] →
     destroyed s = false ∧ subfolders s = [] ∧
     current_subfolder_index s = (-1)%Z ∧ current_subfolder_name s = "" ∧
     last (dialogs s) = Some (ShowInfo "Info" "No subfolders found.")) ∧
  (PyStr.truthy (askdirectory E) = true → listdir_dirs E = None →
     destroyed s = false ∧ subfolders s = [] ∧
     current_subfolder_index s = (-1)%Z ∧ current_subfolder_name s = "" ∧
     ShowError "Error" ("Could not read subfolders: " +:+ listdir_error E) ∈ dialogs s ∧
     last (dialogs s) = Some (ShowInfo "Info" "No subfolders found.")) ∧
  (_action_save_annotations E false s).1 = negb (bool_decide (current_subfolder_name s = "")).
Proof. exact (startup_edges E files). Qed.

Example startup_without_groups_sessions :
  destroyed (__init__ env_cancelled ∅) = true ∧
  dialogs (__init__ env_no_groups ∅) = [ShowInfo "Info" "No subfolders found."] ∧
  dialogs (__init__ env_unlisted ∅)
  = [ShowError "Error" "Could not read subfolders: [Errno 13] Permission denied: '/data'";
     ShowInfo "Info" "No subfolders found."] ∧
  (_action_save_annotations env_no_groups false (__init__ env_no_groups ∅)).1 = false.
Proof. vm_compute. repeat split. Qed.

(** X15.  Start-up and the registry file.  A registry file holding a
    list is used as it is; a file that is not valid JSON gives the
    default registry and is left alone; a missing file (or one that does
    not hold a list) gives the default registry, which is written to the
    file when it can be written (a write that fails leaves the file as
    it was, or with what was written before the error).  No other file
    is written during start-up. *)
Theorem startup_reads_or_creates_registry (E : Env) (files : gmap string JsonDoc) :
  let s := __init__ E files in
  (∀ path, path ≠ ANNOTATION_TYPES_FILE → disk s !! path = files !! path) ∧
  match files !! ANNOTATION_TYPES_FILE with
  | Some (DocTypes types) => annotation_types s = types ∧ disk s = files
  | Some DocCorrupt => annotation_types s = default_types ∧ disk s = files
  | _ =>
      annotation_types s = default_types ∧
      disk s !! ANNOTATION_TYPES_FILE
      = (if can_write E ANNOTATION_TYPES_FILE then Some (DocTypes default_types)
         else match (write_failure E ANNOTATION_TYPES_FILE).2 with
              | Some partial => Some partial
              | None => files !! ANNOTATION_TYPES_FILE
              end)
  end.
Proof. exact (init_registry E files). Qed.

End Startup_facts.

(** ** Closing the window, the count labels and the buttons *)

Module Window_facts.
Import Draw_boxes_ Engine_facts Save_facts Init_facts Box_facts Reload_facts
       Roundtrip_facts Registry_facts Frame_facts Persist_facts Examples.

Section WithEnv.
Variable E : Env.

Lemma app_close_spec choice s :
  Inv s →
  let name := current_subfolder_name s in
  let s' := _on_app_close E choice s in
  (destroyed s' = true ↔
     destroyed s = true ∨ unsaved_changes s = false ∨ choice = ChoiceExitNoSave
     ∨ (choice = ChoiceSaveExit ∧ PyStr.truthy name = true)) ∧
  (unsaved_changes s = false ∨ choice = ChoiceExitNoSave →
     s' = with_destroyed true s) ∧
  (unsaved_changes s = true → choice = ChoiceCancel → s' = s) ∧
  (unsaved_changes s = true → choice = ChoiceSaveExit → PyStr.truthy name = false →
     s' = s) ∧
  (unsaved_changes s = true → choice = ChoiceSaveExit → PyStr.truthy name = true →
     s' = with_destroyed true (_action_save_annotations E false s).2 ∧
     unsaved_changes s' = false ∧
     (∀ img, saved_boxes s' name img = boxes s img) ∧
     (can_write E ANNOTATIONS_FILE = true →
        ∀ img, disk_boxes s' name img = boxes s img)).
Proof.
  intros HI name s'. subst s'. unfold _on_app_close.
  destruct (unsaved_changes s) eqn:Hu.
  2:{ split; [|split; [done|by split; [|split]]].
      cbn. split; [auto|done]. }
  destruct choice.
  - destruct (PyStr.truthy name) eqn:Hn.
    + pose proof (save_eq E false s Hn) as Hs.
      pose proof (save_writes_store E false s HI Hn) as W. cbv zeta in W.
      fold name in W.
      assert (Hus : unsaved_changes (_action_save_annotations E false s).2 = false).
      { rewrite Hs. cbn [snd]. apply load_unsaved, saved_state_unsaved. }
      assert (Hfst : (_action_save_annotations E false s).1 = true) by (by rewrite Hs).
      clear Hs.
      destruct (_action_save_annotations E false s) as [saved s1].
      cbn [fst snd] in W, Hus, Hfst. subst saved. cbv beta iota.
      destruct W as (W1 & _ & _ & W4).
      split; [cbn; split; [auto|done] |].
      split; [intros [?|?]; done|]. split; [done|]. split; [done|].
      intros _ _ _. split; [done|]. split; [done|]. split; [done|].
      intros Hw img.
      change (disk_boxes s1 name img = boxes s img).
      rewrite (W4 Hw). apply W1.
    + unfold _action_save_annotations. fold name. rewrite Hn. cbn [negb].
      split.
      { split; [auto|]. intros [?|[?|[?|[_ ?]]]]; done. }
      split; [intros [?|?]; done|]. split; [done|]. split; [done|]. done.
  - split; [cbn; split; [auto|done] |].
    split; [done|]. split; [done|]. split; done.
  - split.
    { split; [auto|]. intros [?|[?|[?|[? _]]]]; done. }
    split; [intros [?|?]; done|]. split; [done|]. split; done.
Qed.

Lemma counted_types_insert (s s' : App) name r t :
  annotations_data s' = <[name := r]> (annotations_data s) →
  let old := annotations_data s !! name ≫= type_of_annotation in
  PyStr.truthy t = true →
  (counts_get (counted_types s') t + (if decide (old = Some t) then 1 else 0)
   = counts_get (counted_types s) t
     + (if decide (type_of_annotation r = Some t) then 1 else 0))%nat.
Proof.
  intros Hd old Ht. subst old. unfold counts_get, counted_types. rewrite Hd.
  set (f := λ kv : string * SubfolderData,
              match type_of_annotation kv.2 with
              | Some t => if PyStr.truthy t then Some t else None
              | None => None
              end).
  assert (Hone : ∀ (kv : string * SubfolderData) l,
            length (filter (λ t0, t0 = t) (omap f (kv :: l)))
            = ((if decide (type_of_annotation kv.2 = Some t) then 1 else 0)
               + length (filter (λ t0, t0 = t) (omap f l)))%nat).
  { intros kv l.
    change (omap f (kv :: l))
      with (match f kv with Some y => y :: omap f l | None => omap f l end).
    assert (Hf : f kv = match type_of_annotation kv.2 with
                        | Some t0 => if PyStr.truthy t0 then Some t0 else None
                        | None => None
                        end) by reflexivity.
    destruct (type_of_annotation kv.2) as [t0|].
    - destruct (decide (Some t0 = Some t)) as [[= ->]|Hne].
      + rewrite Ht in Hf. rewrite Hf, filter_cons_True by done. done.
      + destruct (PyStr.truthy t0); rewrite Hf; [|done].
        rewrite filter_cons_False by congruence. done.
    - rewrite Hf. by rewrite decide_False. }
  rewrite <- (insert_delete_eq (annotations_data s)).
  rewrite (map_to_list_insert (delete name (annotations_data s)) name r)
    by apply lookup_delete_eq.
  rewrite Hone. cbn [snd].
  destruct (annotations_data s !! name) as [r0|] eqn:Hr.
  - rewrite <- (map_to_list_delete (annotations_data s) name r0 Hr).
    rewrite Hone. cbn [snd].
    change (Some r0 ≫= type_of_annotation) with (type_of_annotation r0).
    destruct (decide (type_of_annotation r0 = Some t));
      destruct (decide (type_of_annotation r = Some t)); lia.
  - rewrite delete_id by done.
    change (None ≫= type_of_annotation) with (@None string).
    rewrite (decide_False (P := None = Some t)) by discriminate. lia.
Qed.

Lemma counts_after_save b s t :
  PyStr.truthy (current_subfolder_name s) = true →
  t ∈ combo_values s →
  PyStr.truthy t = true →
  let old := annotations_data s !! current_subfolder_name s ≫= type_of_annotation in
  let s' := (_action_save_annotations E b s).2 in
  ∃ n n',
    _update_annotation_counts s t = Some n ∧
    _update_annotation_counts s' t = Some n' ∧
    (n' + (if decide (old = Some t) then 1 else 0)
     = n + (if decide (annotation_type_var s = t) then 1 else 0))%nat.
Proof.
  intros Hn Hin Ht old s'.
  exists (counts_get (counted_types s) t), (counts_get (counted_types s') t).
  assert (Hc : combo_values s' = combo_values s).
  { subst s'. by destruct (save_registry E b s) as (_ & -> & _). }
  unfold _update_annotation_counts. rewrite Hc, !decide_True by done.
  split; [done|]. split; [done|].
  assert (Hd : annotations_data s'
               = <[current_subfolder_name s :=
                     mkSubfolderData (Some (annotation_type_var s))
                                     (current_subfolder_active_annotations s)]>
                   (annotations_data s)).
  { subst s'. rewrite (save_eq E b s Hn). cbn [snd].
    destruct (saved_state_fields E s) as (_ & _ & _ & F4 & _).
    destruct b; [done|].
    destruct (load_keeps E (current_subfolder_index (saved_state E s))
                (saved_state E s)) as (_ & -> & _).
    done. }
  pose proof (counted_types_insert s s' _ _ t Hd Ht) as Hcount.
  cbv zeta in Hcount. cbn [type_of_annotation] in Hcount.
  subst old. rewrite Hcount.
  destruct (decide (Some (annotation_type_var s) = Some t)) as [[= He]|Hne];
    destruct (decide (annotation_type_var s = t)); congruence || lia.
Qed.

Lemma buttons_spec s :
  valid_index s (current_subfolder_index s) →
  let b := _update_button_states s in
  btn_save b = true ∧ btn_clear b = true ∧
  (btn_save_next b = true ↔ valid_index s (current_subfolder_index s + 1)) ∧
  (btn_prev b = true ↔ valid_index s (current_subfolder_index s - 1)) ∧
  (btn_undo b = true ↔ _action_undo_last_bbox s ≠ s).
Proof.
  intros Hv b. subst b. unfold _update_button_states, valid_index in *.
  cbn [btn_save btn_clear btn_save_next btn_prev btn_undo].
  assert (Hne : subfolders s ≠ []).
  { intros He. rewrite He in Hv. cbn in Hv. lia. }
  split; [by apply bool_decide_eq_true_2|]. split; [by apply bool_decide_eq_true_2|].
  split; [rewrite Z.ltb_lt; lia|]. split; [rewrite Z.ltb_lt; lia|].
  rewrite bool_decide_eq_true. split.
  - intros Hu He. apply Hu.
    destruct (last (undo_stack s)) as [[c i]|] eqn:Hl.
    + assert (Hlen : length (undo_stack (_action_undo_last_bbox s))
                     = length (removelast (undo_stack s))).
      { unfold _action_undo_last_bbox. rewrite Hl. by repeat case_match. }
      rewrite He in Hlen.
      destruct (undo_stack s) as [|x l] using rev_ind; [done|].
      rewrite removelast_last, length_app in Hlen. cbn in Hlen. lia.
    + by apply last_None in Hl.
  - intros Hu He. apply Hu. by apply undo_empty.
Qed.

End WithEnv.

(** X16.  Closing the window.  The window is destroyed exactly when it
    already was, or nothing is unsaved, or the user chooses "Exit without
    Saving", or chooses "Save and Exit" while a group is loaded.  With
    unsaved changes, "Cancel" leaves the session as it is; "Save and
    Exit" saves first, so that the store (and the annotation file, when
    it can be written) holds the boxes of the active group before the
    window goes; with no group loaded "Save and Exit" does nothing and
    the window stays open. *)
Theorem close_saves_before_exit_or_keeps_session
    (E : Env) (choice : ExitChoice) (s : App) :
  Inv s →
  let name := current_subfolder_name s in
  let s' := _on_app_close E choice s in
  (destroyed s' = true ↔
     destroyed s = true ∨ unsaved_changes s = false ∨ choice = ChoiceExitNoSave
     ∨ (choice = ChoiceSaveExit ∧ PyStr.truthy name = true)) ∧
  (unsaved_changes s = false ∨ choice = ChoiceExitNoSave →
     s' = with_destroyed true s) ∧
  (unsaved_changes s = true → choice = ChoiceCancel → s' = s) ∧
  (unsaved_changes s = true → choice = ChoiceSaveExit → PyStr.truthy name = false →
     s' = s) ∧
  (unsaved_changes s = true → choice = ChoiceSaveExit → PyStr.truthy name = true →
     s' = with_destroyed true (_action_save_annotations E false s).2 ∧
     unsaved_changes s' = false ∧
     (∀ img, saved_boxes s' name img = boxes s img) ∧
     (can_write E ANNOTATIONS_FILE = true →
        ∀ img, disk_boxes s' name img = boxes s img)).
Proof. exact (app_close_spec E choice s). Qed.

Lemma close_saves_before_exit_or_keeps_session_witness :
  let s := dirty_B env_abc in
  let s' := _on_app_close env_abc ChoiceSaveExit s in
  Inv s ∧
  unsaved_changes s = true ∧
  destroyed s' = true ∧
  disk_boxes s "B" "B1.PNG" = [] ∧
  disk_boxes s' "B" "B1.PNG" = [[10; 10; 100; 100]%Z].
Proof.
  intros s s'.
  assert (HI : Inv s) by apply Inv_run, Init_facts.Inv_init.
  split; [exact HI|].
  pose proof (close_saves_before_exit_or_keeps_session env_abc ChoiceSaveExit s HI) as H.
  cbv zeta in H. destruct H as (H1 & _ & _ & _ & H5).
  split; [reflexivity|]. split; [|split; [reflexivity|]].
  - apply H1. right. right. right. split; reflexivity.
  - destruct (H5 eq_refl eq_refl eq_refl) as (_ & _ & _ & H54).
    transitivity (boxes s "B1.PNG"); [exact (H54 eq_refl "B1.PNG") | reflexivity].
Defined.

(** A session without groups in which a category was added has unsaved
    changes and no group: "Save and Exit" leaves the window open. *)
Example close_with_nothing_to_save_stays_open :
  unsaved_changes typed_no_groups = true ∧
  current_subfolder_name typed_no_groups = "" ∧
  destroyed (_on_app_close env_no_groups ChoiceSaveExit typed_no_groups) = false ∧
  destroyed (_on_app_close env_no_groups ChoiceExitNoSave typed_no_groups) = true.
Proof. vm_compute. repeat split. Qed.

(** X17.  The count labels after a save.  For a selectable category [t]
    (not the empty string), the number shown after a save of the active
    group is the number shown before, plus one when [t] is the category
    the group is saved with, minus one when the store already recorded
    the group with category [t]: a group counts once, under the category
    of its last save. *)
Theorem save_moves_group_between_category_counts
    (E : Env) (called_from_next : bool) (s : App) (t : string) :
  PyStr.truthy (current_subfolder_name s) = true →
  t ∈ combo_values s →
  PyStr.truthy t = true →
  let old := annotations_data s !! current_subfolder_name s ≫= type_of_annotation in
  let s' := (_action_save_annotations E called_from_next s).2 in
  ∃ n n',
    _update_annotation_counts s t = Some n ∧
    _update_annotation_counts s' t = Some n' ∧
    (n' + (if decide (old = Some t) then 1 else 0)
     = n + (if decide (annotation_type_var s = t) then 1 else 0))%nat.
Proof. exact (counts_after_save E called_from_next s t). Qed.

Lemma save_moves_group_between_category_counts_witness :
  let s := dirty_B env_abc in
  let s' := (_action_save_annotations env_abc false s).2 in
  PyStr.truthy (current_subfolder_name s) = true ∧
  "paragraphs" ∈ combo_values s ∧
  PyStr.truthy "paragraphs" = true ∧
  annotation_type_var s = "paragraphs" ∧
  _update_annotation_counts s "paragraphs" = Some 0%nat ∧
  _update_annotation_counts s' "paragraphs" = Some 1%nat ∧
  ∃ n n',
    _update_annotation_counts s "paragraphs" = Some n ∧
    _update_annotation_counts s' "paragraphs" = Some n' ∧
    (n' + (if decide (annotations_data s !! current_subfolder_name s
                      ≫= type_of_annotation = Some "paragraphs") then 1 else 0)
     = n + (if decide (annotation_type_var s = "paragraphs") then 1 else 0))%nat.
Proof.
  intros s s'.
  assert (Hin : "paragraphs" ∈ combo_values s) by (vm_compute; left).
  split; [reflexivity|]. split; [exact Hin|]. split; [reflexivity|].
  split; [reflexivity|]. split; [vm_compute; reflexivity|].
  split; [vm_compute; reflexivity|].
  exact (save_moves_group_between_category_counts env_abc false s "paragraphs"
           eq_refl Hin eq_refl).
Defined.

(** X18.  The buttons while a group is loaded.  "Save" and "Clear" are
    enabled; "Save & Next" is enabled exactly when there is a next group
    and "Previous" exactly when there is a previous one, that is, when
    the load the button asks for is within the list of groups; "Undo" is
    enabled exactly when an undo would change the session. *)
Theorem buttons_enabled_when_action_has_effect (s : App) :
  valid_index s (current_subfolder_index s) →
  let b := _update_button_states s in
  btn_save b = true ∧ btn_clear b = true ∧
  (btn_save_next b = true ↔ valid_index s (current_subfolder_index s + 1)) ∧
  (btn_prev b = true ↔ valid_index s (current_subfolder_index s - 1)) ∧
  (btn_undo b = true ↔ _action_undo_last_bbox s ≠ s).
Proof. exact (buttons_spec s). Qed.

Lemma buttons_enabled_when_action_has_effect_witness :
  let s := dirty_C env_abc in
  valid_index s (current_subfolder_index s) ∧
  _update_button_states s = mkButtons true true false true true ∧
  ¬ valid_index s (current_subfolder_index s + 1) ∧
  _action_undo_last_bbox s ≠ s.
Proof.
  intros s.
  assert (Hv : valid_index s (current_subfolder_index s))
    by (vm_compute; split; [discriminate | reflexivity]).
  split; [exact Hv|].
  pose proof (buttons_enabled_when_action_has_effect s Hv) as H.
  cbv zeta in H. destruct H as (_ & _ & H3 & _ & H5).
  assert (Hb : _update_button_states s = mkButtons true true false true true)
    by (vm_compute; reflexivity).
  split; [exact Hb|]. rewrite Hb in H3, H5. cbn [btn_save_next btn_undo] in H3, H5.
  split.
  - intros Hn. pose proof (proj2 H3 Hn) as Habs. discriminate Habs.
  - exact (proj1 H5 eq_refl).
Defined.

End Window_facts.

(** ** The registry under additions, and the older start index *)

Module Category_facts.
Import Draw_boxes_ Engine_facts Save_facts Init_facts Registry_facts Frame_facts Examples.

Lemma lower_char_idemp c : PyStr.lower_char (PyStr.lower_char c) = PyStr.lower_char c.
Proof. destruct c as [[] [] [] [] [] [] [] []]; reflexivity. Qed.

Lemma lower_idemp s : PyStr.lower (PyStr.lower s) = PyStr.lower s.
Proof. induction s as [|c s IH]; [done|]. cbn. by rewrite lower_char_idemp, IH. Qed.

Lemma lstrip_cases s :
  PyStr.lstrip s = "" ∨ ∃ c r, PyStr.lstrip s = String c r ∧ PyStr.isspace c = false.
Proof.
  induction s as [|c s IH]; [by left|]. cbn.
  destruct (PyStr.isspace c) eqn:Hc; [done|]. right. by exists c, s.
Qed.

Lemma rstrip_idemp s : PyStr.rstrip (PyStr.rstrip s) = PyStr.rstrip s.
Proof.
  induction s as [|c s IH]; [done|]. cbn.
  destruct (PyStr.rstrip s) as [|d r] eqn:Hr.
  - destruct (PyStr.isspace c) eqn:Hc; [done|]. cbn. by rewrite Hc.
  - change (PyStr.rstrip (String c (String d r)))
      with (match PyStr.rstrip (String d r) with
            | EmptyString =>
                if PyStr.isspace c then EmptyString else String c EmptyString
            | r0 => String c r0
            end).
    by rewrite IH.
Qed.

Lemma strip_idemp s : PyStr.strip (PyStr.strip s) = PyStr.strip s.
Proof.
  unfold PyStr.strip.
  assert (Hl : PyStr.lstrip (PyStr.rstrip (PyStr.lstrip s)) = PyStr.rstrip (PyStr.lstrip s)).
  { destruct (lstrip_cases s) as [->|(c & r & -> & Hc)]; [done|].
    cbn. destruct (PyStr.rstrip r); rewrite ?Hc; cbn; by rewrite Hc. }
  by rewrite Hl, rstrip_idemp.
Qed.

(** The normal form of a category name is its own normal form. *)
Lemma normalize_idemp name :
  PyStr.strip (PyStr.lower (PyStr.strip (PyStr.lower name)))
  = PyStr.strip (PyStr.lower name).
Proof.
  rewrite (strip_lower (PyStr.strip (PyStr.lower name))), strip_idemp.
  by rewrite <- strip_lower, lower_idemp.
Qed.

Lemma list_insert_at_elem {A} (i : nat) (x y : A) (l : list A) :
  y ∈ list_insert_at i x l ↔ y = x ∨ y ∈ l.
Proof.
  unfold list_insert_at. rewrite elem_of_app, elem_of_cons.
  rewrite <- (take_drop i l) at 3. rewrite elem_of_app. tauto.
Qed.

Lemma list_index_split x (l : list string) i :
  list_index x l = Some i →
  ∃ pre post, l = pre ++ x :: post ∧ (x ∉ pre) ∧ length pre = i.
Proof.
  revert i. induction l as [|y l IH]; intros i; cbn; [done|].
  destruct (decide (y = x)) as [->|Hne].
  - intros [= <-]. exists [], l. split; [done|]. split; [apply not_elem_of_nil | done].
  - destruct (list_index x l) as [k|]; cbn; [|done]. intros [= <-].
    destruct (IH k eq_refl) as (pre & post & -> & Hpre & Hlen).
    exists (y :: pre), post. split; [done|]. split; [|cbn; by rewrite Hlen].
    apply not_elem_of_cons. split; [congruence|done].
Qed.

Lemma list_index_None x (l : list string) : list_index x l = None → x ∉ l.
Proof.
  induction l as [|y l IH]; cbn; [intros _; apply not_elem_of_nil|].
  destruct (decide (y = x)); [done|].
  destruct (list_index x l); [done|]. intros _.
  apply not_elem_of_cons. split; [congruence|by apply IH].
Qed.

Section WithEnv.
Variable E : Env.

Lemma add_type_registry name s :
  let new_type := str_strip E (str_lower E name) in
  let s' := _add_new_annotation_type E (Some name) s in
  (str_strip E name = "" ∨ new_type ∈ annotation_types s →
     annotation_types s' = annotation_types s) ∧
  (str_strip E name ≠ "" → new_type ∉ annotation_types s →
     annotation_types s'
     = match list_index "other" (annotation_types s) with
       | Some i => list_insert_at i new_type (annotation_types s)
       | None => annotation_types s ++ [new_type]
       end).
Proof.
  intros new_type s'.
  destruct (add_new_annotation_type_spec E name s) as (H1 & H2 & H3).
  fold new_type s' in H1, H2, H3.
  split.
  - intros [He|Hin].
    + by rewrite (H1 He).
    + destruct (decide (str_strip E name = "")) as [He|Hne]; [by rewrite (H1 He)|].
      by destruct (H2 Hne Hin) as (-> & _).
  - intros Hne Hnin. destruct (H3 Hne Hnin) as (H31 & H32 & _).
    destruct (list_index "other" (annotation_types s)) as [i|] eqn:Hi.
    + destruct (list_index_split _ _ _ Hi) as (pre & post & Hd & Hpre & <-).
      rewrite (H31 pre post Hd Hpre), Hd. symmetry. apply list_insert_at_app.
    + apply H32. by apply list_index_None.
Qed.

(** The normal form of an ASCII name is its own normal form, and it is
    empty exactly when the trimmed name is. *)
Lemma normal_form_idemp name :
  PyStr.is_ascii name = true →
  let new_type := str_strip E (str_lower E name) in
  str_strip E (str_lower E new_type) = new_type ∧
  (str_strip E name ≠ "" ↔ new_type ≠ "").
Proof.
  intros Ha new_type. subst new_type.
  destruct (normal_form_ascii E name Ha) as [-> ->].
  assert (Ha' : PyStr.is_ascii (PyStr.lower (PyStr.strip name)) = true)
    by (by apply is_ascii_lower, is_ascii_strip).
  destruct (normal_form_ascii E _ Ha') as [-> _].
  split.
  - rewrite <- (strip_lower name), strip_idemp.
    by rewrite <- strip_lower, lower_idemp.
  - by rewrite lower_empty.
Qed.

Lemma add_type_twice name s :
  let new_type := str_strip E (str_lower E name) in
  let s1 := _add_new_annotation_type E (Some name) s in
  (∀ t, t ∈ annotation_types s1 ↔
        t ∈ annotation_types s ∨ (t = new_type ∧ str_strip E name ≠ "")) ∧
  (NoDup (annotation_types s) → NoDup (annotation_types s1)) ∧
  (last (annotation_types s) = Some "other" →
     last (annotation_types s1) = Some "other") ∧
  (str_strip E name ≠ "" →
     new_type ∈ annotation_types s1 ∧ annotation_type_var s1 = new_type) ∧
  annotation_types (_add_new_annotation_type E (Some name) s1) = annotation_types s1 ∧
  (Forall (λ c, (nat_of_ascii c < 128)%nat) (String.list_ascii_of_string name) →
     (str_strip E name ≠ "" ↔ new_type ≠ "") ∧
     str_strip E (str_lower E new_type) = new_type ∧
     annotation_types (_add_new_annotation_type E (Some new_type) s1)
     = annotation_types s1).
Proof.
  intros new_type s1.
  destruct (add_type_registry name s) as [R1 R2]. fold new_type s1 in R1, R2.
  destruct (add_new_annotation_type_spec E name s) as (_ & H2 & H3).
  fold new_type s1 in H2, H3.
  assert (Hmem : ∀ t, t ∈ annotation_types s1 ↔
                      t ∈ annotation_types s ∨ (t = new_type ∧ str_strip E name ≠ "")).
  { intros t.
    destruct (decide (str_strip E name = "")) as [He|Hne].
    { rewrite R1 by auto. split; [auto|]. intros [?|[_ ?]]; done. }
    destruct (decide (new_type ∈ annotation_types s)) as [Hin|Hnin].
    { rewrite R1 by auto. split; [auto|]. intros [?|[-> _]]; done. }
    rewrite R2 by done.
    destruct (list_index "other" (annotation_types s)).
    - rewrite list_insert_at_elem. split; [intros [?|?]; auto|].
      intros [?|[? _]]; auto.
    - rewrite elem_of_app, list_elem_of_singleton. split; [intros [?|?]; auto|].
      intros [?|[? _]]; auto. }
  assert (Hin1 : str_strip E name ≠ "" → new_type ∈ annotation_types s1).
  { intros Hne. apply Hmem. auto. }
  split; [done|]. split; [|split; [|split; [|split]]].
  - intros Hnd.
    destruct (decide (str_strip E name = "")) as [He|Hne]; [by rewrite R1 by auto|].
    destruct (decide (new_type ∈ annotation_types s)) as [Hin|Hnin];
      [by rewrite R1 by auto|].
    rewrite R2 by done.
    destruct (list_index "other" (annotation_types s)) as [i|].
    + unfold list_insert_at.
      rewrite <- (take_drop i (annotation_types s)) in Hnd, Hnin.
      apply NoDup_app in Hnd as (N1 & N2 & N3).
      apply not_elem_of_app in Hnin as [M1 M2].
      apply NoDup_app. split; [done|]. split.
      * intros x Hx [->|Hx']%elem_of_cons; [done|]. by apply (N2 x).
      * apply NoDup_cons. done.
    + apply NoDup_app. split; [done|]. split; [|apply NoDup_singleton].
      intros x Hx Hx'. apply list_elem_of_singleton in Hx'. by subst x.
  - intros Hlast.
    destruct (decide (str_strip E name = "")) as [He|Hne]; [by rewrite R1 by auto|].
    destruct (decide (new_type ∈ annotation_types s)) as [Hin|Hnin];
      [by rewrite R1 by auto|].
    rewrite R2 by done.
    destruct (list_index "other" (annotation_types s)) as [i|] eqn:Hi.
    + destruct (list_index_split _ _ _ Hi) as (pre & post & Hd & Hpre & <-).
      rewrite Hd, list_insert_at_app. rewrite Hd in Hlast.
      rewrite last_app in Hlast |- *. cbn [last] in Hlast |- *.
      by destruct post.
    + apply list_index_None in Hi. apply last_Some_elem_of in Hlast. done.
  - intros Hne. split; [by apply Hin1|].
    destruct (decide (new_type ∈ annotation_types s)) as [Hin|Hnin].
    + by destruct (H2 Hne Hin) as (_ & -> & _).
    + by destruct (H3 Hne Hnin) as (_ & _ & -> & _).
  - destruct (add_type_registry name s1) as [Q1 _]. fold new_type in Q1.
    apply Q1. destruct (decide (str_strip E name = "")); auto.
  - intros Ha%is_ascii_spec.
    destruct (normal_form_idemp name Ha) as [Hidem Hiff]. fold new_type in Hidem, Hiff.
    split; [done|]. split; [done|].
    destruct (add_type_registry new_type s1) as [Q1 _]. rewrite Hidem in Q1.
    apply Q1. destruct (decide (str_strip E new_type = "")) as [e|n]; [auto|].
    right. apply Hin1. apply Hiff. intros He. by rewrite He in n.
Qed.

End WithEnv.

(** X19.  The registry under "Add New...", with the normal form
    [name.lower().strip()] of the name entered.  An addition never
    removes an entry and adds at most the normal form (it adds it when
    the trimmed name is not empty and the normal form is not yet an
    entry); a registry without duplicates stays without duplicates, and
    a registry that ends with "other" still ends with "other".  After an
    addition with a non-empty trimmed name the normal form is in the
    registry and selected, and entering the same name again leaves the
    registry as it is.  For a name of ASCII characters the normal form
    is empty exactly when the trimmed name is, it is its own normal form,
    and entering the normal form itself leaves the registry as it is. *)
Theorem add_category_keeps_registry_well_formed (E : Env) (name : string) (s : App) :
  let new_type := str_strip E (str_lower E name) in
  let s1 := _add_new_annotation_type E (Some name) s in
  (∀ t, t ∈ annotation_types s1 ↔
        t ∈ annotation_types s ∨ (t = new_type ∧ str_strip E name ≠ "")) ∧
  (NoDup (annotation_types s) → NoDup (annotation_types s1)) ∧
  (last (annotation_types s) = Some "other" →
     last (annotation_types s1) = Some "other") ∧
  (str_strip E name ≠ "" →
     new_type ∈ annotation_types s1 ∧ annotation_type_var s1 = new_type) ∧
  annotation_types (_add_new_annotation_type E (Some name) s1) = annotation_types s1 ∧
  (Forall (λ c, (nat_of_ascii c < 128)%nat) (String.list_ascii_of_string name) →
     (str_strip E name ≠ "" ↔ new_type ≠ "") ∧
     str_strip E (str_lower E new_type) = new_type ∧
     annotation_types (_add_new_annotation_type E (Some new_type) s1)
     = annotation_types s1).
Proof. exact (add_type_twice E name s). Qed.

Lemma add_category_keeps_registry_well_formed_witness :
  let s := __init__ env_abc files_A_done in
  let s1 := _add_new_annotation_type env_abc (Some " Figures ") s in
  Forall (λ c, (nat_of_ascii c < 128)%nat) (String.list_ascii_of_string " Figures ") ∧
  str_strip env_abc (str_lower env_abc " Figures ") = "figures" ∧
  annotation_types s1
  = ["paragraphs"; "tables"; "images"; "headings"; "figures"; "other"] ∧
  annotation_types (_add_new_annotation_type env_abc (Some "figures") s1)
  = annotation_types s1.
Proof.
  intros s s1.
  assert (Ha : Forall (λ c, (nat_of_ascii c < 128)%nat)
                 (String.list_ascii_of_string " Figures "))
    by (repeat constructor; vm_compute; lia).
  split; [exact Ha|]. split; [reflexivity|]. split; [vm_compute; reflexivity|].
  destruct (add_category_keeps_registry_well_formed env_abc " Figures " s)
    as (_ & _ & _ & _ & _ & H).
  exact (proj2 (proj2 (H Ha))).
Defined.

Example add_Figures_twice :
  let s := __init__ env_abc files_A_done in
  let s1 := _add_new_annotation_type env_abc (Some " Figures ") s in
  let s2 := _add_new_annotation_type env_abc (Some "FIGURES") s1 in
  annotation_types s1
  = ["paragraphs"; "tables"; "images"; "headings"; "figures"; "other"] ∧
  annotation_types s2 = annotation_types s1 ∧
  last (dialogs s2)
  = Some (ShowInfo "Already Exists"
            "The type 'Figures' already exists. It has been selected for you.").
Proof. vm_compute. repeat split. Qed.

(** *** Where the older program resumes *)

Lemma older_start_index_spec (last_completed : option string) (subfolders : list string) :
  subfolders ≠ [] →
  let i := Draw_boxes.start_index last_completed subfolders in
  (0 ≤ i < Z.of_nat (length subfolders))%Z ∧
  (last_completed = None → i = 0%Z) ∧
  (∀ name, last_completed = Some name → name ∉ subfolders → i = 0%Z) ∧
  (∀ name pre post,
     last_completed = Some name → subfolders = pre ++ name :: post → name ∉ pre →
     i = if decide (post = []) then Z.of_nat (length pre)
         else (Z.of_nat (length pre) + 1)%Z).
Proof.
  intros Hne i. subst i. unfold Draw_boxes.start_index.
  assert (Hlen : (0 < length subfolders)%nat) by (destruct subfolders; [done|cbn; lia]).
  split; [|split; [|split]].
  - destruct last_completed as [name|]; [|lia].
    destruct (list_index name subfolders) as [k|] eqn:Hk; [|lia].
    destruct (list_index_split _ _ _ Hk) as (pre & post & Hd & _ & Hl).
    assert (k < length subfolders)%nat.
    { rewrite Hd, length_app. cbn. lia. }
    destruct (Z.leb_spec (Z.of_nat (length subfolders)) (Z.of_nat k + 1));
      [destruct (Z.ltb_spec (Z.of_nat (length subfolders) - 1) 0)|]; lia.
  - by intros ->.
  - intros name -> Hn. by rewrite list_index_missing.
  - intros name pre post -> Hd Hpre. rewrite Hd, list_index_found by done.
    rewrite length_app. cbn [length].
    destruct post as [|p post].
    + rewrite decide_True by done. cbn [length].
      destruct (Z.leb_spec (Z.of_nat (length pre + 1)) (Z.of_nat (length pre) + 1));
        [destruct (Z.ltb_spec (Z.of_nat (length pre + 1) - 1) 0)|]; lia.
    + rewrite decide_False by done. cbn [length].
      destruct (Z.leb_spec (Z.of_nat (length pre + S (S (length post))))
                  (Z.of_nat (length pre) + 1)); lia.
Qed.

(** X20.  The older program [draw_boxes.py] resumes after the group
    saved last: with a non-empty list of groups the start index is
    always within the list; it is 0 when the progress file names no
    group or a group that no longer exists, otherwise it is the index
    after the (first) position of the group saved last, or that position
    itself when it is the last one. *)
Theorem older_start_resumes_after_last_saved_group
    (last_completed : option string) (subfolders : list string) :
  subfolders ≠ [] →
  let i := Draw_boxes.start_index last_completed subfolders in
  (0 ≤ i < Z.of_nat (length subfolders))%Z ∧
  (last_completed = None → i = 0%Z) ∧
  (∀ name, last_completed = Some name → name ∉ subfolders → i = 0%Z) ∧
  (∀ name pre post,
     last_completed = Some name → subfolders = pre ++ name :: post → name ∉ pre →
     i = if decide (post = []) then Z.of_nat (length pre)
         else (Z.of_nat (length pre) + 1)%Z).
Proof. exact (older_start_index_spec last_completed subfolders). Qed.

Lemma older_start_resumes_after_last_saved_group_witness :
  ["A"; "B"; "C"] ≠ [] ∧
  Draw_boxes.start_index (Some "A") ["A"; "B"; "C"] = 1%Z ∧
  Draw_boxes.start_index (Some "C") ["A"; "B"; "C"] = 2%Z ∧
  Draw_boxes.start_index (Some "Z") ["A"; "B"; "C"] = 0%Z ∧
  (0 ≤ Draw_boxes.start_index (Some "B") ["A"; "B"; "C"] < 3)%Z.
Proof.
  assert (Hne : ["A"; "B"; "C"] ≠ []) by discriminate.
  split; [exact Hne|].
  split; [reflexivity|]. split; [reflexivity|]. split; [reflexivity|].
  exact (proj1 (older_start_resumes_after_last_saved_group (Some "B") ["A"; "B"; "C"] Hne)).
Defined.

End Category_facts.

(** ** Single steps: undo, previous, and the older canvas handlers *)

Module Step_facts.
Import Draw_boxes_ Engine_facts Save_facts Init_facts Box_facts Undo_facts Mapper_facts
       AddBox_facts Navigation_facts Reload_facts Roundtrip_facts Store_facts Frame_facts
       Session_facts Examples.

(** The one list object an undo changes is the working list of the
    image that the popped entry names. *)
Lemma undo_heap s canvas img :
  last (undo_stack s) = Some (canvas, img) →
  ∀ l, deref (heap (_action_undo_last_bbox s)) l
       = if decide (current_subfolder_active_annotations s !! img = Some l)
         then removelast (deref (heap s) l) else deref (heap s) l.
Proof.
  intros Hlast l. unfold _action_undo_last_bbox. rewrite Hlast. app_simpl.
  destruct (drawn_bbox_ids_on_canvas s !! img) as [[|id0 ids]|]; app_simpl;
    (destruct (current_subfolder_active_annotations s !! img) as [l0|] eqn:Hl;
     [destruct (deref (heap s) l0) as [|b bs] eqn:Hd|]); app_simpl;
    case_decide as Hc; simplify_eq;
    rewrite ?Hd, ?deref_mutate_same, ?Hd; try done;
    by (rewrite deref_mutate_other by congruence).
Qed.

Lemma undo_effect_content s canvas img :
  Inv s → last (undo_stack s) = Some (canvas, img) →
  let s' := _action_undo_last_bbox s in
  (∀ i, boxes s' i = if decide (i = img) then removelast (boxes s i) else boxes s i) ∧
  undo_stack s' = removelast (undo_stack s) ∧
  annotations_data s' = annotations_data s ∧
  (∀ l, deref (heap s') l
        = if decide (current_subfolder_active_annotations s !! img = Some l)
          then removelast (deref (heap s) l) else deref (heap s) l) ∧
  (Separated s → ∀ g i, saved_boxes s' g i = saved_boxes s g i) ∧
  canvas_drawing_state s' = canvas_drawing_state s ∧
  unsaved_changes s' = true.
Proof.
  intros HI Hlast s'. subst s'.
  destruct (undo_effect s canvas img HI Hlast) as (U1 & U2 & U3 & U4 & U5).
  split; [done|]. split; [done|]. split; [done|].
  split; [by apply (undo_heap s canvas img)|].
  split; [|done]. intros Hsep. by apply undo_store.
Qed.

Section WithEnv.
Variable E : Env.

Lemma previous_loads_previous yes s :
  Inv s →
  valid_index s (current_subfolder_index s - 1) →
  (unsaved_changes s = true → yes = true) →
  let s' := _action_previous_subfolder E yes s in
  let name := current_subfolder_name s' in
  current_subfolder_index s' = (current_subfolder_index s - 1)%Z ∧
  subfolders s !! Z.to_nat (current_subfolder_index s - 1) = Some name ∧
  (∀ img, loaded E name img → boxes s' img = saved_boxes s name img) ∧
  (∀ img, ¬ loaded E name img → boxes s' img = []) ∧
  (∀ g img, saved_boxes s' g img = saved_boxes s g img) ∧
  disk s' = disk s ∧
  undo_stack s' = [] ∧
  unsaved_changes s' = false.
Proof.
  intros HI Hv Hyes s' name. subst name s'.
  assert (Hgen : ∀ s0 : App,
            Inv s0 → subfolders s0 = subfolders s →
            current_subfolder_index s0 = current_subfolder_index s →
            (∀ g img, saved_boxes s0 g img = saved_boxes s g img) →
            disk s0 = disk s →
            let s' := _load_subfolder_by_index E (current_subfolder_index s0 - 1) s0 in
            let name := current_subfolder_name s' in
            current_subfolder_index s' = (current_subfolder_index s - 1)%Z ∧
            subfolders s !! Z.to_nat (current_subfolder_index s - 1) = Some name ∧
            (∀ img, loaded E name img → boxes s' img = saved_boxes s name img) ∧
            (∀ img, ¬ loaded E name img → boxes s' img = []) ∧
            (∀ g img, saved_boxes s' g img = saved_boxes s g img) ∧
            disk s' = disk s ∧
            undo_stack s' = [] ∧
            unsaved_changes s' = false).
  { intros s0 HI0 Hsub Hidx Hsb Hdk s' name. subst name s'.
    assert (Hv0 : valid_index s0 (current_subfolder_index s0 - 1)).
    { unfold valid_index in *. by rewrite Hsub, Hidx. }
    pose proof (load_boxes E _ s0 Hv0 HI0) as B. cbv zeta in B.
    pose proof (load_frame E _ s0 Hv0) as Fr. cbv zeta in Fr.
    generalize dependent (_load_subfolder_by_index E (current_subfolder_index s0 - 1) s0).
    intros s1 (B1 & B2 & B3) Fr.
    destruct Fr as (_ & G2 & G3 & _ & _ & _ & _ & G8 & _ & _ & G11 & G12 & _).
    rewrite Hidx in G2, G3. rewrite Hsub in G3.
    split; [done|]. split; [done|]. split; [|split; [done|split]].
    - intros img Hl. by rewrite B1, Hsb.
    - intros g img. by rewrite B3, Hsb.
    - by rewrite G8, Hdk. }
  unfold _action_previous_subfolder.
  destruct (unsaved_changes s) eqn:Hu.
  - rewrite (Hyes eq_refl). cbn [negb].
    apply (Hgen (askyesno "Unsaved Changes" "Go to previous without saving?" true s));
      try done.
    by destruct HI.
  - by apply (Hgen s).
Qed.

End WithEnv.

(** X21.  One undo, in any state that satisfies the invariant of the
    reachable states and has a non-empty undo stack: the top entry is
    popped, the last box of the image it names is removed (nothing
    happens to an empty list) and every other box list of the group is
    unchanged; the drawing state of the canvases is unchanged and the
    session is marked as having unsaved changes.  The in-memory store
    keeps its records, and the only list object that changes is the
    working list of the image named: the boxes that the store records
    are unchanged when no list of the working mapping is a list of the
    store, and a stored list that is that working list loses its last
    box as well. *)
Theorem undo_removes_last_box_of_top_entry
    (s : App) (canvas : nat) (img : string) :
  Inv s → last (undo_stack s) = Some (canvas, img) →
  let s' := _action_undo_last_bbox s in
  (∀ i, boxes s' i = if decide (i = img) then removelast (boxes s i) else boxes s i) ∧
  undo_stack s' = removelast (undo_stack s) ∧
  annotations_data s' = annotations_data s ∧
  (∀ l, deref (heap s') l
        = if decide (current_subfolder_active_annotations s !! img = Some l)
          then removelast (deref (heap s) l) else deref (heap s) l) ∧
  (Separated s → ∀ g i, saved_boxes s' g i = saved_boxes s g i) ∧
  canvas_drawing_state s' = canvas_drawing_state s ∧
  unsaved_changes s' = true.
Proof. exact (undo_effect_content s canvas img). Qed.

Lemma undo_removes_last_box_of_top_entry_witness :
  let s0 := (_action_save_annotations env_abc false (dirty_B env_abc)).2 in
  let s := _on_canvas_release 0 200 200 (_on_canvas_press 0 20 20 s0) in
  let s' := _action_undo_last_bbox s in
  Inv s ∧ last (undo_stack s) = Some (0%nat, "B1.PNG") ∧ Separated s ∧
  boxes s "B1.PNG" = [[10; 10; 100; 100]; [20; 20; 200; 200]]%Z ∧
  boxes s' "B1.PNG" = [[10; 10; 100; 100]]%Z ∧
  saved_boxes s' "B" "B1.PNG" = [[10; 10; 100; 100]]%Z ∧
  undo_stack s' = [] ∧
  unsaved_changes s' = true.
Proof.
  intros s0 s s'.
  assert (HI0 : Inv (dirty_B env_abc)) by apply Inv_run, Init_facts.Inv_init.
  assert (HI1 : Inv (_on_canvas_press 0 20 20 s0))
    by exact (Inv_press 0 20 20 s0 (Inv_save env_abc false _ HI0)).
  assert (HI : Inv s) by exact (Inv_release 0 200 200 _ HI1).
  assert (Hn : PyStr.truthy (current_subfolder_name (dirty_B env_abc)) = true)
    by reflexivity.
  assert (Hsep : Separated s).
  { exact (proj1 (release_store _ 0%nat 200%Z 200%Z HI1
                    (proj1 (press_store s0 0%nat 20%Z 20%Z
                              (plain_save_separated env_abc _ HI0 Hn))))). }
  assert (Hl : last (undo_stack s) = Some (0%nat, "B1.PNG")) by (vm_compute; reflexivity).
  split; [exact HI|]. split; [exact Hl|]. split; [exact Hsep|].
  pose proof (undo_removes_last_box_of_top_entry s 0%nat "B1.PNG" HI Hl) as H.
  cbv zeta in H. destruct H as (_ & _ & _ & _ & H5 & _ & H7).
  split; [vm_compute; reflexivity|]. split; [vm_compute; reflexivity|].
  split; [|split; [vm_compute; reflexivity|exact H7]].
  transitivity (saved_boxes s "B" "B1.PNG");
    [exact (H5 Hsep "B" "B1.PNG") | vm_compute; reflexivity].
Defined.

(** X22.  "Previous" on a group that has a predecessor, when nothing is
    unsaved or the user confirms: the previous group becomes the active
    one, its displayed images show the boxes the store records for them,
    what the store records and the files are unchanged, the undo stack
    is empty and nothing is unsaved. *)
Theorem previous_loads_previous_group_from_store (E : Env) (yes : bool) (s : App) :
  Inv s →
  valid_index s (current_subfolder_index s - 1) →
  (unsaved_changes s = true → yes = true) →
  let s' := _action_previous_subfolder E yes s in
  let name := current_subfolder_name s' in
  current_subfolder_index s' = (current_subfolder_index s - 1)%Z ∧
  subfolders s !! Z.to_nat (current_subfolder_index s - 1) = Some name ∧
  (∀ img, loaded E name img → boxes s' img = saved_boxes s name img) ∧
  (∀ img, ¬ loaded E name img → boxes s' img = []) ∧
  (∀ g img, saved_boxes s' g img = saved_boxes s g img) ∧
  disk s' = disk s ∧
  undo_stack s' = [] ∧
  unsaved_changes s' = false.
Proof. exact (previous_loads_previous E yes s). Qed.

Lemma previous_loads_previous_group_from_store_witness :
  let s := dirty_B env_abc in
  let s' := _action_previous_subfolder env_abc true s in
  Inv s ∧
  valid_index s (current_subfolder_index s - 1) ∧
  (unsaved_changes s = true → true = true) ∧
  current_subfolder_name s' = "A" ∧
  current_subfolder_index s' = 0%Z ∧
  saved_boxes s' "B" "B1.PNG" = [] ∧
  unsaved_changes s' = false.
Proof.
  intros s s'.
  assert (HI : Inv s) by apply Inv_run, Init_facts.Inv_init.
  assert (Hv : valid_index s (current_subfolder_index s - 1))
    by (vm_compute; split; [discriminate | reflexivity]).
  split; [exact HI|]. split; [exact Hv|]. split; [reflexivity|].
  pose proof (previous_loads_previous_group_from_store env_abc true s HI Hv
                (λ _, eq_refl)) as H.
  cbv zeta in H. destruct H as (H1 & _ & _ & _ & H5 & _ & _ & H8).
  split; [vm_compute; reflexivity|]. split; [exact H1|].
  split; [|exact H8].
  transitivity (saved_boxes s "B" "B1.PNG"); [exact (H5 "B" "B1.PNG") | reflexivity].
Defined.

(** X23.  For a press and a release that both lie on the 500x500
    surface the two programs compute the same box and reject the same
    gestures: the single size check of [draw_boxes_.py] on the unclamped
    box gives the result of the two checks and the clamping of
    [draw_boxes.py]. *)
Theorem release_box_same_in_both_programs_on_surface (sx sy ex ey : Z) :
  (0 ≤ sx ≤ 499 ∧ 0 ≤ sy ≤ 499 ∧ 0 ≤ ex ≤ 499 ∧ 0 ≤ ey ≤ 499)%Z →
  (if Draw_boxes_.too_small (Draw_boxes_.release_bbox sx sy ex ey) then None
   else Some (Draw_boxes_.release_bbox sx sy ex ey))
  = Draw_boxes.release_bbox sx sy ex ey.
Proof. exact (release_bbox_variants_agree_on_surface sx sy ex ey). Qed.

Lemma release_box_same_in_both_programs_on_surface_witness :
  (0 ≤ 100 ≤ 499 ∧ 0 ≤ 400 ≤ 499 ∧ 0 ≤ 10 ≤ 499 ∧ 0 ≤ 20 ≤ 499)%Z ∧
  Draw_boxes.release_bbox 100 400 10 20 = Some [10; 20; 100; 400]%Z ∧
  (if Draw_boxes_.too_small (Draw_boxes_.release_bbox 100 400 10 20) then None
   else Some (Draw_boxes_.release_bbox 100 400 10 20))
  = Draw_boxes.release_bbox 100 400 10 20.
Proof.
  assert (Hr : (0 ≤ 100 ≤ 499 ∧ 0 ≤ 400 ≤ 499 ∧ 0 ≤ 10 ≤ 499 ∧ 0 ≤ 20 ≤ 499)%Z) by lia.
  split; [exact Hr|]. split; [reflexivity|].
  exact (release_box_same_in_both_programs_on_surface 100 400 10 20 Hr).
Defined.

(** X24.  A release in the older program, on a canvas that shows an
    image and has a press pending: the box of the clamped computation is
    appended to the list of that image, and the list is unchanged when
    the computation rejects the gesture. *)
Theorem older_release_appends_the_clamped_box (s : Draw_boxes.App) (canvas : nat)
    (x y : Z) (state : DrawState) (img : string) (r : nat) :
  Draw_boxes.canvas_drawing_state s !! canvas = Some state →
  image_name state = Some img →
  active_rect_id state = Some r →
  let s' := Draw_boxes._on_canvas_release canvas x y s in
  match Draw_boxes.release_bbox (start_x state) (start_y state) x y with
  | None => Draw_boxes.boxes s' img = Draw_boxes.boxes s img
  | Some b => Draw_boxes.boxes s' img = Draw_boxes.boxes s img ++ [b]
  end.
Proof. exact (older_release_appends s canvas x y state img r). Qed.

Lemma older_release_appends_the_clamped_box_witness :
  Draw_boxes.canvas_drawing_state older_pressed_A !! 0%nat
  = Some (mkDrawState (Some "A1.PNG") 10 10 (Some 5%nat)) ∧
  Draw_boxes.release_bbox 10 10 520 100 = Some [10; 10; 499; 100]%Z ∧
  Draw_boxes.boxes (Draw_boxes._on_canvas_release 0 520 100 older_pressed_A) "A1.PNG"
  = Draw_boxes.boxes older_pressed_A "A1.PNG" ++ [[10; 10; 499; 100]%Z].
Proof.
  assert (Hc : Draw_boxes.canvas_drawing_state older_pressed_A !! 0%nat
               = Some (mkDrawState (Some "A1.PNG") 10 10 (Some 5%nat)))
    by (vm_compute; reflexivity).
  split; [exact Hc|]. split; [reflexivity|].
  exact (older_release_appends_the_clamped_box older_pressed_A 0 520 100
           (mkDrawState (Some "A1.PNG") 10 10 (Some 5%nat)) "A1.PNG" 5 Hc eq_refl eq_refl).
Defined.

(** X25.  "Previous" of the older program on the first group changes
    nothing but the dialog log: with unsaved changes it asks for
    confirmation and, when declined, shows no boundary dialog; otherwise
    it shows "You are at the first subfolder.". *)
Theorem older_previous_at_first_group_keeps_state
    (E : Draw_boxes.Env) (yes : bool) (s : Draw_boxes.App) :
  Draw_boxes.current_subfolder_index s = 0%Z →
  let s' := Draw_boxes._action_previous_subfolder E yes s in
  s' = Draw_boxes.with_dialogs (Draw_boxes.dialogs s') s ∧
  Draw_boxes.dialogs s' =
    Draw_boxes.dialogs s ++
    (if Draw_boxes.unsaved_changes s
     then AskYesNo "Unsaved Changes"
            "You have unsaved changes. Do you want to proceed to the previous subfolder without saving?"
            yes
          :: (if yes then [ShowInfo "Info" "You are at the first subfolder."] else [])
     else [ShowInfo "Info" "You are at the first subfolder."]).
Proof. exact (older_previous_at_first_group E yes s). Qed.

Lemma older_previous_at_first_group_keeps_state_witness :
  Draw_boxes.current_subfolder_index older_dirty_A = 0%Z ∧
  Draw_boxes.unsaved_changes older_dirty_A = true ∧
  Draw_boxes.dialogs (Draw_boxes._action_previous_subfolder older_env true older_dirty_A)
  = Draw_boxes.dialogs older_dirty_A ++
    [AskYesNo "Unsaved Changes"
       "You have unsaved changes. Do you want to proceed to the previous subfolder without saving?"
       true;
     ShowInfo "Info" "You are at the first subfolder."].
Proof.
  split; [reflexivity|]. split; [reflexivity|].
  exact (proj2 (older_previous_at_first_group_keeps_state older_env true older_dirty_A
                  eq_refl)).
Defined.

End Step_facts.

(** ** Saving and closing in the older program *)

Module Older_save_facts.
Import Older_load_facts Examples.

Ltac older_save_simpl :=
  cbn [fst snd Draw_boxes.subfolders Draw_boxes.current_subfolder_index
       Draw_boxes.current_subfolder_name Draw_boxes.annotations_data
       Draw_boxes.current_image_names Draw_boxes.drawn_bbox_ids_on_canvas
       Draw_boxes.current_subfolder_active_annotations Draw_boxes.canvas_drawing_state
       Draw_boxes.unsaved_changes Draw_boxes.heap Draw_boxes.next_item Draw_boxes.dialogs
       Draw_boxes.progress_data Draw_boxes.disk
       Draw_boxes.with_annotations_data Draw_boxes.with_unsaved_changes
       Draw_boxes.with_dialogs Draw_boxes.showinfo Draw_boxes.showerror] in *.

Section WithEnv.
Variable E : Draw_boxes.Env.
Variable can_write : string → bool.
Variable write_failure : string → string * option Draw_boxes.JsonDoc.

Lemma older_save_spec (called_from_next : bool) (s : Draw_boxes.App * Draw_boxes.Files) :
  PyStr.truthy (Draw_boxes.current_subfolder_name s.1) = true →
  let name := Draw_boxes.current_subfolder_name s.1 in
  let r := Draw_boxes._action_save_annotations can_write write_failure called_from_next s in
  r.1 = true ∧
  Draw_boxes.unsaved_changes r.2.1 = false ∧
  Draw_boxes.annotations_data r.2.1
  = <[name := Draw_boxes.current_subfolder_active_annotations s.1]>
      (Draw_boxes.annotations_data s.1) ∧
  Draw_boxes.current_subfolder_active_annotations r.2.1
  = Draw_boxes.current_subfolder_active_annotations s.1 ∧
  Draw_boxes.heap r.2.1 = Draw_boxes.heap s.1 ∧
  Draw_boxes.subfolders r.2.1 = Draw_boxes.subfolders s.1 ∧
  Draw_boxes.current_subfolder_index r.2.1 = Draw_boxes.current_subfolder_index s.1 ∧
  Draw_boxes.current_subfolder_name r.2.1 = name ∧
  Draw_boxes.progress_data r.2.2 = Some name ∧
  (can_write ANNOTATIONS_FILE = true →
     ∀ img, Draw_boxes.disk_boxes r.2.2 name img = Draw_boxes.boxes s.1 img) ∧
  (can_write PROGRESS_FILE = true →
     Draw_boxes.disk r.2.2 !! PROGRESS_FILE = Some (Draw_boxes.DocProgress (Some name))).
Proof.
  intros Hn name r. subst r. unfold Draw_boxes._action_save_annotations.
  rewrite Hn. cbn [negb]. fold name.
  unfold Draw_boxes._write_json_file.
  destruct s as [app files]. cbn [fst snd] in *.
  (destruct (can_write ANNOTATIONS_FILE) eqn:Ha;
     [|destruct (write_failure ANNOTATIONS_FILE).2]);
    (destruct (can_write PROGRESS_FILE) eqn:Hp;
       [|destruct (write_failure PROGRESS_FILE).2]); older_save_simpl;
    (split; [done|]); (split; [done|]); (split; [done|]); (split; [done|]);
    (split; [done|]); (split; [done|]); (split; [done|]); (split; [done|]);
    (split; [done|]); (split; [|intros Hw; try done; by rewrite lookup_insert_eq]);
    intros Hw; try done; intros img;
    unfold Draw_boxes.disk_boxes, Draw_boxes.dump_annotations, Draw_boxes.boxes;
    older_save_simpl;
    rewrite ?(lookup_insert_ne _ PROGRESS_FILE ANNOTATIONS_FILE) by done;
    rewrite lookup_insert_eq, lookup_fmap, lookup_insert_eq; cbn;
    rewrite lookup_fmap;
    by destruct (Draw_boxes.current_subfolder_active_annotations app !! img).
Qed.

Lemma older_release_keeps canvas x y (s : Draw_boxes.App) img l :
  Draw_boxes.current_subfolder_active_annotations s !! img = Some l →
  let s' := Draw_boxes._on_canvas_release canvas x y s in
  Draw_boxes.annotations_data s' = Draw_boxes.annotations_data s ∧
  Draw_boxes.current_subfolder_active_annotations s' !! img = Some l.
Proof.
  intros Hl s'. subst s'. unfold Draw_boxes._on_canvas_release.
  destruct (Draw_boxes.canvas_drawing_state s !! canvas) as [state|]; [|done].
  destruct (image_name state) as [cur|]; [|done].
  destruct (active_rect_id state); [|done].
  destruct (Draw_boxes.release_bbox _ _ _ _); [|done].
  cbn.
  destruct (Draw_boxes.current_subfolder_active_annotations s !! cur) as [l'|] eqn:Hc.
  - cbn. done.
  - cbn. split; [done|]. rewrite lookup_insert_ne; [done|]. intros ->. congruence.
Qed.

Lemma older_save_shares (called_from_next : bool)
    (s : Draw_boxes.App * Draw_boxes.Files) :
  PyStr.truthy (Draw_boxes.current_subfolder_name s.1) = true →
  let name := Draw_boxes.current_subfolder_name s.1 in
  let s' := (Draw_boxes._action_save_annotations can_write write_failure called_from_next s).2 in
  (∀ img, Draw_boxes.saved_boxes s'.1 name img = Draw_boxes.boxes s.1 img) ∧
  (can_write ANNOTATIONS_FILE = true →
     ∀ img, Draw_boxes.disk_boxes s'.2 name img = Draw_boxes.boxes s.1 img) ∧
  Draw_boxes.progress_data s'.2 = Some name ∧
  Draw_boxes.unsaved_changes s'.1 = false ∧
  (∀ canvas x y img,
     is_Some (Draw_boxes.current_subfolder_active_annotations s.1 !! img) →
     Draw_boxes.saved_boxes (Draw_boxes._on_canvas_release canvas x y s'.1) name img
     = Draw_boxes.boxes (Draw_boxes._on_canvas_release canvas x y s'.1) img).
Proof.
  intros Hn name s'. subst s'.
  destruct (older_save_spec called_from_next s Hn)
    as (_ & H2 & H3 & H4 & H5 & _ & _ & _ & H9 & H10 & _).
  fold name in H3, H9, H10.
  generalize dependent (Draw_boxes._action_save_annotations can_write write_failure called_from_next s).
  intros [ok [app' files']]. cbn [fst snd]. intros H2 H3 H4 H5 H9 H10.
  split; [|split; [done|split; [done|split; [done|]]]].
  - intros img. unfold Draw_boxes.saved_boxes, Draw_boxes.boxes.
    rewrite H3, lookup_insert_eq, H5. done.
  - intros canvas x y img [l Hl].
    rewrite <- H4 in Hl.
    destruct (older_release_keeps canvas x y app' img l Hl) as [R1 R2].
    unfold Draw_boxes.saved_boxes, Draw_boxes.boxes.
    rewrite R1, R2, H3, lookup_insert_eq. rewrite <- H4, Hl. done.
Qed.

Lemma older_load_unsaved idx (s : Draw_boxes.App) :
  Draw_boxes.unsaved_changes s = false →
  Draw_boxes.unsaved_changes (Draw_boxes._load_subfolder_by_index E idx s) = false.
Proof.
  intros Hu.
  destruct (decide (0 ≤ idx < Z.of_nat (length (Draw_boxes.subfolders s)))%Z) as [Hv|Hv].
  - by destruct (older_load_fresh E idx s Hv) as (_ & _ & _ & ?).
  - unfold Draw_boxes._load_subfolder_by_index.
    destruct (Draw_boxes.subfolders s) as [|d ds] eqn:Hs; [done|].
    rewrite <- Hs in *.
    destruct (negb _) eqn:Hb.
    + destruct (Z.of_nat (length (Draw_boxes.subfolders s)) <=? idx)%Z; exact Hu.
    + apply negb_false_iff, andb_true_iff in Hb as [Hb1 Hb2]. lia.
Qed.

Lemma older_save_and_next_spec (s : Draw_boxes.App * Draw_boxes.Files) :
  PyStr.truthy (Draw_boxes.current_subfolder_name s.1) = true →
  let name := Draw_boxes.current_subfolder_name s.1 in
  let idx := Draw_boxes.current_subfolder_index s.1 in
  let last_idx := (Z.of_nat (length (Draw_boxes.subfolders s.1)) - 1)%Z in
  let s' := Draw_boxes._action_save_and_next E can_write write_failure s in
  Draw_boxes.progress_data s'.2 = Some name ∧
  (can_write ANNOTATIONS_FILE = true →
     ∀ img, Draw_boxes.disk_boxes s'.2 name img = Draw_boxes.boxes s.1 img) ∧
  Draw_boxes.unsaved_changes s'.1 = false ∧
  ((0 ≤ idx < last_idx)%Z →
     Draw_boxes.current_subfolder_index s'.1 = (idx + 1)%Z ∧
     Draw_boxes.subfolders s.1 !! Z.to_nat (idx + 1)
     = Some (Draw_boxes.current_subfolder_name s'.1) ∧
     Draw_boxes.canvases_fresh s'.1) ∧
  ((last_idx ≤ idx)%Z →
     Draw_boxes.current_subfolder_index s'.1 = idx ∧
     Draw_boxes.current_subfolder_name s'.1 = name ∧
     (∀ img, Draw_boxes.boxes s'.1 img = Draw_boxes.boxes s.1 img) ∧
     last (Draw_boxes.dialogs s'.1)
     = Some (ShowInfo "Info" "You have reached the end of the subfolders.")).
Proof.
  intros Hn name idx last_idx s'. subst s'. unfold Draw_boxes._action_save_and_next.
  destruct (older_save_spec true s Hn)
    as (H1 & H2 & H3 & H4 & H5 & H6 & H7 & H8 & H9 & H10 & _).
  fold name in H3, H8, H9, H10.
  generalize dependent (Draw_boxes._action_save_annotations can_write write_failure true s).
  intros [ok [app' files']]. cbn [fst snd]. intros -> H2 H3 H4 H5 H6 H7 H8 H9 H10.
  rewrite H6, H7. fold idx last_idx.
  destruct (Z.ltb_spec idx last_idx) as [Hlt|Hge]; cbn [fst snd].
  - split; [done|]. split; [done|].
    assert (Hres : (0 ≤ idx →
              Draw_boxes.canvases_fresh
                (Draw_boxes._load_subfolder_by_index E (idx + 1) app') ∧
              Draw_boxes.current_subfolder_index
                (Draw_boxes._load_subfolder_by_index E (idx + 1) app') = (idx + 1)%Z ∧
              Draw_boxes.subfolders app' !! Z.to_nat (idx + 1)
              = Some (Draw_boxes.current_subfolder_name
                        (Draw_boxes._load_subfolder_by_index E (idx + 1) app')) ∧
              Draw_boxes.unsaved_changes
                (Draw_boxes._load_subfolder_by_index E (idx + 1) app') = false)%Z).
    { intros H0. apply (older_load_fresh E (idx + 1) app').
      rewrite H6. subst last_idx. lia. }
    assert (Hu : Draw_boxes.unsaved_changes
                   (Draw_boxes._load_subfolder_by_index E (idx + 1) app') = false)
      by (by apply older_load_unsaved).
    generalize dependent (Draw_boxes._load_subfolder_by_index E (idx + 1) app').
    intros app2 Hres Hu. rewrite H6 in Hres.
    split; [done|]. split; [|lia].
    intros [H0 _]. destruct (Hres H0) as (R1 & R2 & R3 & _). done.
  - split; [done|]. split; [done|]. split; [done|]. split; [lia|].
    intros _. older_save_simpl. rewrite last_snoc.
    split; [done|]. split; [done|]. split; [|done].
    intros img. unfold Draw_boxes.boxes. older_save_simpl. by rewrite H4, H5.
Qed.

Lemma older_close_spec (choice : Draw_boxes_.ExitChoice)
    (s : Draw_boxes.App * Draw_boxes.Files) :
  let name := Draw_boxes.current_subfolder_name s.1 in
  let r := Draw_boxes._on_app_close can_write write_failure choice s in
  (r.2 = true ↔
     Draw_boxes.unsaved_changes s.1 = false ∨ choice ≠ Draw_boxes_.ChoiceCancel) ∧
  (Draw_boxes.unsaved_changes s.1 = false ∨ choice ≠ Draw_boxes_.ChoiceSaveExit →
     r.1 = s) ∧
  (Draw_boxes.unsaved_changes s.1 = true → choice = Draw_boxes_.ChoiceSaveExit →
     (PyStr.truthy name = false → r = (s, true)) ∧
     (PyStr.truthy name = true →
        Draw_boxes.unsaved_changes r.1.1 = false ∧
        (can_write ANNOTATIONS_FILE = true →
           ∀ img, Draw_boxes.disk_boxes r.1.2 name img = Draw_boxes.boxes s.1 img))).
Proof.
  intros name r. subst r. unfold Draw_boxes._on_app_close.
  destruct (Draw_boxes.unsaved_changes s.1) eqn:Hu.
  2:{ cbn [fst snd]. split; [split; [auto|done]|]. split; [done|]. done. }
  destruct choice; cbn [fst snd].
  - split; [split; [intros _; by right|done]|].
    split; [intros [?|?]; done|]. intros _ _. split.
    + intros Hn. unfold Draw_boxes._action_save_annotations. fold name.
      by rewrite Hn.
    + intros Hn.
      destruct (older_save_spec false s Hn) as (_ & H2 & _ & _ & _ & _ & _ & _ & _ & H10 & _).
      done.
  - split; [split; [intros _; by right|done]|]. split; [done|]. done.
  - split; [split; [done|intros [?|?]; done]|]. split; [done|]. done.
Qed.

End WithEnv.

(** X26.  A save in the older program [draw_boxes.py] records, for the
    loaded group, the box lists of the working mapping in the in-memory
    store and (when it can be written) in the annotation file, names the
    group as the one completed last and clears the unsaved flag.  It
    does not reload the group, so the store keeps sharing its lists with
    the working mapping: after any later release, the store holds for
    every image that had an entry at the save the same boxes as the
    working mapping, the new box included, without a save. *)
Theorem older_save_shares_lists_with_working_mapping
    (can_write : string → bool)
    (write_failure : string → string * option Draw_boxes.JsonDoc)
    (called_from_next : bool)
    (s : Draw_boxes.App * Draw_boxes.Files) :
  PyStr.truthy (Draw_boxes.current_subfolder_name s.1) = true →
  let name := Draw_boxes.current_subfolder_name s.1 in
  let s' := (Draw_boxes._action_save_annotations can_write write_failure called_from_next s).2 in
  (∀ img, Draw_boxes.saved_boxes s'.1 name img = Draw_boxes.boxes s.1 img) ∧
  (can_write ANNOTATIONS_FILE = true →
     ∀ img, Draw_boxes.disk_boxes s'.2 name img = Draw_boxes.boxes s.1 img) ∧
  Draw_boxes.progress_data s'.2 = Some name ∧
  Draw_boxes.unsaved_changes s'.1 = false ∧
  (∀ canvas x y img,
     is_Some (Draw_boxes.current_subfolder_active_annotations s.1 !! img) →
     Draw_boxes.saved_boxes (Draw_boxes._on_canvas_release canvas x y s'.1) name img
     = Draw_boxes.boxes (Draw_boxes._on_canvas_release canvas x y s'.1) img).
Proof. exact (older_save_shares can_write write_failure called_from_next s). Qed.

Lemma older_save_shares_lists_with_working_mapping_witness :
  let s := older_saved_B_then_drawn in
  let app1 := Draw_boxes._action_previous_subfolder older_env true s.1 in
  let s2 := (Draw_boxes._action_save_annotations (λ _, true) (λ _, ("", None)) false (app1, s.2)).2 in
  PyStr.truthy (Draw_boxes.current_subfolder_name (app1, s.2).1) = true ∧
  Draw_boxes.unsaved_changes s.1 = true ∧
  Draw_boxes.disk_boxes s.2 "B" "B1.PNG" = [[10; 10; 100; 100]]%Z ∧
  Draw_boxes.saved_boxes s.1 "B" "B1.PNG" = [[10; 10; 100; 100]; [20; 20; 200; 200]]%Z ∧
  Draw_boxes.current_subfolder_name app1 = "A" ∧
  Draw_boxes.progress_data s2.2 = Some "A" ∧
  Draw_boxes.disk_boxes s2.2 "B" "B1.PNG" = [[10; 10; 100; 100]; [20; 20; 200; 200]]%Z.
Proof.
  intros s app1 s2.
  assert (Hn : PyStr.truthy (Draw_boxes.current_subfolder_name (app1, s.2).1) = true)
    by (vm_compute; reflexivity).
  split; [exact Hn|].
  pose proof (older_save_shares_lists_with_working_mapping (λ _, true)
                (λ _, ("", None)) false (app1, s.2) Hn) as H.
  cbv zeta in H. destruct H as (_ & _ & H3 & _).
  split; [vm_compute; reflexivity|]. split; [vm_compute; reflexivity|].
  split; [vm_compute; reflexivity|]. split; [vm_compute; reflexivity|].
  split; [|vm_compute; reflexivity].
  transitivity (Some (Draw_boxes.current_subfolder_name (app1, s.2).1));
    [exact H3 | vm_compute; reflexivity].
Defined.

(** X27.  Save-and-next in the older program, with a group loaded: the
    group is saved (named as completed last, written to the annotation
    file when possible, nothing unsaved afterwards); when a next group
    exists it becomes the active one and every canvas is reset, and on
    the last group the session stays on it with its boxes and the dialog
    "You have reached the end of the subfolders." is shown. *)
Theorem older_save_and_next_saves_then_moves_or_stays
    (E : Draw_boxes.Env) (can_write : string → bool)
    (write_failure : string → string * option Draw_boxes.JsonDoc)
    (s : Draw_boxes.App * Draw_boxes.Files) :
  PyStr.truthy (Draw_boxes.current_subfolder_name s.1) = true →
  let name := Draw_boxes.current_subfolder_name s.1 in
  let idx := Draw_boxes.current_subfolder_index s.1 in
  let last_idx := (Z.of_nat (length (Draw_boxes.subfolders s.1)) - 1)%Z in
  let s' := Draw_boxes._action_save_and_next E can_write write_failure s in
  Draw_boxes.progress_data s'.2 = Some name ∧
  (can_write ANNOTATIONS_FILE = true →
     ∀ img, Draw_boxes.disk_boxes s'.2 name img = Draw_boxes.boxes s.1 img) ∧
  Draw_boxes.unsaved_changes s'.1 = false ∧
  ((0 ≤ idx < last_idx)%Z →
     Draw_boxes.current_subfolder_index s'.1 = (idx + 1)%Z ∧
     Draw_boxes.subfolders s.1 !! Z.to_nat (idx + 1)
     = Some (Draw_boxes.current_subfolder_name s'.1) ∧
     Draw_boxes.canvases_fresh s'.1) ∧
  ((last_idx ≤ idx)%Z →
     Draw_boxes.current_subfolder_index s'.1 = idx ∧
     Draw_boxes.current_subfolder_name s'.1 = name ∧
     (∀ img, Draw_boxes.boxes s'.1 img = Draw_boxes.boxes s.1 img) ∧
     last (Draw_boxes.dialogs s'.1)
     = Some (ShowInfo "Info" "You have reached the end of the subfolders.")).
Proof. exact (older_save_and_next_spec E can_write write_failure s). Qed.

Lemma older_save_and_next_saves_then_moves_or_stays_witness :
  let s := older_saved_B_then_drawn in
  let s' := Draw_boxes._action_save_and_next older_env (λ _, true) (λ _, ("", None)) s in
  PyStr.truthy (Draw_boxes.current_subfolder_name s.1) = true ∧
  Draw_boxes.current_subfolder_name s.1 = "B" ∧
  Draw_boxes.current_subfolder_name s'.1 = "C" ∧
  Draw_boxes.current_subfolder_index s'.1 = 2%Z ∧
  Draw_boxes.progress_data s'.2 = Some "B" ∧
  Draw_boxes.unsaved_changes s'.1 = false.
Proof.
  intros s s'.
  assert (Hn : PyStr.truthy (Draw_boxes.current_subfolder_name s.1) = true)
    by (vm_compute; reflexivity).
  split; [exact Hn|].
  pose proof (older_save_and_next_saves_then_moves_or_stays older_env (λ _, true)
                (λ _, ("", None)) s Hn) as H.
  cbv zeta in H. destruct H as (_ & _ & H3 & _).
  split; [vm_compute; reflexivity|]. split; [vm_compute; reflexivity|].
  split; [vm_compute; reflexivity|]. split; [vm_compute; reflexivity|]. exact H3.
Defined.

(** X28.  Closing the window of the older program.  The window is
    destroyed unless there are unsaved changes and the user cancels.
    Without unsaved changes, or with "Exit without Saving" or "Cancel",
    the session itself is untouched.  "Save and Exit" saves the loaded
    group first; when no group is loaded nothing is saved and the window
    is destroyed all the same. *)
Theorem older_close_destroys_unless_cancelled
    (can_write : string → bool)
    (write_failure : string → string * option Draw_boxes.JsonDoc)
    (choice : Draw_boxes_.ExitChoice)
    (s : Draw_boxes.App * Draw_boxes.Files) :
  let name := Draw_boxes.current_subfolder_name s.1 in
  let r := Draw_boxes._on_app_close can_write write_failure choice s in
  (r.2 = true ↔
     Draw_boxes.unsaved_changes s.1 = false ∨ choice ≠ Draw_boxes_.ChoiceCancel) ∧
  (Draw_boxes.unsaved_changes s.1 = false ∨ choice ≠ Draw_boxes_.ChoiceSaveExit →
     r.1 = s) ∧
  (Draw_boxes.unsaved_changes s.1 = true → choice = Draw_boxes_.ChoiceSaveExit →
     (PyStr.truthy name = false → r = (s, true)) ∧
     (PyStr.truthy name = true →
        Draw_boxes.unsaved_changes r.1.1 = false ∧
        (can_write ANNOTATIONS_FILE = true →
           ∀ img, Draw_boxes.disk_boxes r.1.2 name img = Draw_boxes.boxes s.1 img))).
Proof. exact (older_close_spec can_write write_failure choice s). Qed.

End Older_save_facts.

(** ** The mouse wheel *)

Module Wheel_facts.
Import Draw_boxes_.

Lemma land_1_odd (state : Z) : (Z.land state 1 =? 0)%Z = negb (Z.odd state).
Proof.
  change 1%Z with (Z.ones 1). rewrite Z.land_ones by lia.
  change (2 ^ 1)%Z with 2%Z. rewrite Zmod_odd.
  by destruct (Z.odd state).
Qed.

Lemma wheel_spec (state delta : Z) :
  let units := (- (delta / 120))%Z in
  _on_mouse_wheel_scroll state delta
  = (if Z.odd state then XviewScroll units else YviewScroll units) ∧
  (units = 0 ↔ 0 ≤ delta < 120)%Z ∧
  (∀ k, delta = 120 * k → units = - k)%Z ∧
  (0 < delta → units ≤ 0)%Z ∧
  (delta < 0 → 1 ≤ units)%Z.
Proof.
  intros units. subst units. unfold _on_mouse_wheel_scroll.
  rewrite land_1_odd, negb_involutive.
  replace (-1 * (delta / 120))%Z with (- (delta / 120))%Z by lia.
  split; [done|].
  pose proof (Z.div_mod delta 120 ltac:(lia)) as Hdm.
  pose proof (Z.mod_pos_bound delta 120 ltac:(lia)) as Hb.
  split; [lia|]. split; [|lia].
  intros k ->. rewrite Z.mul_comm, Z.div_mul by lia. done.
Qed.

(** X29.  The mouse wheel: the overall canvas is scrolled horizontally
    when bit 0 of the modifier mask (Shift) is set and vertically
    otherwise, by minus the floor of [delta / 120] units.  A movement of
    [k] full notches scrolls by [-k] units; no scrolling happens exactly
    for [0 <= delta < 120]; every negative movement, however small,
    scrolls by at least one unit, while a positive movement below one
    notch does not scroll. *)
Theorem wheel_scrolls_by_floor_of_notches (state delta : Z) :
  let units := (- (delta / 120))%Z in
  _on_mouse_wheel_scroll state delta
  = (if Z.odd state then XviewScroll units else YviewScroll units) ∧
  (units = 0 ↔ 0 ≤ delta < 120)%Z ∧
  (∀ k, delta = 120 * k → units = - k)%Z ∧
  (0 < delta → units ≤ 0)%Z ∧
  (delta < 0 → 1 ≤ units)%Z.
Proof. exact (wheel_spec state delta). Qed.

Example wheel_small_movements :
  _on_mouse_wheel_scroll 0 120 = YviewScroll (-1) ∧
  _on_mouse_wheel_scroll 1 (-240) = XviewScroll 2 ∧
  _on_mouse_wheel_scroll 0 30 = YviewScroll 0 ∧
  _on_mouse_wheel_scroll 0 (-30) = YviewScroll 1.
Proof. repeat split. Qed.

End Wheel_facts.
